(** * Fetch orchestration core of cloudquery (package [core]): a shallow embedding

    The development follows the Go source of the fetch engine: the resource
    name resolver ([matchResourceGlob], [doGlobResources],
    [doNormalizeResources]), the per-provider runner ([runProviderFetch],
    [executeFetch]) and the orchestrator ([Fetch]), together with the summary
    types and their methods. It then follows the configuration parser of
    package [config] ([ProcessConfig] and the functions it calls) and the
    parsing of the provider argument of [cloudquery init]
    ([ParseProviderCLIArg]).

    Conventions.
    - A Go [string] is a [string] (a sequence of bytes); [len] is
      [String.length].
    - A Go [int] is a [Z]; a [uint64] is a [Z] whose additions wrap around
      at [2^64] ([add64]).
    - A Go slice that may be [nil] is an [option (list _)]: [None] is [nil].
    - A Go [map[string]V] is a [gmap string V]; the order in which a
      [for ... range] statement visits its keys is left open by the language
      and is a parameter here ([MapRange]).
    - A Go [error] is represented by the text its [Error()] method prints.
    - Wall-clock readings ([time.Now], [time.Since], the [Duration]
      fields), logging and the deferred release of the plugin
      ([pm.ClosePlugin]) are left out: no property below depends on them. *)

From Stdlib Require Import ZArith String Ascii List.
From stdpp Require Import gmap strings list sorting.

Set Warnings "-clear-no-such-hyp".

Local Open Scope string_scope.
Local Open Scope list_scope.
Local Open Scope stdpp_scope.
Local Open Scope Z_scope.

(** ** Go basics *)

Definition error := string.

Definition uint64_modulus : Z := 2 ^ 64.

(** [a + b] on [uint64]. *)
Definition add64 (a b : Z) : Z := (a + b) mod uint64_modulus.

(** The elements of a possibly-nil slice. *)
Definition elems {A : Type} (s : option (list A)) : list A := default [] s.

(** [append(s, x)]: appending to a nil slice allocates. *)
Definition goAppend {A : Type} (s : option (list A)) (x : A) : option (list A) :=
  Some (elems s ++ [x]).

Module strings.

(** [strings.Index(s, substr)]: offset of the first occurrence, [-1] when
    there is none. *)
Definition Index (s substr : string) : Z :=
  match String.index 0 substr s with
  | Some n => Z.of_nat n
  | None => -1
  end.

(** [strings.HasPrefix(s, prefix)] *)
Definition HasPrefix (s prefix : string) : bool := String.prefix prefix s.

(** [strings.Contains(s, substr)] is [Index(s, substr) >= 0]. *)
Definition Contains (s substr : string) : bool := bool_decide (0 ≤ Index s substr).

(** [s[:n]] *)
Definition slice_to (s : string) (n : Z) : string := String.substring 0 (Z.to_nat n) s.

Definition len (s : string) : Z := Z.of_nat (String.length s).

End strings.

Module fmt.

Definition dquote : string := String (ascii_of_nat 34) EmptyString.
Definition backslash : string := String (ascii_of_nat 92) EmptyString.

Fixpoint escape (s : string) : string :=
  match s with
  | EmptyString => EmptyString
  | String c s' =>
      if decide (c = ascii_of_nat 34) then backslash +:+ dquote +:+ escape s'
      else if decide (c = ascii_of_nat 92) then backslash +:+ backslash +:+ escape s'
      else String c (escape s')
  end.

(** The verb [%q] on a string: the string between double quotes, with
    double quotes and backslashes escaped. (Go also escapes control and
    non-ASCII bytes; resource names made of such bytes are outside this
    rendering, and no statement below depends on the rendered text of
    such a name.) *)
Definition q (s : string) : string := dquote +:+ escape s +:+ dquote.

End fmt.

(** ** Diagnostics (package [diag] of the provider SDK)

    Modelled from the spec: the package is a dependency and not part of the
    sources. A diagnostics value is an ordered sequence of entries, each with
    a severity, a classification, the wrapped error, a summary, details and
    an optional resource name; [Add] is concatenation; [HasErrors] holds
    when some entry has severity error or above; [HasDiags] when the
    sequence is not empty. [FromError] wraps one error into one entry of
    severity [ERROR] unless an option says otherwise; of a nil error it
    makes nothing, the nil collection, whatever the options. *)
Module diag.

Inductive Severity := WARNING | ERROR | PANIC.
Inductive Type_ := RESOLVING | INTERNAL | USER.

#[global] Instance Severity_eq_dec : EqDecision Severity.
Proof. solve_decision. Defined.
#[global] Instance Type_eq_dec : EqDecision Type_.
Proof. solve_decision. Defined.

Record Diagnostic := mkDiagnostic {
  severity : Severity;
  type : Type_;
  err : option error;
  summary : string;
  details : string;
  resource : string
}.

Definition Diagnostics := list Diagnostic.

Inductive BaseErrorOption :=
| WithSeverity (s : Severity)
| WithSummary (s : string)
| WithDetails (s : string)
| WithResourceName (s : string).

Definition applyOption (d : Diagnostic) (o : BaseErrorOption) : Diagnostic :=
  match o with
  | WithSeverity s => mkDiagnostic s (type d) (err d) (summary d) (details d) (resource d)
  | WithSummary s => mkDiagnostic (severity d) (type d) (err d) s (details d) (resource d)
  | WithDetails s => mkDiagnostic (severity d) (type d) (err d) (summary d) s (resource d)
  | WithResourceName s => mkDiagnostic (severity d) (type d) (err d) (summary d) (details d) s
  end.

Definition FromError (e : option error) (dt : Type_) (opts : list BaseErrorOption)
  : Diagnostics :=
  match e with
  | None => []
  | Some _ => [fold_left applyOption opts (mkDiagnostic ERROR dt e "" "" "")]
  end.

Definition Add (a b : Diagnostics) : Diagnostics := a ++ b.

Definition isError (d : Diagnostic) : bool :=
  match severity d with WARNING => false | ERROR | PANIC => true end.

Definition HasErrors (ds : Diagnostics) : bool := existsb isError ds.

Definition HasDiags (ds : Diagnostics) : bool := negb (Nat.eqb (length ds) 0).

Definition Len (ds : Diagnostics) : Z := Z.of_nat (length ds).

(** [Errors()]: the number of entries counted as errors. *)
Definition Errors (ds : Diagnostics) : Z := Z.of_nat (length (List.filter isError ds)).

(** [BySeverity(s...)]: the entries whose severity is one of [sevs]. *)
Definition BySeverity (sevs : list Severity) (ds : Diagnostics) : Diagnostics :=
  List.filter (λ d, bool_decide (severity d ∈ sevs)) ds.

(** A user-classified error entry. *)
Definition isUserError (d : Diagnostic) : Prop :=
  type d = USER ∧ severity d = ERROR.

End diag.

(** ** Helper packages *)

Module cqsort.

(** Modelled from the spec: [cqsort.Unique] (internal/sort) is not among
    the sources. The resolver's final result is the "canonical sorted,
    duplicate-free set of accepted names": the names in byte-wise
    lexicographic order ([sort.Strings]), each kept once. *)
Definition Unique (a : list string) : list string :=
  merge_sort String.le (remove_dups a).

End cqsort.

Module funk.

(** [funk.Subtract(x, y)] (go-funk): a fresh, non-nil slice with the
    elements of [x] that do not occur in [y], in the order of [x]. *)
Definition Subtract (x y : option (list string)) : option (list string) :=
  Some (filter (λ v, v ∉ elems y) (elems x)).

End funk.

Module schema.

(** [schema.Table]: the resolver only uses the keys of the catalog; the
    table descriptor itself is never inspected by the core. *)
Record Table := mkTable { Name : string }.

End schema.

(** ** Iteration order of the resource catalog

    [for k := range all] visits every key of the map exactly once, in an
    order the language does not fix. [rangeKeys] is that order; the
    properties below hold for every such order, and the results of the
    resolver are shown not to depend on it ([doGlobResources_order]). *)
Class MapRange := {
  rangeKeys : gmap string schema.Table → list string;
  rangeKeys_perm : ∀ m, rangeKeys m ≡ₚ elements (dom m)
}.

(** One admissible order: the one of [elements]. *)
#[export] Instance elementsRange : MapRange :=
  {| rangeKeys := λ m, elements (dom m); rangeKeys_perm := λ m, reflexivity _ |}.

(** ** Resource name resolver *)

Section Resolver.

Context `{MR : MapRange}.

Definition errGlobNotAtEnd : diag.Diagnostics :=
  diag.FromError (Some "invalid wildcard syntax") diag.USER
    [diag.WithDetails "resource match should end with `.*`"].

Definition errGlobSyntax : diag.Diagnostics :=
  diag.FromError (Some "invalid wildcard syntax") diag.USER
    [diag.WithDetails "you can only use `*` or `resource.*` or full resource name"].

Definition errWildcardInSkip : diag.Diagnostics :=
  diag.FromError (Some "wildcard resource can only be in the requested resources list")
    diag.USER
    [diag.WithDetails "you can only use * in the resources part of the configuration"].

Definition errEmptyName : diag.Diagnostics :=
  diag.FromError (Some "invalid resource") diag.USER
    [diag.WithDetails "empty resource names are not allowed"].

Definition errDuplicate (r : string) : diag.Diagnostics :=
  diag.FromError (Some ("resource " +:+ fmt.q r +:+ " is duplicate")) diag.USER
    [diag.WithDetails "configuration has duplicate resources"].

Definition errWildcardNotAlone : diag.Diagnostics :=
  diag.FromError (Some "wildcard resource must be the only one in the list") diag.USER
    [diag.WithDetails
       "you can only use * or a list of resources in configuration, but not both"].

Definition errNotExist (r : string) : diag.Diagnostics :=
  diag.FromError (Some ("resource " +:+ fmt.q r +:+ " does not exist")) diag.USER
    [diag.WithDetails
       "configuration refers to a non-existing resource. Maybe you recently downgraded the provider but kept the config, or a typo perhaps?"].

(** The loop [for k := range all { if HasPrefix(k, prefix) { result =
    append(result, k) } }] of [matchResourceGlob]. *)
Fixpoint collectPrefixed (prefix : string) (ks : list string)
    (result : option (list string)) : option (list string) :=
  match ks with
  | [] => result
  | k :: ks' =>
      if strings.HasPrefix k prefix
      then collectPrefixed prefix ks' (goAppend result k)
      else collectPrefixed prefix ks' result
  end.

(** [matchResourceGlob] matches pattern to the given resources, returns
    matched resources or diags. *)
Definition matchResourceGlob (pattern : string) (all : gmap string schema.Table)
  : option (list string) * diag.Diagnostics :=
  let wildPos := strings.Index pattern ".*" in
  if bool_decide (wildPos > 0) then
    if bool_decide (wildPos ≠ strings.len pattern - 2)
    then (None, errGlobNotAtEnd)
    else (collectPrefixed (strings.slice_to pattern (wildPos + 1)) (rangeKeys all) None, [])
  else if bool_decide (wildPos = 0) || strings.Contains pattern "*"
  then (None, errGlobSyntax)
  else (None, []).

(** The main loop of [doGlobResources], with its local variables [result]
    and [seen] as accumulators. *)
Fixpoint globLoop (all : gmap string schema.Table) (requested : list string)
    (result : list string) (seen : gset string)
  : option (list string) * diag.Diagnostics :=
  match requested with
  | [] => (Some (cqsort.Unique result), [])
  | r :: rest =>
      if bool_decide (r = "") then (None, errEmptyName)
      else if bool_decide (r ∈ seen) then (None, errDuplicate r)
      else
        let seen' := {[r]} ∪ seen in
        match all !! r with
        | Some _ => globLoop all rest (result ++ [r]) seen'
        | None =>
            if bool_decide (r = "*") then (None, errWildcardNotAlone)
            else
              let '(globMatches, diags) := matchResourceGlob r all in
              if diag.HasDiags diags then (None, diags)
              else if bool_decide (length (elems globMatches) = 0%nat)
              then (None, errNotExist r)
              else globLoop all rest (result ++ elems globMatches) seen'
        end
  end.

(** [doGlobResources] returns a canonical list of resources given a list
    of requested and all known resources. [allowWild] is the source's
    parameter: it is [true] for the skip list, where the wildcard is
    refused, and [false] for the requested list, where a lone wildcard is
    expanded. *)
Definition doGlobResources (requested : list string) (allowWild : bool)
    (all : gmap string schema.Table) : option (list string) * diag.Diagnostics :=
  if allowWild then
    if bool_decide ("*" ∈ requested) then (None, errWildcardInSkip)
    else globLoop all requested [] ∅
  else if bool_decide (length requested = 1%nat) && bool_decide (head requested = Some "*")
  then globLoop all (rangeKeys all) [] ∅
  else globLoop all requested [] ∅.

(** [doNormalizeResources] matches the given two resource lists to all
    provider resources and returns the requested resources (excluding skip
    resources) as another list. *)
Definition doNormalizeResources (resources skip : list string)
    (all : gmap string schema.Table) : option (list string) * diag.Diagnostics :=
  let '(useRes, diags) := doGlobResources resources false all in
  let '(skipRes, dd) := doGlobResources skip true all in
  (funk.Subtract useRes skipRes, diag.Add diags dd).

End Resolver.

(** ** Data model of the fetch engine *)

Module uuid.

(** A UUID is a 128-bit value; [Nil] is the all-zero one. *)
Definition UUID := N.
Definition Nil : UUID := 0%N.

End uuid.

Module analytics.

(** [analytics.TelemetryEvent]: opaque to the core, which only carries the
    events from the telemetry filter to the response. *)
Record TelemetryEvent := mkTelemetryEvent { Category : string; Title : string }.

End analytics.

Inductive FetchStatus :=
| FetchFailed
| FetchConfigureFailed
| FetchCanceled
| FetchFinished
| FetchPartial.

#[global] Instance FetchStatus_eq_dec : EqDecision FetchStatus.
Proof. solve_decision. Defined.

(** The constants are [iota + 1]. *)
Definition FetchStatus_value (fs : FetchStatus) : Z :=
  match fs with
  | FetchFailed => 1
  | FetchConfigureFailed => 2
  | FetchCanceled => 3
  | FetchFinished => 4
  | FetchPartial => 5
  end.

Definition FetchStatus_String (fs : FetchStatus) : string :=
  match fs with
  | FetchFailed => "failed"
  | FetchCanceled => "canceled"
  | FetchFinished => "successful"
  | FetchPartial => "partial"
  | FetchConfigureFailed => "configure_failed"
  end.

Module ResourceFetchSummary.

Record t := mk {
  Status : string;
  ResourceCount : Z;
  Diagnostics : diag.Diagnostics;
  TelemetryEvents : list analytics.TelemetryEvent
}.

End ResourceFetchSummary.

Module ProviderFetchSummary.

Record t := mk {
  Name : string;
  Alias : string;
  Version : string;
  TotalResourcesFetched : Z;
  FetchedResources : gmap string ResourceFetchSummary.t;
  Status : FetchStatus
}.

Definition Resources (p : t) : list string := (map_to_list (FetchedResources p)).*1.

(** The display key: [name] or [name(alias)]. *)
Definition String (p : t) : string :=
  if bool_decide (Alias p ≠ "") then Name p +:+ "(" +:+ Alias p +:+ ")"
  else Name p.

(** [Diagnostics()] appends the diagnostics of every entry of
    [FetchedResources], in the iteration order of the map. *)
Definition Diagnostics (p : t) : diag.Diagnostics :=
  concat ((λ kv, ResourceFetchSummary.Diagnostics kv.2) <$> map_to_list (FetchedResources p)).

Definition withStatus (p : t) (s : FetchStatus) : t :=
  mk (Name p) (Alias p) (Version p) (TotalResourcesFetched p) (FetchedResources p) s.

Definition withTotal (p : t) (n : Z) : t :=
  mk (Name p) (Alias p) (Version p) n (FetchedResources p) (Status p).

Definition withFetched (p : t) (m : gmap string ResourceFetchSummary.t) : t :=
  mk (Name p) (Alias p) (Version p) (TotalResourcesFetched p) m (Status p).

End ProviderFetchSummary.

Module FetchUpdate.

Record t := mk {
  Name : string;
  Alias : string;
  Version : string;
  FinishedResources : gmap string bool;
  ResourceCount : Z;
  Error : string;
  DiagnosticCount : Z
}.

Definition AllDone (f : t) : bool :=
  forallb (λ kv, kv.2) (map_to_list (FinishedResources f)).

Definition DoneCount (f : t) : Z :=
  Z.of_nat (length (List.filter (λ kv, kv.2) (map_to_list (FinishedResources f)))).

End FetchUpdate.

Module FetchResponse.

Record t := mk {
  FetchId : uuid.UUID;
  ProviderFetchSummary : gmap string ProviderFetchSummary.t;
  TotalFetched : Z;
  TelemetryEvents : list analytics.TelemetryEvent
}.

Definition HasErrors (fr : t) : bool :=
  existsb (λ kv, diag.HasErrors (ProviderFetchSummary.Diagnostics kv.2))
          (map_to_list (ProviderFetchSummary fr)).

End FetchResponse.

(** ** External collaborators *)

Module registry.

Record Provider := mkProvider { Name : string; Version : string; Source : string }.

End registry.

Module config.

Record Provider := mkProvider {
  Name : string;
  Alias : string;
  Resources : list string;
  SkipResources : list string;
  Env : list string;
  ConfigBytes : string;
  MaxParallelResourceFetchLimit : Z;
  MaxGoroutines : Z;
  ResourceTimeout : Z
}.

End config.

Module cqproto.

Record ConfigureProviderRequest := mkConfigureProviderRequest {
  CloudQueryVersion : string;
  ConnectionDSN : string;
  Config : string
}.

Record ConfigureProviderResponse := mkConfigureProviderResponse {
  ConfigureDiagnostics : diag.Diagnostics
}.

Record FetchResourcesRequest := mkFetchResourcesRequest {
  Resources : option (list string);
  ParallelFetchingLimit : Z;
  MaxGoroutines : Z;
  Timeout : Z;
  Metadata : uuid.UUID
}.

(** [cqproto.ResourceFetchStatus] is an integer enumeration of the SDK; the
    core only prints it ([ResourceFetchStatusString]). *)
Definition ResourceFetchStatus := Z.

Record ResourceFetchSummary := mkResourceFetchSummary {
  Status : ResourceFetchStatus;
  SummaryResourceCount : Z;
  Diagnostics : diag.Diagnostics
}.

Record FetchResourcesResponse := mkFetchResourcesResponse {
  ResourceName : string;
  FinishedResources : gmap string bool;
  ResourceCount : Z;
  Error : string;
  Summary : ResourceFetchSummary
}.

(** What the successive calls of [stream.Recv()] return: the messages, then
    either the end-of-stream marker [io.EOF] ([closing = None]) or a
    transport error. *)
Record FetchResourcesStream := mkFetchResourcesStream {
  messages : list FetchResourcesResponse;
  closing : option error
}.

End cqproto.

Module plugin.

(** A live plugin: its version and the answers of its provider to the
    three RPCs. *)
Record Plugin := mkPlugin {
  Version : string;
  ConfigureProvider : cqproto.ConfigureProviderRequest → error + cqproto.ConfigureProviderResponse;
  GetProviderSchema : error + gmap string schema.Table;
  FetchResources : cqproto.FetchResourcesRequest → error + cqproto.FetchResourcesStream
}.

Record CreationOptions := mkCreationOptions {
  Provider : registry.Provider;
  Alias : string;
  Env : list string
}.

Record Manager := mkManager {
  CreatePlugin : CreationOptions → error + Plugin
}.

End plugin.

Module state.

Record ResourceFetchSummary := mkResourceFetchSummary {
  ResourceName : string;
  Status : string;
  Error : string;
  ResourceCount : Z
}.

Record FetchSummary := mkFetchSummary {
  FetchId : uuid.UUID;
  IsSuccess : bool;
  TotalResourceCount : Z;
  TotalErrorsCount : Z;
  ProviderName : string;
  ProviderAlias : string;
  ProviderVersion : string;
  CoreVersion : string;
  Resources : list ResourceFetchSummary
}.

(** [SaveFetchSummary] may fail. *)
Record Client := mkClient {
  SaveFetchSummary : FetchSummary → option error
}.

End state.

Module database.

Record Storage := mkStorage { DSN : string }.

End database.

Module context.

(** Of the context the orchestrator only asks whether it carries a
    deadline; cancellation reaches it as errors of the RPCs. *)
Record Context := mkContext { hasDeadline : bool }.

End context.

Record ProviderInfo := mkProviderInfo {
  Provider : registry.Provider;
  Config : config.Provider
}.

Record FetchOptions := mkFetchOptions {
  UpdateCallback : bool;
  ProvidersInfo : list ProviderInfo;
  FetchId : uuid.UUID
}.

Module fetchResult.

Record t := mk {
  summary : option ProviderFetchSummary.t;
  diags : diag.Diagnostics
}.

End fetchResult.

(** What a call does: it returns, or the goroutine panics (here always a
    nil pointer dereference), which ends the program. *)
Inductive outcome (A : Type) : Type :=
| Returned (a : A)
| Panicked.

Arguments Returned {A} a.
Arguments Panicked {A}.

(** Functions of the repository and of its dependencies whose code is not
    among the sources: the cancellation predicate and its diagnostic
    ([cqerrors]), the two diagnostic converters of this package, the core
    version, the telemetry filter ([analytics]), the rendering of
    diagnostics as one text ([diag]), the printing of a per-resource
    status ([cqproto]), the DSN parser ([dsn]) and the UUID generator
    ([uuid]). *)
Class Collaborators := {
  IsCancelation : error → bool;
  CancelationDiag : error → diag.Diagnostics;
  convertToConfigureDiags : diag.Diagnostics → diag.Diagnostics;
  convertToFetchDiags : diag.Diagnostics → string → string → diag.Diagnostics;
  Version : string;
  FilterTelemetryEvents :
    diag.Diagnostics → list analytics.TelemetryEvent * diag.Diagnostics;
  DiagnosticsError : diag.Diagnostics → string;
  ResourceFetchStatusString : cqproto.ResourceFetchStatus → string;
  ParseConnectionString : string → error + string;
  NewUUID : error + uuid.UUID
}.

(** The order in which the workers deliver their results on the channel:
    some permutation of the workers. *)
Class Schedule := {
  arrival : list fetchResult.t → list fetchResult.t;
  arrival_perm : ∀ l, arrival l ≡ₚ l
}.

(** ** The fetch engine *)

Section Engine.

Context `{MR : MapRange} `{CO : Collaborators} `{SC : Schedule}.

Definition parseFetchedResources (resources : gmap string ResourceFetchSummary.t)
  : list state.ResourceFetchSummary :=
  (λ kv, state.mkResourceFetchSummary kv.1
           (ResourceFetchSummary.Status kv.2)
           (DiagnosticsError (ResourceFetchSummary.Diagnostics kv.2))
           (ResourceFetchSummary.ResourceCount kv.2))
  <$> map_to_list resources.

(** [createFetchSummary] reads through the pointer [ps]: a nil [ps] is a
    nil pointer dereference. *)
Definition createFetchSummary (fetchId : uuid.UUID) (ps : option ProviderFetchSummary.t)
  : outcome state.FetchSummary :=
  match ps with
  | None => Panicked
  | Some p =>
      Returned
        (state.mkFetchSummary fetchId
           (negb (diag.HasErrors (ProviderFetchSummary.Diagnostics p)))
           (ProviderFetchSummary.TotalResourcesFetched p)
           (diag.Errors (ProviderFetchSummary.Diagnostics p))
           (ProviderFetchSummary.Name p)
           (ProviderFetchSummary.Alias p)
           (ProviderFetchSummary.Version p)
           Version
           (parseFetchedResources (ProviderFetchSummary.FetchedResources p)))
  end.

Definition parseDSN (storage : database.Storage) : error + string :=
  ParseConnectionString (database.DSN storage).

(** [normalizeResources] asks the provider for its schema and normalizes
    the two lists against its resource tables. *)
Definition normalizeResources (provider : plugin.Plugin) (resources skip : list string)
  : option (list string) * diag.Diagnostics :=
  match plugin.GetProviderSchema provider with
  | inl err => (None, diag.FromError (Some err) diag.INTERNAL [])
  | inr tables => doNormalizeResources resources skip tables
  end.

(** The receive loop of [executeFetch]. [calls] is the sequence of updates
    handed to the callback so far, when there is one. *)
Fixpoint recvLoop (providerPlugin : plugin.Plugin) (info : ProviderInfo) (callback : bool)
    (msgs : list cqproto.FetchResourcesResponse) (closing : option error)
    (summary : ProviderFetchSummary.t) (diags : diag.Diagnostics)
    (calls : list FetchUpdate.t)
  : ProviderFetchSummary.t * diag.Diagnostics * list FetchUpdate.t :=
  match msgs with
  | resp :: msgs' =>
      let calls :=
        if callback then
          calls ++ [FetchUpdate.mk
                      (registry.Name (Provider info))
                      (config.Alias (Config info))
                      (plugin.Version providerPlugin)
                      (cqproto.FinishedResources resp)
                      (cqproto.ResourceCount resp)
                      ""
                      (diag.Len (diag.BySeverity [diag.WARNING; diag.ERROR; diag.PANIC] diags))]
        else calls in
      let summary :=
        ProviderFetchSummary.withTotal summary
          (add64 (ProviderFetchSummary.TotalResourcesFetched summary)
                 (cqproto.ResourceCount resp)) in
      let '(events, rdiags) :=
        FilterTelemetryEvents (cqproto.Diagnostics (cqproto.Summary resp)) in
      let summary :=
        ProviderFetchSummary.withFetched summary
          (<[cqproto.ResourceName resp :=
               ResourceFetchSummary.mk
                 (ResourceFetchStatusString (cqproto.Status (cqproto.Summary resp)))
                 (cqproto.SummaryResourceCount (cqproto.Summary resp))
                 rdiags
                 events]> (ProviderFetchSummary.FetchedResources summary)) in
      let diags :=
        if bool_decide (cqproto.Error resp ≠ "")
        then diag.Add diags
               (diag.FromError (Some (cqproto.Error resp)) diag.RESOLVING
                  [diag.WithResourceName (cqproto.ResourceName resp)])
        else diags in
      let diags := if diag.HasDiags rdiags then diag.Add diags rdiags else diags in
      recvLoop providerPlugin info callback msgs' closing summary diags calls
  | [] =>
      match closing with
      | None => (summary, diags, calls)
      | Some err =>
          let calls :=
            if callback then
              calls ++ [FetchUpdate.mk
                          (registry.Name (Provider info))
                          (config.Alias (Config info))
                          (plugin.Version providerPlugin)
                          ∅ 0 err (diag.Len diags)]
            else calls in
          if IsCancelation err
          then (ProviderFetchSummary.withStatus summary FetchCanceled,
                diag.Add diags (CancelationDiag err), calls)
          else (ProviderFetchSummary.withStatus summary FetchFailed,
                diag.Add diags (diag.FromError (Some err) diag.INTERNAL []), calls)
      end
  end.

Definition executeFetch (providerPlugin : plugin.Plugin) (info : ProviderInfo)
    (metadata : uuid.UUID) (callback : bool)
  : ProviderFetchSummary.t * diag.Diagnostics * list FetchUpdate.t :=
  let summary :=
    ProviderFetchSummary.mk
      (registry.Name (Provider info))
      (config.Alias (Config info))
      (plugin.Version providerPlugin)
      0 ∅ FetchFinished in
  let '(resources, diags) :=
    normalizeResources providerPlugin
      (config.Resources (Config info)) (config.SkipResources (Config info)) in
  if diag.HasErrors diags
  then (ProviderFetchSummary.withStatus summary FetchFailed, diags, [])
  else
    match plugin.FetchResources providerPlugin
            (cqproto.mkFetchResourcesRequest resources
               (config.MaxParallelResourceFetchLimit (Config info))
               (config.MaxGoroutines (Config info))
               (config.ResourceTimeout (Config info))
               metadata) with
    | inl err =>
        (ProviderFetchSummary.withStatus summary FetchFailed,
         diag.FromError (Some err) diag.INTERNAL [], [])
    | inr stream =>
        recvLoop providerPlugin info callback
          (cqproto.messages stream) (cqproto.closing stream) summary diags []
    end.

Definition runProviderFetch (pm : plugin.Manager) (info : ProviderInfo) (dsnURI : string)
    (metadata : uuid.UUID) (opts : FetchOptions)
  : option ProviderFetchSummary.t * diag.Diagnostics * list FetchUpdate.t :=
  let cfg := Config info in
  match plugin.CreatePlugin pm
          (plugin.mkCreationOptions (Provider info) (config.Alias cfg) (config.Env cfg)) with
  | inl err => (None, diag.FromError (Some err) diag.INTERNAL [], [])
  | inr providerPlugin =>
      match plugin.ConfigureProvider providerPlugin
              (cqproto.mkConfigureProviderRequest Version dsnURI (config.ConfigBytes cfg)) with
      | inl err =>
          let '(d, sts) :=
            if IsCancelation err then (CancelationDiag err, FetchCanceled)
            else (diag.FromError (Some err) diag.INTERNAL [], FetchConfigureFailed) in
          (Some (ProviderFetchSummary.mk
                   (registry.Name (Provider info))
                   (config.Alias (Config info))
                   (plugin.Version providerPlugin)
                   0 ∅ sts),
           d, [])
      | inr resp =>
          let diags := diag.Add [] (convertToConfigureDiags (cqproto.ConfigureDiagnostics resp)) in
          if diag.HasErrors diags
          then (Some (ProviderFetchSummary.mk
                        (registry.Name (Provider info))
                        (config.Alias (Config info))
                        (plugin.Version providerPlugin)
                        0 ∅ FetchConfigureFailed),
                diags, [])
          else
            let '(summary, fetchDiags, calls) :=
              executeFetch providerPlugin info metadata (UpdateCallback opts) in
            (Some summary,
             diag.Add diags
               (convertToFetchDiags fetchDiags (registry.Name (Provider info))
                  (plugin.Version providerPlugin)),
             calls)
      end
  end.

(** The body of the goroutine started for one provider: its result for the
    channel and the record it had the state client save, if any. *)
Definition fetchWorker (ctx : context.Context) (sta : state.Client) (pm : plugin.Manager)
    (opts : FetchOptions) (fetchId : uuid.UUID) (dsnURI : string) (info : ProviderInfo)
  : outcome (fetchResult.t * list state.FetchSummary) :=
  let '(s, d, _) := runProviderFetch pm info dsnURI fetchId opts in
  if context.hasDeadline ctx then Returned (fetchResult.mk s d, [])
  else
    match createFetchSummary fetchId s with
    | Panicked => Panicked
    | Returned record =>
        let d :=
          match state.SaveFetchSummary sta record with
          | Some err => diag.Add d (diag.FromError (Some err) diag.INTERNAL [])
          | None => d
          end in
        Returned (fetchResult.mk s d, [record])
    end.

(** The first loop of [Fetch]: providers without resources are skipped, a
    worker is started for each of the others. The warning the loop builds
    for a skipped provider wraps a nil error. *)
Fixpoint launch (infos : list ProviderInfo) (diags : diag.Diagnostics)
  : diag.Diagnostics * list ProviderInfo :=
  match infos with
  | [] => (diags, [])
  | providerInfo :: infos' =>
      if bool_decide (length (config.Resources (Config providerInfo)) = 0%nat)
      then
        launch infos'
          (diag.Add diags
             (diag.FromError None diag.INTERNAL
                [diag.WithSeverity diag.WARNING;
                 diag.WithSummary ("skipping provider " +:+ config.Name (Config providerInfo)
                                   +:+ " which configured with 0 resources to fetch")]))
      else
        let '(diags', started) := launch infos' diags in
        (diags', providerInfo :: started)
  end.

(** [wg.Wait()]: every worker has returned, unless one of them panicked. *)
Fixpoint join {A : Type} (ws : list (outcome A)) : outcome (list A) :=
  match ws with
  | [] => Returned []
  | Panicked :: _ => Panicked
  | Returned a :: ws' =>
      match join ws' with
      | Panicked => Panicked
      | Returned l => Returned (a :: l)
      end
  end.

(** The loop [for ps := range fetchSummaries]: it reads through the
    pointer [ps.summary]. *)
Fixpoint drain (results : list fetchResult.t) (response : FetchResponse.t)
    (diags : diag.Diagnostics) : outcome (FetchResponse.t * diag.Diagnostics) :=
  match results with
  | [] => Returned (response, diags)
  | ps :: results' =>
      match fetchResult.summary ps with
      | None => Panicked
      | Some s =>
          let response :=
            FetchResponse.mk
              (FetchResponse.FetchId response)
              (<[ProviderFetchSummary.String s := s]>
                 (FetchResponse.ProviderFetchSummary response))
              (FetchResponse.TotalFetched response)
              (FetchResponse.TelemetryEvents response) in
          let diags :=
            if diag.HasDiags (fetchResult.diags ps)
            then diag.Add diags (fetchResult.diags ps)
            else diags in
          let response :=
            FetchResponse.mk
              (FetchResponse.FetchId response)
              (FetchResponse.ProviderFetchSummary response)
              (add64 (FetchResponse.TotalFetched response)
                     (ProviderFetchSummary.TotalResourcesFetched s))
              (FetchResponse.TelemetryEvents response) in
          drain results' response diags
      end
  end.

(** [Fetch]: the response with the diagnostics for the caller, and the
    records handed to the state client. *)
Definition Fetch (ctx : context.Context) (sta : state.Client) (storage : database.Storage)
    (pm : plugin.Manager) (opts : FetchOptions)
  : outcome (option FetchResponse.t * diag.Diagnostics * list state.FetchSummary) :=
  match (if bool_decide (FetchId opts = uuid.Nil) then NewUUID else inr (FetchId opts)) with
  | inl err => Returned (None, diag.FromError (Some err) diag.INTERNAL [], [])
  | inr fetchId =>
      match parseDSN storage with
      | inl err => Returned (None, diag.FromError (Some err) diag.INTERNAL [], [])
      | inr dsnURI =>
          let '(diags, started) := launch (ProvidersInfo opts) [] in
          match join (fetchWorker ctx sta pm opts fetchId dsnURI <$> started) with
          | Panicked => Panicked
          | Returned delivered =>
              match drain (arrival (delivered.*1))
                      (FetchResponse.mk fetchId ∅ 0 []) diags with
              | Panicked => Panicked
              | Returned (response, diags) =>
                  let '(events, filtered) := FilterTelemetryEvents diags in
                  Returned
                    (Some (FetchResponse.mk
                             (FetchResponse.FetchId response)
                             (FetchResponse.ProviderFetchSummary response)
                             (FetchResponse.TotalFetched response)
                             events),
                     filtered,
                     concat (delivered.*2))
              end
          end
      end
  end.

End Engine.

(** ** Vocabulary of the engine's specification *)

(** The display key under which the summary of a provider is filed. *)
Definition displayKey (info : ProviderInfo) : string :=
  if bool_decide (config.Alias (Config info) ≠ "")
  then registry.Name (Provider info) +:+ "(" +:+ config.Alias (Config info) +:+ ")"
  else registry.Name (Provider info).

(** The providers for which a worker is started. *)
Definition attempted (opts : FetchOptions) : list ProviderInfo :=
  (launch (ProvidersInfo opts) []).2.

(** The sum, over the entries of a response map, of the resources fetched. *)
Definition sumTotals (m : gmap string ProviderFetchSummary.t) : Z :=
  foldr Z.add 0 ((λ kv, ProviderFetchSummary.TotalResourcesFetched kv.2) <$> map_to_list m).

(** The four statuses the engine assigns. *)
Definition assignedStatuses : list FetchStatus :=
  [FetchFailed; FetchConfigureFailed; FetchCanceled; FetchFinished].

(** ** Vocabulary of the resolver's specification *)

Section ResolverVocabulary.

Context `{MR : MapRange}.



(** An entry the loop accepts when it has not been seen before: a
    non-empty exact catalog name, or a glob with at least one match. *)
Definition acceptsEntry (all : gmap string schema.Table) (r : string) : Prop :=
  r ≠ "" ∧
  (is_Some (all !! r)
   ∨ (r ≠ "*" ∧ ∃ ms, matchResourceGlob r all = (ms, []) ∧ elems ms ≠ [])).

(** The three shapes of an entry that is handed to [matchResourceGlob]. *)
Inductive globShape (pattern : string) : Type :=
| shapeGlob (n : nat)
    (Hidx : String.index 0 ".*" pattern = Some n)
    (Hpos : (0 < n)%nat) (Hend : (n + 2)%nat = String.length pattern)
| shapeBad
    (Hbad : ∀ all, ∃ d, matchResourceGlob pattern all = (None, [d])
                        ∧ diag.isUserError d
                        ∧ diag.err d = Some "invalid wildcard syntax")
    (Hstar : strings.Contains pattern "*" = true ∨ 0 ≤ strings.Index pattern ".*")
| shapePlain
    (Hplain : ∀ all, matchResourceGlob pattern all = (None, []))
    (Hnostar : strings.Contains pattern "*" = false).

End ResolverVocabulary.

(** The catalog of the scenario [{ec2, s3, iam.roles, iam.policies}]. *)
Definition sampleCatalog : gmap string schema.Table :=
  list_to_map [("ec2", schema.mkTable "ec2"); ("s3", schema.mkTable "s3");
               ("iam.roles", schema.mkTable "iam_roles");
               ("iam.policies", schema.mkTable "iam_policies")].

(** A catalog with one resource, whose name is the empty string. *)
Definition unnamedCatalog : gmap string schema.Table :=
  {[ "" := schema.mkTable "unnamed" ]}.

(** A catalog in which one resource is literally named [*]. *)
Definition starCatalog : gmap string schema.Table :=
  list_to_map [("*", schema.mkTable "star"); ("a", schema.mkTable "a")].


Section EngineVocabulary.

Context `{CO : Collaborators}.

(** The diagnostic and the status that end a stream closed by the error
    [err], and the update handed to the callback at that point. *)
Definition closingDiag (err : error) : diag.Diagnostics :=
  if IsCancelation err then CancelationDiag err
  else diag.FromError (Some err) diag.INTERNAL [].

Definition closingStatus (err : error) : FetchStatus :=
  if IsCancelation err then FetchCanceled else FetchFailed.

Definition closingUpdate (providerPlugin : plugin.Plugin) (info : ProviderInfo)
    (err : error) (diags : diag.Diagnostics) : FetchUpdate.t :=
  FetchUpdate.mk (registry.Name (Provider info)) (config.Alias (Config info))
    (plugin.Version providerPlugin) ∅ 0 err (diag.Len diags).

(** The requests the runner sends for a provider. *)
Definition creationOptions (info : ProviderInfo) : plugin.CreationOptions :=
  plugin.mkCreationOptions (Provider info) (config.Alias (Config info))
    (config.Env (Config info)).

Definition configureRequest (info : ProviderInfo) (dsnURI : string)
  : cqproto.ConfigureProviderRequest :=
  cqproto.mkConfigureProviderRequest Version dsnURI (config.ConfigBytes (Config info)).

Definition fetchRequest (info : ProviderInfo) (resources : option (list string))
    (metadata : uuid.UUID) : cqproto.FetchResourcesRequest :=
  cqproto.mkFetchResourcesRequest resources
    (config.MaxParallelResourceFetchLimit (Config info))
    (config.MaxGoroutines (Config info))
    (config.ResourceTimeout (Config info))
    metadata.

(** The summary [executeFetch] starts from. *)
Definition initialSummary (providerPlugin : plugin.Plugin) (info : ProviderInfo)
  : ProviderFetchSummary.t :=
  ProviderFetchSummary.mk (registry.Name (Provider info)) (config.Alias (Config info))
    (plugin.Version providerPlugin) 0 ∅ FetchFinished.

(** The entry [executeFetch] records for the resource of a message, and the
    update it hands to the callback for it when [count] diagnostics of
    severity warning or above have been collected so far. *)
Definition resourceEntry (resp : cqproto.FetchResourcesResponse) : ResourceFetchSummary.t :=
  ResourceFetchSummary.mk
    (ResourceFetchStatusString (cqproto.Status (cqproto.Summary resp)))
    (cqproto.SummaryResourceCount (cqproto.Summary resp))
    (FilterTelemetryEvents (cqproto.Diagnostics (cqproto.Summary resp))).2
    (FilterTelemetryEvents (cqproto.Diagnostics (cqproto.Summary resp))).1.

Definition messageUpdate (providerPlugin : plugin.Plugin) (info : ProviderInfo)
    (resp : cqproto.FetchResourcesResponse) (count : Z) : FetchUpdate.t :=
  FetchUpdate.mk (registry.Name (Provider info)) (config.Alias (Config info))
    (plugin.Version providerPlugin) (cqproto.FinishedResources resp)
    (cqproto.ResourceCount resp) "" count.

(** The diagnostic [executeFetch] adds for a message that carries an error. *)
Definition resourceErrorDiag (resp : cqproto.FetchResourcesResponse) : diag.Diagnostics :=
  diag.FromError (Some (cqproto.Error resp)) diag.RESOLVING
    [diag.WithResourceName (cqproto.ResourceName resp)].

(** The identifier of a fetch: the one of the options, or a fresh one when
    the options carry the nil identifier. *)
Definition fetchIdFor (opts : FetchOptions) : error + uuid.UUID :=
  if bool_decide (FetchId opts = uuid.Nil) then NewUUID else inr (FetchId opts).

(** The last message of a stream about the resource [name]. *)
Definition lastMessageFor (name : string) (msgs : list cqproto.FetchResourcesResponse)
  : option cqproto.FetchResourcesResponse :=
  last (List.filter (λ resp, bool_decide (cqproto.ResourceName resp = name)) msgs).

End EngineVocabulary.

Section EarlyFailures.

Context `{MR : MapRange} `{CO : Collaborators}.

(** A provider that fails during configuration or normalization: its
    configure RPC returns an error that is not a cancellation, or returns
    diagnostics with errors, or the normalization of its resource lists has
    errors. *)
Inductive earlyFailure (pm : plugin.Manager) (dsnURI : string) (info : ProviderInfo)
  : Prop :=
| configureError (providerPlugin : plugin.Plugin) (err : error) :
    plugin.CreatePlugin pm (creationOptions info) = inr providerPlugin →
    plugin.ConfigureProvider providerPlugin (configureRequest info dsnURI) = inl err →
    IsCancelation err = false →
    earlyFailure pm dsnURI info
| configureDiagnostics (providerPlugin : plugin.Plugin)
    (resp : cqproto.ConfigureProviderResponse) :
    plugin.CreatePlugin pm (creationOptions info) = inr providerPlugin →
    plugin.ConfigureProvider providerPlugin (configureRequest info dsnURI) = inr resp →
    diag.HasErrors (convertToConfigureDiags (cqproto.ConfigureDiagnostics resp)) = true →
    earlyFailure pm dsnURI info
| normalizationError (providerPlugin : plugin.Plugin)
    (resp : cqproto.ConfigureProviderResponse) :
    plugin.CreatePlugin pm (creationOptions info) = inr providerPlugin →
    plugin.ConfigureProvider providerPlugin (configureRequest info dsnURI) = inr resp →
    diag.HasErrors (convertToConfigureDiags (cqproto.ConfigureDiagnostics resp)) = false →
    diag.HasErrors
      (normalizeResources providerPlugin (config.Resources (Config info))
         (config.SkipResources (Config info))).2 = true →
    earlyFailure pm dsnURI info.

End EarlyFailures.

(** ** The configuration parser ([pkg/config/config_parser.go])

    The parser works on the decoded configuration. Of the structures of
    [pkg/config] (their declarations are not among the sources) it reads
    and writes the fields below; pointers that may be nil are [option]s,
    the entries of the two slices of pointers among them.
    Reading the file and the YAML and JSON-schema decoding
    ([LoadConfigFile], [LoadConfigFromSource], [decodeConfig]) are outside
    the model. *)

Module RequiredProvider.

(** An entry of [cloudquery.providers]; the parser reads its name and
    reads and rewrites its version. The entries are held by pointer, as
    the provider blocks are: what [normalize] assigns in its loops is
    assigned to the configuration, and an entry may be nil. *)
Record t := mk { Name : string; Version : string }.

End RequiredProvider.

Module Connection.

(** The connection block: the DSN, the DSN file, the host and the
    database are read here; [Attributes] stands for the other explicit
    attributes, which this file only hands to the methods of the block. *)
Record t := mk {
  DSN : string;
  DSNFile : string;
  Host : string;
  Database : string;
  Attributes : list (string * string)
}.

Definition withDSN (c : t) (dsn : string) : t :=
  mk dsn (DSNFile c) (Host c) (Database c) (Attributes c).

End Connection.

Module CloudQuery.

Record t := mk {
  PluginDirectory : string;
  PolicyDirectory : string;
  Connection : option Connection.t;
  Providers : list (option RequiredProvider.t)
}.

End CloudQuery.

Module Config.

Record t := mk {
  CloudQuery : CloudQuery.t;
  Providers : list (option config.Provider)
}.

End Config.

(** What the parser asks of its environment: the semantic-version
    library ([semver.NewVersion], which returns a nil version with its
    error, and [String]), the command-line flags ([viper.GetString]),
    [filepath.Join] of two elements, [ioutil.ReadFile], [bytes.TrimSpace],
    and the two methods of the connection block, [IsAnyConnParamsSet] and
    [BuildFromConnParams], whose code is not among the sources. *)
Class ConfigEnvironment := {
  SemVersion : Type;
  NewVersion : string → error + SemVersion;
  VersionString : SemVersion → string;
  GetString : string → string;
  JoinPath : string → string → string;
  ReadFile : string → error + string;
  TrimSpace : string → string;
  IsAnyConnParamsSet : Connection.t → bool;
  BuildFromConnParams : Connection.t → Connection.t
}.

(** [registry.ParseProviderName]: the organisation, the name and the
    error, as the three results Go returns together. *)
Class Registry := {
  ParseProviderName : string → string * string * option error
}.

Section ConfigParser.

Context `{CE : ConfigEnvironment}.

Definition ParseVersion (version : string) : error + SemVersion := NewVersion version.

(** [FormatVersion] of a non-nil version; it reads through the pointer,
    so a call with a nil version is a nil pointer dereference, written out
    where it can happen. *)
Definition FormatVersion (version : SemVersion) : string := "v" +:+ VersionString version.

Definition isVersionLatest (version : string) : bool := bool_decide (version = "latest").

Definition assignDefaults (c : Config.t) : Config.t :=
  match CloudQuery.Connection (Config.CloudQuery c) with
  | None =>
      Config.mk
        (CloudQuery.mk (CloudQuery.PluginDirectory (Config.CloudQuery c))
           (CloudQuery.PolicyDirectory (Config.CloudQuery c))
           (Some (Connection.mk "" "" "" "" []))
           (CloudQuery.Providers (Config.CloudQuery c)))
        (Config.Providers c)
  | Some _ => c
  end.

(** [overrideFromCLIFlags] writes the DSN through the connection pointer. *)
Definition overrideFromCLIFlags (c : Config.t) : outcome Config.t :=
  let datadir := GetString "data-dir" in
  let cq := Config.CloudQuery c in
  let pluginDirectory :=
    if bool_decide (datadir ≠ "") then JoinPath datadir "providers"
    else CloudQuery.PluginDirectory cq in
  let policyDirectory :=
    if bool_decide (datadir ≠ "") then JoinPath datadir "policies"
    else CloudQuery.PolicyDirectory cq in
  let ds := GetString "dsn" in
  if bool_decide (ds ≠ "") then
    match CloudQuery.Connection cq with
    | None => Panicked
    | Some connection =>
        Returned
          (Config.mk
             (CloudQuery.mk pluginDirectory policyDirectory
                (Some (Connection.withDSN connection ds)) (CloudQuery.Providers cq))
             (Config.Providers c))
    end
  else
    Returned
      (Config.mk
         (CloudQuery.mk pluginDirectory policyDirectory (CloudQuery.Connection cq)
            (CloudQuery.Providers cq))
         (Config.Providers c)).

Definition invalidVersion (cp : RequiredProvider.t) : diag.Diagnostics :=
  diag.FromError
    (Some ("Provider " +:+ fmt.q (RequiredProvider.Name cp) +:+ " version "
           +:+ fmt.q (RequiredProvider.Version cp)
           +:+ " is invalid. Please set to 'latest' a or valid semantic version"))
    diag.USER [].

(** The loop of [validateCloudQueryProviders] reads through every entry
    of the slice: a nil entry is a nil pointer dereference. *)
Fixpoint validateCloudQueryProvidersLoop (providers : list (option RequiredProvider.t))
    (diags : diag.Diagnostics) : outcome diag.Diagnostics :=
  match providers with
  | [] => Returned diags
  | None :: _ => Panicked
  | Some cp :: providers' =>
      if isVersionLatest (RequiredProvider.Version cp)
      then validateCloudQueryProvidersLoop providers' diags
      else
        match ParseVersion (RequiredProvider.Version cp) with
        | inl _ => validateCloudQueryProvidersLoop providers' (diag.Add diags (invalidVersion cp))
        | inr _ => validateCloudQueryProvidersLoop providers' diags
        end
  end.

Definition validateCloudQueryProviders (providers : list (option RequiredProvider.t))
  : outcome diag.Diagnostics :=
  validateCloudQueryProvidersLoop providers [].

(** [diag.NewBaseError(errors "invalid connection configuration", USER,
    WithOptionalSeverity(ERROR), WithDetails(details))]: one entry of
    severity [ERROR]. *)
Definition connectionError (details : string) : diag.Diagnostic :=
  diag.mkDiagnostic diag.ERROR diag.USER (Some "invalid connection configuration") ""
    details "".

(** [validateConnection] reads through the connection pointer and, when it
    takes the DSN from the DSN file, writes it back through the pointer:
    the result is the connection as it leaves it and the diagnostics. *)
Definition validateConnection (connection : option Connection.t)
  : outcome (Connection.t * diag.Diagnostics) :=
  match connection with
  | None => Panicked
  | Some connection =>
      let dsnFromFlag := GetString "dsn" in
      let fromFile : Connection.t * option diag.Diagnostics :=
        if bool_decide (dsnFromFlag = "") && bool_decide (Connection.DSNFile connection ≠ "")
        then
          if bool_decide (Connection.DSN connection ≠ "")
          then
            (connection,
             Some (diag.Add []
                     [connectionError
                        "DSN file specified along with literal DSN, only one type is supported"]))
          else
            match ReadFile (Connection.DSNFile connection) with
            | inl err =>
                (connection,
                 Some (diag.Add []
                         (diag.FromError (Some err) diag.USER
                            [diag.WithSummary "Failed to read DSN file"])))
            | inr dsnBytes => (Connection.withDSN connection (TrimSpace dsnBytes), None)
            end
        else (connection, None) in
      match fromFile with
      | (connection, Some diags) => Returned (connection, diags)
      | (connection, None) =>
          if bool_decide (Connection.DSN connection ≠ "")
          then
            Returned
              (connection,
               if bool_decide (dsnFromFlag = "") && IsAnyConnParamsSet connection
               then [connectionError
                       "DSN specified along with explicit attributes, only one type is supported"]
               else [])
          else
            let diags :=
              if bool_decide (Connection.Host connection = "")
              then [connectionError "missing host"] else [] in
            let diags :=
              if bool_decide (Connection.Database connection = "")
              then diags ++ [connectionError "missing database"] else diags in
            Returned (connection, diags)
      end
  end.

Definition duplicateAlias (provider : config.Provider) : diag.Diagnostics :=
  diag.FromError
    (Some ("provider with alias " +:+ config.Alias provider +:+ " for provider "
           +:+ config.Name provider +:+ " already exists, give it a different alias"))
    diag.USER [diag.WithSummary "Duplicate Alias"].

Definition aliasRequired (provider : config.Provider) : diag.Diagnostics :=
  diag.FromError
    (Some ("provider with name " +:+ config.Name provider
           +:+ " already exists, use alias in provider configuration block"))
    diag.USER [diag.WithSummary "Provider Alias Required"].

(** The loop of [validateProvidersBlock] reads through every entry of the
    slice: a nil entry is a nil pointer dereference. *)
Fixpoint validateProvidersBlockLoop (providers : list (option config.Provider))
    (existingProviders : gmap string bool) (diags : diag.Diagnostics)
  : outcome diag.Diagnostics :=
  match providers with
  | [] => Returned diags
  | None :: _ => Panicked
  | Some provider :: providers' =>
      if bool_decide (config.Alias provider ≠ "") then
        match existingProviders !! config.Alias provider with
        | Some _ =>
            validateProvidersBlockLoop providers' existingProviders
              (diag.Add diags (duplicateAlias provider))
        | None =>
            validateProvidersBlockLoop providers'
              (<[config.Alias provider := true]> existingProviders) diags
        end
      else
        match existingProviders !! config.Name provider with
        | Some _ =>
            validateProvidersBlockLoop providers' existingProviders
              (diag.Add diags (aliasRequired provider))
        | None =>
            validateProvidersBlockLoop providers'
              (<[config.Name provider := true]> existingProviders) diags
        end
  end.

Definition validateProvidersBlock (c : Config.t) : outcome diag.Diagnostics :=
  validateProvidersBlockLoop (Config.Providers c) ∅ [].

(** [validate]: the configuration as [validateConnection] leaves it, and
    the diagnostics of the three checks, in their order. *)
Definition validate (c : Config.t) : outcome (Config.t * diag.Diagnostics) :=
  match validateCloudQueryProviders (CloudQuery.Providers (Config.CloudQuery c)) with
  | Panicked => Panicked
  | Returned vdiags =>
      let diags := diag.Add [] vdiags in
      match validateConnection (CloudQuery.Connection (Config.CloudQuery c)) with
      | Panicked => Panicked
      | Returned (connection, cdiags) =>
          let c' :=
            Config.mk
              (CloudQuery.mk (CloudQuery.PluginDirectory (Config.CloudQuery c))
                 (CloudQuery.PolicyDirectory (Config.CloudQuery c))
                 (Some connection)
                 (CloudQuery.Providers (Config.CloudQuery c)))
              (Config.Providers c) in
          let diags := diag.Add diags cdiags in
          match validateProvidersBlock c' with
          | Panicked => Panicked
          | Returned bdiags => Returned (c', diag.Add diags bdiags)
          end
      end
  end.

(** The first loop of [normalize]: it reads through every entry, the
    error of [ParseVersion] is dropped, and [FormatVersion] reads through
    the version it returned. *)
Fixpoint normalizeVersions (providers : list (option RequiredProvider.t))
  : outcome (list (option RequiredProvider.t)) :=
  match providers with
  | [] => Returned []
  | None :: _ => Panicked
  | Some cloudqueryProvider :: providers' =>
      let formatted : outcome RequiredProvider.t :=
        if isVersionLatest (RequiredProvider.Version cloudqueryProvider)
        then Returned cloudqueryProvider
        else
          match ParseVersion (RequiredProvider.Version cloudqueryProvider) with
          | inl _ => Panicked
          | inr ver =>
              Returned (RequiredProvider.mk (RequiredProvider.Name cloudqueryProvider)
                          (FormatVersion ver))
          end in
      match formatted with
      | Panicked => Panicked
      | Returned p =>
          match normalizeVersions providers' with
          | Panicked => Panicked
          | Returned ps => Returned (Some p :: ps)
          end
      end
  end.

(** The alias of a provider block defaults to its name. *)
Definition defaultAlias (provider : config.Provider) : config.Provider :=
  if bool_decide (config.Alias provider = "")
  then config.mkProvider (config.Name provider) (config.Name provider)
         (config.Resources provider) (config.SkipResources provider) (config.Env provider)
         (config.ConfigBytes provider) (config.MaxParallelResourceFetchLimit provider)
         (config.MaxGoroutines provider) (config.ResourceTimeout provider)
  else provider.

(** The last loop of [normalize]: it reads through every entry. *)
Fixpoint defaultAliases (providers : list (option config.Provider))
  : outcome (list (option config.Provider)) :=
  match providers with
  | [] => Returned []
  | None :: _ => Panicked
  | Some provider :: providers' =>
      match defaultAliases providers' with
      | Panicked => Panicked
      | Returned ps => Returned (Some (defaultAlias provider) :: ps)
      end
  end.

Definition normalize (c : Config.t) : outcome Config.t :=
  match normalizeVersions (CloudQuery.Providers (Config.CloudQuery c)) with
  | Panicked => Panicked
  | Returned required =>
      match CloudQuery.Connection (Config.CloudQuery c) with
      | None => Panicked
      | Some connection =>
          let connection :=
            if bool_decide (Connection.DSN connection = "")
            then BuildFromConnParams connection else connection in
          match defaultAliases (Config.Providers c) with
          | Panicked => Panicked
          | Returned providers =>
              Returned
                (Config.mk
                   (CloudQuery.mk (CloudQuery.PluginDirectory (Config.CloudQuery c))
                      (CloudQuery.PolicyDirectory (Config.CloudQuery c))
                      (Some connection) required)
                   providers)
          end
      end
  end.

(** [ProcessConfig]: the configuration as the call leaves it and the
    diagnostics it returns. *)
Definition ProcessConfig (c : Config.t) : outcome (Config.t * diag.Diagnostics) :=
  let c := assignDefaults c in
  match overrideFromCLIFlags c with
  | Panicked => Panicked
  | Returned c =>
      match validate c with
      | Panicked => Panicked
      | Returned (c, diags) =>
          if diag.HasErrors diags then Returned (c, diags)
          else
            match normalize c with
            | Panicked => Panicked
            | Returned c => Returned (c, diags)
            end
      end
  end.

End ConfigParser.

(** ** The provider argument of [cloudquery init] ([cmd/init/init.go]) *)

(** [strings.Split(s, sep)] for a separator of one byte: the pieces of [s]
    between the occurrences of [sep]. *)
Fixpoint Split (s : string) (sep : ascii) : list string :=
  match s with
  | EmptyString => [EmptyString]
  | String c s' =>
      if decide (c = sep) then EmptyString :: Split s' sep
      else
        match Split s' sep with
        | piece :: pieces => String c piece :: pieces
        | [] => [String c EmptyString]
        end
  end.

(** [parts[i]]: an index out of range panics. *)
Definition at_index (parts : list string) (i : nat) : outcome string :=
  match parts !! i with
  | Some s => Returned s
  | None => Panicked
  end.

Definition outcome_bind {A B : Type} (m : outcome A) (f : A → outcome B) : outcome B :=
  match m with
  | Returned a => f a
  | Panicked => Panicked
  end.

Section Init.

Context `{CE : ConfigEnvironment} `{RG : Registry}.

(** [ParseProviderCLIArg]: the organisation, the name, the version and
    the error. *)
Definition ParseProviderCLIArg (providerCLIArg : string)
  : outcome (string * string * string * option error) :=
  let argParts := Split providerCLIArg "@" in
  let l := length argParts in
  if bool_decide (2 < l)%nat then
    Returned ("", "", "",
              Some ("invalid provider name@version " +:+ fmt.q providerCLIArg))
  else
    outcome_bind
      (if bool_decide (l = 2%nat)
       then outcome_bind (at_index argParts 1) (λ p1, Returned (bool_decide (p1 = "latest")))
       else Returned false)
      (λ isLatest,
         if isLatest : bool then
           outcome_bind (at_index argParts 0) (λ p0,
             let '(org, name, err) := ParseProviderName p0 in
             Returned (org, name, "latest", err))
         else if bool_decide (l = 1%nat) then
           outcome_bind (at_index argParts 0) (λ p0,
             let '(org, name, err) := ParseProviderName p0 in
             Returned (org, name, "latest", err))
         else
           outcome_bind (at_index argParts 0) (λ p0,
             let '(org, name, err) := ParseProviderName p0 in
             match err with
             | Some e => Returned ("", "", "", Some e)
             | None =>
                 outcome_bind (at_index argParts 1) (λ p1,
                   match ParseVersion p1 with
                   | inl e =>
                       Returned ("", "", "",
                                 Some ("invalid version " +:+ fmt.q p1 +:+ ": " +:+ e))
                   | inr ver => Returned (org, name, FormatVersion ver, None)
                   end)
             end)).

End Init.

(** ** Vocabulary of the configuration's specification *)

(** The key under which [validateProvidersBlock] registers a provider
    block: its alias, or its name when it has no alias. *)
Definition providerKey (provider : config.Provider) : string :=
  if bool_decide (config.Alias provider ≠ "") then config.Alias provider
  else config.Name provider.

(** A required version the parser accepts: [latest], or one the
    semantic-version library parses. *)
Definition acceptable `{CE : ConfigEnvironment} (cp : RequiredProvider.t) : Prop :=
  RequiredProvider.Version cp = "latest"
  ∨ ∃ ver, ParseVersion (RequiredProvider.Version cp) = inr ver.

(** The connection [ProcessConfig] validates: the one of the
    configuration, or an empty one when there is none, with the DSN of the
    flag [--dsn] when the flag is given. *)
Definition connectionToValidate `{CE : ConfigEnvironment} (c : Config.t) : Connection.t :=
  let connection :=
    default (Connection.mk "" "" "" "" []) (CloudQuery.Connection (Config.CloudQuery c)) in
  if bool_decide (GetString "dsn" ≠ "")
  then Connection.withDSN connection (GetString "dsn") else connection.

(** A required provider before and after [normalize]. *)
Definition versionNormalized `{CE : ConfigEnvironment} (cp cp' : RequiredProvider.t) : Prop :=
  RequiredProvider.Name cp' = RequiredProvider.Name cp
  ∧ (RequiredProvider.Version cp = "latest" ∧ RequiredProvider.Version cp' = "latest"
     ∨ RequiredProvider.Version cp ≠ "latest"
       ∧ ∃ ver, ParseVersion (RequiredProvider.Version cp) = inr ver
                ∧ RequiredProvider.Version cp' = "v" +:+ VersionString ver).

(** The number of occurrences of the byte [sep] in [s]. *)
Fixpoint countByte (s : string) (sep : ascii) : nat :=
  match s with
  | EmptyString => 0%nat
  | String c s' => if decide (c = sep) then S (countByte s' sep) else countByte s' sep
  end.

(** ** A small world for the examples *)

#[export] Instance sampleCollaborators : Collaborators := {|
  IsCancelation := λ err, bool_decide (err = "context canceled");
  CancelationDiag := λ err,
    diag.FromError (Some err) diag.USER [diag.WithSummary "operation was canceled by user"];
  convertToConfigureDiags := λ d, d;
  convertToFetchDiags := λ d _ _, d;
  Version := "v0.0.0";
  FilterTelemetryEvents := λ d, ([], d);
  DiagnosticsError := λ d, "";
  ResourceFetchStatusString := λ st, if bool_decide (st = 0) then "COMPLETE" else "FAILED";
  ParseConnectionString := λ dsn, inr dsn;
  NewUUID := inr 1%N
|}.

#[export] Instance inProviderOrder : Schedule :=
  {| arrival := λ l, l; arrival_perm := λ l, reflexivity _ |}.

(** One message: one row of [ec2], with a resource error and an error
    diagnostic. *)
Definition ec2Message : cqproto.FetchResourcesResponse :=
  cqproto.mkFetchResourcesResponse "ec2" {[ "ec2" := true ]} 1 "access denied"
    (cqproto.mkResourceFetchSummary 1 1
       (diag.FromError (Some "access denied") diag.RESOLVING [])).

(** A plugin that configures, knows the scenario catalog and streams
    [ec2Message] before closing the stream with [closing]. *)
Definition streamingPlugin (closing : option error) : plugin.Plugin :=
  plugin.mkPlugin "1.0.0"
    (λ _, inr (cqproto.mkConfigureProviderResponse []))
    (inr sampleCatalog)
    (λ _, inr (cqproto.mkFetchResourcesStream [ec2Message] closing)).

(** A plugin whose configuration RPC fails with [err]. *)
Definition unconfigurablePlugin (err : error) : plugin.Plugin :=
  plugin.mkPlugin "1.0.0" (λ _, inl err) (inr sampleCatalog)
    (λ _, inr (cqproto.mkFetchResourcesStream [] None)).

(** A plugin manager: the plugin of [broken] cannot be instantiated, the
    one of [offline] cannot be configured, the one of [slow] is canceled in
    mid-stream, every other one streams to the end. *)
Definition sampleManager : plugin.Manager :=
  plugin.mkManager (λ o,
    let name := registry.Name (plugin.Provider o) in
    if bool_decide (name = "broken") then inl "plugin binary not found"
    else if bool_decide (name = "offline") then inr (unconfigurablePlugin "connection refused")
    else if bool_decide (name = "slow") then inr (streamingPlugin (Some "context canceled"))
    else inr (streamingPlugin None)).

Definition sampleProvider (name alias : string) (resources : list string) : ProviderInfo :=
  mkProviderInfo (registry.mkProvider name "latest" "cloudquery")
    (config.mkProvider name alias resources [] [] "" 0 0 0).

Definition sampleState : state.Client := state.mkClient (λ _, None).
Definition sampleStorage : database.Storage := database.mkStorage "postgres://localhost/cq".
Definition background : context.Context := context.mkContext false.
Definition withDeadline : context.Context := context.mkContext true.

Definition sampleOptions (infos : list ProviderInfo) : FetchOptions :=
  mkFetchOptions true infos 7%N.

(** A plugin whose schema RPC fails with [err]. *)
Definition schemalessPlugin (err : error) : plugin.Plugin :=
  plugin.mkPlugin "1.0.0"
    (λ _, inr (cqproto.mkConfigureProviderResponse []))
    (inl err)
    (λ _, inr (cqproto.mkFetchResourcesStream [] None)).

(** A plugin that streams two messages about [ec2], of 1 and of 2 rows. *)
Definition ec2SecondMessage : cqproto.FetchResourcesResponse :=
  cqproto.mkFetchResourcesResponse "ec2" {[ "ec2" := true ]} 2 ""
    (cqproto.mkResourceFetchSummary 0 3 []).

Definition repeatingPlugin : plugin.Plugin :=
  plugin.mkPlugin "1.0.0"
    (λ _, inr (cqproto.mkConfigureProviderResponse []))
    (inr sampleCatalog)
    (λ _, inr (cqproto.mkFetchResourcesStream [ec2Message; ec2SecondMessage] None)).

(** Collaborators whose DSN parser rejects every connection string. *)
Definition strictDSNCollaborators : Collaborators := {|
  IsCancelation := λ err, false;
  CancelationDiag := λ err, [];
  convertToConfigureDiags := λ d, d;
  convertToFetchDiags := λ d _ _, d;
  Version := "v0.0.0";
  FilterTelemetryEvents := λ d, ([], d);
  DiagnosticsError := λ d, "";
  ResourceFetchStatusString := λ st, "";
  ParseConnectionString := λ dsn, inl "invalid connection string";
  NewUUID := inr 1%N
|}.

(** The workers deliver in the reverse of the provider order. *)
Definition inReverseOrder : Schedule :=
  {| arrival := reverse; arrival_perm := reverse_Permutation |}.

(** A configuration environment in which no flag is set, the versions
    [0.10] and [1.2.3] parse and the file [dsn.txt] holds a DSN. *)
Definition sampleEnvironment : ConfigEnvironment := {|
  SemVersion := string;
  NewVersion := λ v,
    if bool_decide (v = "0.10") then inr "0.10.0"
    else if bool_decide (v = "1.2.3") then inr "1.2.3"
    else inl "Invalid Semantic Version";
  VersionString := λ v, v;
  GetString := λ flag, "";
  JoinPath := λ dir name, dir +:+ "/" +:+ name;
  ReadFile := λ path,
    if bool_decide (path = "dsn.txt") then inr "postgres://localhost/cq"
    else inl "no such file";
  TrimSpace := λ s, s;
  IsAnyConnParamsSet := λ c,
    bool_decide (Connection.Host c ≠ "") || bool_decide (Connection.Database c ≠ "");
  BuildFromConnParams := λ c,
    Connection.withDSN c
      ("postgres://" +:+ Connection.Host c +:+ "/" +:+ Connection.Database c)
|}.

(** The same environment with the flag [--dsn postgres://flag/db]. *)
Definition flaggedEnvironment : ConfigEnvironment := {|
  SemVersion := string;
  NewVersion := NewVersion (ConfigEnvironment := sampleEnvironment);
  VersionString := λ v, v;
  GetString := λ flag, if bool_decide (flag = "dsn") then "postgres://flag/db" else "";
  JoinPath := JoinPath (ConfigEnvironment := sampleEnvironment);
  ReadFile := ReadFile (ConfigEnvironment := sampleEnvironment);
  TrimSpace := λ s, s;
  IsAnyConnParamsSet := IsAnyConnParamsSet (ConfigEnvironment := sampleEnvironment);
  BuildFromConnParams := BuildFromConnParams (ConfigEnvironment := sampleEnvironment)
|}.

(** A registry that files every provider under the organisation
    [cloudquery]. *)
Definition sampleRegistry : Registry :=
  {| ParseProviderName := λ s, ("cloudquery", s, None) |}.

Definition sampleBlock (name alias : string) : config.Provider :=
  config.mkProvider name alias ["*"] [] [] "" 0 0 0.

(** A configuration with a connection by host and database, one required
    provider at version [0.10] and two blocks of [aws], the second under
    the alias [eu]. *)
Definition sampleConfig : Config.t :=
  Config.mk
    (CloudQuery.mk "" "" (Some (Connection.mk "" "" "localhost" "cq" []))
       [Some (RequiredProvider.mk "aws" "0.10")])
    [Some (sampleBlock "aws" ""); Some (sampleBlock "aws" "eu")].

(** ** Facts about the helper packages *)

Section HelperFacts.

Lemma elem_of_Unique (x : string) (l : list string) :
  x ∈ cqsort.Unique l ↔ x ∈ l.
Proof.
  unfold cqsort.Unique. rewrite merge_sort_Permutation.
  apply elem_of_remove_dups.
Qed.

Lemma NoDup_Unique (l : list string) : NoDup (cqsort.Unique l).
Proof.
  unfold cqsort.Unique. rewrite merge_sort_Permutation.
  apply NoDup_remove_dups.
Qed.

Lemma Sorted_Unique (l : list string) : Sorted String.le (cqsort.Unique l).
Proof. unfold cqsort.Unique. apply Sorted_merge_sort; apply _. Qed.

(** The result only depends on the set of names. *)
Lemma Unique_canonical (l1 l2 : list string) :
  (∀ x, x ∈ l1 ↔ x ∈ l2) → cqsort.Unique l1 = cqsort.Unique l2.
Proof.
  intros Hset.
  apply (Sorted_unique String.le); try apply Sorted_Unique.
  apply NoDup_Permutation; try apply NoDup_Unique.
  intros x. rewrite !elem_of_Unique. apply Hset.
Qed.

Lemma Unique_perm (l1 l2 : list string) :
  l1 ≡ₚ l2 → cqsort.Unique l1 = cqsort.Unique l2.
Proof. intros Hp. apply Unique_canonical. intros x. by rewrite Hp. Qed.

(** A sorted, duplicate-free list is already canonical. *)
Lemma Unique_fixed (l : list string) :
  Sorted String.le l → NoDup l → cqsort.Unique l = l.
Proof.
  intros Hs Hn.
  apply (Sorted_unique String.le); [apply Sorted_Unique | done |].
  apply NoDup_Permutation; [apply NoDup_Unique | done |].
  intros x. apply elem_of_Unique.
Qed.

Lemma Unique_idemp (l : list string) :
  cqsort.Unique (cqsort.Unique l) = cqsort.Unique l.
Proof. apply Unique_fixed; [apply Sorted_Unique | apply NoDup_Unique]. Qed.

(** Any function that returns the names sorted, each once, is [Unique]. *)
Lemma Unique_characterised (f : list string → list string) :
  (∀ l, Sorted String.le (f l)) → (∀ l, NoDup (f l)) →
  (∀ l x, x ∈ f l ↔ x ∈ l) → ∀ l, f l = cqsort.Unique l.
Proof.
  intros Hs Hn He l.
  apply (Sorted_unique String.le); [done | apply Sorted_Unique |].
  apply NoDup_Permutation; [done | apply NoDup_Unique |].
  intros x. by rewrite He, elem_of_Unique.
Qed.

Lemma elem_of_Subtract (x y : option (list string)) (v : string) :
  v ∈ elems (funk.Subtract x y) ↔ v ∈ elems x ∧ v ∉ elems y.
Proof. unfold funk.Subtract. simpl. rewrite list_elem_of_filter. tauto. Qed.

Lemma Subtract_nil_r (l : list string) :
  funk.Subtract (Some l) (Some []) = Some l.
Proof.
  unfold funk.Subtract. simpl. f_equal.
  induction l as [|a l IH]; [done|].
  rewrite filter_cons. destruct (decide (a ∉ [])) as [_|Hn].
  - by rewrite IH.
  - exfalso. apply Hn. apply not_elem_of_nil.
Qed.

Lemma Sorted_le_filter (P : string → Prop) `{∀ x, Decision (P x)} (l : list string) :
  Sorted String.le l → Sorted String.le (filter P l).
Proof.
  intros Hs. apply Sorted_StronglySorted in Hs; [|apply _].
  apply StronglySorted_Sorted.
  induction Hs as [|a l Hs IH Hall]; [constructor|].
  rewrite filter_cons. destruct (decide (P a)); [|done].
  constructor; [done|].
  rewrite Forall_forall in Hall. apply Forall_forall.
  intros y Hy. apply Hall. apply list_elem_of_filter in Hy. tauto.
Qed.

Lemma elem_of_concat {A : Type} (x : A) (ls : list (list A)) :
  x ∈ concat ls ↔ ∃ l, x ∈ l ∧ l ∈ ls.
Proof.
  induction ls as [|l ls IH]; simpl.
  - split; [by intros ?%elem_of_nil|]. intros (l & _ & Hl). by apply elem_of_nil in Hl.
  - rewrite elem_of_app, IH. split.
    + intros [Hx|(l' & Hx & Hl')].
      * exists l. split; [done | by left].
      * exists l'. split; [done | by right].
    + intros (l' & Hx & Hl'). apply elem_of_cons in Hl' as [->|Hl'].
      * by left.
      * right. by exists l'.
Qed.

Lemma concat_Permutation {A : Type} (ls ks : list (list A)) :
  ls ≡ₚ ks → concat ls ≡ₚ concat ks.
Proof.
  induction 1 as [|l ls ks _ IH|l k ls|ls ks ms _ IH1 _ IH2]; simpl.
  - done.
  - by rewrite IH.
  - rewrite !app_assoc. f_equiv. apply Permutation_app_comm.
  - by rewrite IH1.
Qed.

End HelperFacts.

(** ** Facts about strings *)

Section StringFacts.

Lemma append_String (c : ascii) (a b : string) :
  String c a +:+ b = String c (a +:+ b).
Proof. reflexivity. Qed.

Lemma append_Empty (b : string) : "" +:+ b = b.
Proof. reflexivity. Qed.


Lemma substring_all (s : string) : substring 0 (String.length s) s = s.
Proof. induction s as [|c s IH]; simpl; [done | by rewrite IH]. Qed.

Lemma substring_split (n m : nat) (s : string) :
  (n + m)%nat = String.length s →
  s = substring 0 n s +:+ substring n m s.
Proof.
  revert s. induction n as [|n IH]; intros s Hlen.
  - simpl in Hlen. subst m.
    rewrite substring_all. by destruct s.
  - destruct s as [|c s]; [done|].
    simpl in Hlen. simpl. rewrite append_String. f_equal. apply IH. lia.
Qed.

Lemma length_substring_0 (n : nat) (s : string) :
  (n ≤ String.length s)%nat → String.length (substring 0 n s) = n.
Proof.
  revert s. induction n as [|n IH]; intros s Hlen.
  - by destruct s.
  - destruct s as [|c s]; simpl in *; [lia|]. rewrite IH; lia.
Qed.

Lemma substring_0_app (a b : string) (n : nat) :
  substring 0 (String.length a + n) (a +:+ b) = a +:+ substring 0 n b.
Proof.
  induction a as [|c a IH]; [done|].
  rewrite append_String. simpl. by rewrite IH.
Qed.

Lemma prefix_empty_inv (p : string) : String.prefix p "" = true → p = "".
Proof. by destruct p. Qed.

Lemma Index_Some (s sub : string) (n : nat) :
  String.index 0 sub s = Some n → strings.Index s sub = Z.of_nat n.
Proof. unfold strings.Index. by intros ->. Qed.

Lemma Index_nonneg_inv (s sub : string) :
  0 ≤ strings.Index s sub →
  ∃ n, String.index 0 sub s = Some n ∧ strings.Index s sub = Z.of_nat n.
Proof.
  unfold strings.Index. destruct (String.index 0 sub s) as [n|]; [eauto | lia].
Qed.

Lemma Index_bounds (s : string) (n : nat) :
  String.index 0 ".*" s = Some n → (n + 2 ≤ String.length s)%nat.
Proof.
  intros Hi. apply index_correct1 in Hi.
  change (String.length ".*") with 2%nat in Hi.
  destruct (decide (n + 2 ≤ String.length s)%nat) as [|Hgt]; [done|].
  exfalso.
  assert (Hnone : get 1 (substring n 2 s) = None).
  { rewrite substring_correct1 by lia.
    clear Hi. revert n Hgt. induction s as [|c s IH]; intros n Hgt; [done|].
    simpl in Hgt. destruct n as [|n]; simpl.
    - destruct s; [done | simpl in Hgt; lia].
    - apply (IH n). lia. }
  by rewrite Hi in Hnone.
Qed.

Lemma substring_second (n : nat) (s : string) (a b : ascii) :
  substring n 2 s = String a (String b "") → substring (S n) 1 s = String b "".
Proof.
  revert s. induction n as [|n IH]; intros s Hs.
  - destruct s as [|c s]; [done|]. simpl in Hs. injection Hs as _ Hs.
    simpl. exact Hs.
  - destruct s as [|c s]; [done|]. simpl in Hs. simpl. by apply IH.
Qed.

(** An entry in which [.*] occurs contains a star. *)
Lemma Contains_star_of_Index (s : string) (n : nat) :
  String.index 0 ".*" s = Some n → strings.Contains s "*" = true.
Proof.
  intros Hidx. apply index_correct1 in Hidx.
  change (String.length ".*") with 2%nat in Hidx.
  apply substring_second in Hidx.
  unfold strings.Contains, strings.Index.
  destruct (String.index 0 "*" s) as [m|] eqn:Hstar.
  - apply bool_decide_eq_true_2. lia.
  - exfalso. apply (index_correct3 0 (S n) "*" s Hstar); [done | lia | exact Hidx].
Qed.

End StringFacts.

(** ** Facts about the diagnostics of the resolver *)

Section DiagFacts.

Lemma isUserError_FromError (e : option error) (s : string) :
  Forall diag.isUserError (diag.FromError e diag.USER [diag.WithDetails s]).
Proof. destruct e; repeat constructor. Qed.

Lemma HasErrors_app (a b : diag.Diagnostics) :
  diag.HasErrors (a ++ b) = diag.HasErrors a || diag.HasErrors b.
Proof. unfold diag.HasErrors. apply existsb_app. Qed.

Lemma HasErrors_Permutation (a b : diag.Diagnostics) :
  a ≡ₚ b → diag.HasErrors a = diag.HasErrors b.
Proof.
  unfold diag.HasErrors.
  induction 1 as [|x l l' _ IH|x y l|l l' l'' _ IH1 _ IH2]; simpl.
  - done.
  - by rewrite IH.
  - destruct (diag.isError x), (diag.isError y); done.
  - by rewrite IH1.
Qed.

Lemma HasErrors_user (ds : diag.Diagnostics) :
  ds ≠ [] → Forall diag.isUserError ds → diag.HasErrors ds = true.
Proof.
  destruct ds as [|d ds]; [done|]. intros _ Hall.
  apply Forall_cons in Hall as [[_ Hsev] _].
  unfold diag.HasErrors, diag.isError. simpl. by rewrite Hsev.
Qed.

Lemma HasDiags_false (ds : diag.Diagnostics) : diag.HasDiags ds = false ↔ ds = [].
Proof. by destruct ds. Qed.

End DiagFacts.

(** ** Facts about the resolver *)

Section ResolverFacts.

Context `{MR : MapRange}.

Implicit Types (all : gmap string schema.Table) (r k : string).
Implicit Types (requested rest result ks : list string) (seen : gset string).

Lemma elem_of_rangeKeys k all : k ∈ rangeKeys all ↔ is_Some (all !! k).
Proof. by rewrite rangeKeys_perm, elem_of_elements, elem_of_dom. Qed.

Lemma NoDup_rangeKeys all : NoDup (rangeKeys all).
Proof. rewrite rangeKeys_perm. apply NoDup_elements. Qed.

Lemma collectPrefixed_elems (prefix : string) ks (res : option (list string)) :
  elems (collectPrefixed prefix ks res)
  = elems res ++ List.filter (λ k, strings.HasPrefix k prefix) ks.
Proof.
  revert res. induction ks as [|k ks IH]; intros res; simpl.
  - by rewrite app_nil_r.
  - destruct (strings.HasPrefix k prefix); [|done].
    rewrite IH. simpl. by rewrite <- app_assoc.
Qed.

Lemma elem_of_collectPrefixed (prefix : string) all k :
  k ∈ elems (collectPrefixed prefix (rangeKeys all) None)
  ↔ is_Some (all !! k) ∧ strings.HasPrefix k prefix = true.
Proof.
  rewrite collectPrefixed_elems. simpl.
  rewrite list_elem_of_In, filter_In, <- list_elem_of_In.
  by rewrite elem_of_rangeKeys.
Qed.

Lemma globShape_of (pattern : string) : globShape pattern.
Proof.
  destruct (String.index 0 ".*" pattern) as [n|] eqn:Hidx.
  - pose proof (Index_Some _ _ _ Hidx) as HI.
    destruct (decide (0 < n)%nat) as [Hpos|Hz].
    + destruct (decide ((n + 2)%nat = String.length pattern)) as [Hend|Hne].
      * by eapply shapeGlob.
      * apply shapeBad; [|right; lia].
        intros all. unfold matchResourceGlob. rewrite HI.
        rewrite bool_decide_eq_true_2 by lia.
        rewrite bool_decide_eq_true_2 by (unfold strings.len; lia).
        eexists; split; [reflexivity|]. by repeat split.
    + apply shapeBad; [|right; lia].
      intros all. unfold matchResourceGlob. rewrite HI.
      rewrite bool_decide_eq_false_2 by lia.
      rewrite bool_decide_eq_true_2 by lia. simpl.
      eexists; split; [reflexivity|]. by repeat split.
  - assert (HI : strings.Index pattern ".*" = -1).
    { unfold strings.Index. by rewrite Hidx. }
    destruct (strings.Contains pattern "*") eqn:Hc.
    + apply shapeBad; [|by left].
      intros all. unfold matchResourceGlob. rewrite HI, Hc.
      rewrite bool_decide_eq_false_2 by lia.
      rewrite bool_decide_eq_false_2 by lia. simpl.
      eexists; split; [reflexivity|]. by repeat split.
    + apply shapePlain; [|done].
      intros all. unfold matchResourceGlob. rewrite HI, Hc.
      rewrite bool_decide_eq_false_2 by lia.
      by rewrite bool_decide_eq_false_2 by lia.
Qed.

(** An entry whose first [.*] is its last two characters, after a
    non-empty prefix, is matched against the catalog by that prefix, dot
    included. *)
Lemma matchResourceGlob_glob (pattern : string) (n : nat) all :
  String.index 0 ".*" pattern = Some n →
  (0 < n)%nat → (n + 2)%nat = String.length pattern →
  matchResourceGlob pattern all
  = (collectPrefixed (substring 0 n pattern +:+ ".") (rangeKeys all) None, []).
Proof.
  intros Hidx Hpos Hend. unfold matchResourceGlob.
  rewrite (Index_Some _ _ _ Hidx).
  rewrite bool_decide_eq_true_2 by lia.
  rewrite bool_decide_eq_false_2 by (unfold strings.len; lia).
  do 2 f_equal. unfold strings.slice_to.
  replace (Z.to_nat (Z.of_nat n + 1)) with (n + 1)%nat by lia.
  pose proof (index_correct1 _ _ _ _ Hidx) as Hsub.
  change (String.length ".*") with 2%nat in Hsub.
  rewrite (substring_split n 2 pattern Hend) at 1.
  rewrite Hsub.
  rewrite <- (length_substring_0 n pattern) at 1 by lia.
  by rewrite substring_0_app.
Qed.


(** Names produced by a glob are catalog names, and none is empty. *)
Lemma matchResourceGlob_names (pattern : string) all (ms : option (list string))
    (ds : diag.Diagnostics) k :
  matchResourceGlob pattern all = (ms, ds) → k ∈ elems ms →
  is_Some (all !! k) ∧ k ≠ "".
Proof.
  intros Hm Hk. destruct (globShape_of pattern) as [n Hidx Hpos Hend|Hbad _|Hplain _].
  - rewrite (matchResourceGlob_glob _ _ _ Hidx Hpos Hend) in Hm.
    injection Hm as <- <-.
    apply elem_of_collectPrefixed in Hk as [Hin Hpre]. split; [done|].
    intros ->. apply prefix_empty_inv in Hpre.
    by destruct (substring 0 n pattern).
  - destruct (Hbad all) as (d & Hd & _). rewrite Hd in Hm.
    injection Hm as <- <-. by apply elem_of_nil in Hk.
  - rewrite Hplain in Hm. injection Hm as <- <-. by apply elem_of_nil in Hk.
Qed.

End ResolverFacts.

Section LoopFacts.

Context `{MR : MapRange}.

Implicit Types (all : gmap string schema.Table) (r k : string).
Implicit Types (requested rest result ks : list string) (seen : gset string).

(** One iteration of the loop on an entry that passes the two guards. *)
Lemma globLoop_cons all r rest result seen :
  r ≠ "" → r ∉ seen →
  globLoop all (r :: rest) result seen =
  match all !! r with
  | Some _ => globLoop all rest (result ++ [r]) ({[r]} ∪ seen)
  | None =>
      if bool_decide (r = "*") then (None, errWildcardNotAlone)
      else
        let '(globMatches, diags) := matchResourceGlob r all in
        if diag.HasDiags diags then (None, diags)
        else if bool_decide (length (elems globMatches) = 0%nat)
        then (None, errNotExist r)
        else globLoop all rest (result ++ elems globMatches) ({[r]} ∪ seen)
  end.
Proof.
  intros Hne Hseen. simpl.
  by rewrite bool_decide_eq_false_2, bool_decide_eq_false_2.
Qed.

(** A list of distinct, non-empty catalog names is accepted as it is. *)
Lemma globLoop_exact all ks result seen :
  (∀ k, k ∈ ks → is_Some (all !! k)) → "" ∉ ks → NoDup ks →
  (∀ k, k ∈ ks → k ∉ seen) →
  globLoop all ks result seen = (Some (cqsort.Unique (result ++ ks)), []).
Proof.
  revert result seen. induction ks as [|k ks IH]; intros result seen Hall He Hnd Hseen.
  - simpl. by rewrite app_nil_r.
  - apply NoDup_cons in Hnd as [Hk Hnd].
    rewrite globLoop_cons; [| set_solver | set_solver].
    destruct (Hall k) as [t ->]; [set_solver|].
    rewrite IH; [| set_solver | set_solver | done | set_solver].
    by rewrite <- app_assoc.
Qed.

(** If one of the catalog names is empty, walking over the catalog stops at
    it, whatever its place in the iteration order. *)
Lemma globLoop_exact_empty all ks result seen :
  (∀ k, k ∈ ks → is_Some (all !! k)) → "" ∈ ks → NoDup ks →
  (∀ k, k ∈ ks → k ∉ seen) →
  globLoop all ks result seen = (None, errEmptyName).
Proof.
  revert result seen. induction ks as [|k ks IH]; intros result seen Hall He Hnd Hseen.
  - by apply elem_of_nil in He.
  - destruct (decide (k = "")) as [->|Hne]; [done|].
    apply NoDup_cons in Hnd as [Hk Hnd].
    rewrite globLoop_cons; [| done | set_solver].
    destruct (Hall k) as [t ->]; [set_solver|].
    apply IH; [set_solver | set_solver | done | set_solver].
Qed.

(** Every way out of the loop: either the canonical form of the accepted
    names, or nil with a single user error. *)
Lemma globLoop_outcome all requested result seen :
  (∃ result', globLoop all requested result seen = (Some (cqsort.Unique result'), [])
              ∧ (∀ x, x ∈ result → x ∈ result')
              ∧ (∀ x, x ∈ result' → x ∈ result ∨ (is_Some (all !! x) ∧ x ≠ "")))
  ∨ (∃ d, globLoop all requested result seen = (None, [d]) ∧ diag.isUserError d).
Proof.
  revert result seen.
  induction requested as [|r rest IH]; intros result seen.
  - left. exists result. simpl. auto.
  - destruct (decide (r = "")) as [->|Hne].
    { right. eexists. split; [reflexivity | by split]. }
    destruct (decide (r ∈ seen)) as [Hin|Hnin].
    { right. simpl. rewrite bool_decide_eq_false_2, bool_decide_eq_true_2 by done.
      eexists. split; [reflexivity | by split]. }
    rewrite globLoop_cons by done.
    destruct (all !! r) as [t|] eqn:Hlk.
    + destruct (IH (result ++ [r]) ({[r]} ∪ seen)) as [(res' & -> & Hsub & Hsup)|Hfail].
      * left. exists res'. split; [done|]. split.
        -- intros x Hx. apply Hsub. set_solver.
        -- intros x Hx. destruct (Hsup x Hx) as [Hx'|Hx']; [|by right].
           apply elem_of_app in Hx' as [Hx'|Hx']; [by left|].
           apply list_elem_of_singleton in Hx' as ->. right. split; [by eexists | done].
      * by right.
    + case_bool_decide as Hstar.
      { right. eexists. split; [reflexivity | by split]. }
      destruct (matchResourceGlob r all) as [ms ds] eqn:Hm.
      destruct (globShape_of r) as [n Hidx Hpos Hend|Hbad _|Hplain _].
      * rewrite (matchResourceGlob_glob _ _ _ Hidx Hpos Hend) in Hm.
        injection Hm as <- <-. simpl diag.HasDiags. cbv iota.
        case_bool_decide as Hlen.
        { right. eexists. split; [reflexivity | by split]. }
        set (ms := elems _) in *.
        destruct (IH (result ++ ms) ({[r]} ∪ seen)) as [(res' & -> & Hsub & Hsup)|Hfail].
        -- left. exists res'. split; [done|]. split.
           ++ intros x Hx. apply Hsub. set_solver.
           ++ intros x Hx. destruct (Hsup x Hx) as [Hx'|Hx']; [|by right].
              apply elem_of_app in Hx' as [Hx'|Hx']; [by left|]. right.
              eapply matchResourceGlob_names; [|exact Hx'].
              by apply matchResourceGlob_glob.
        -- by right.
      * destruct (Hbad all) as (d & Hd & Hu & _). rewrite Hd in Hm.
        injection Hm as <- <-. right. exists d. by split.
      * rewrite Hplain in Hm. injection Hm as <- <-. right.
        eexists. split; [reflexivity | by split].
Qed.

(** An empty entry, a repeated entry or an entry already seen makes the
    loop fail. *)
Lemma globLoop_fails all requested result seen :
  "" ∈ requested ∨ ¬ NoDup requested ∨ (∃ x, x ∈ requested ∧ x ∈ seen) →
  ∃ d, globLoop all requested result seen = (None, [d]) ∧ diag.isUserError d.
Proof.
  revert result seen.
  induction requested as [|r rest IH]; intros result seen Hbad.
  { destruct Hbad as [H|[H|(x & H & _)]].
    - by apply elem_of_nil in H.
    - destruct H. constructor.
    - by apply elem_of_nil in H. }
  assert (Hrest : ∀ result',
    r ≠ "" → r ∉ seen →
    ∃ d, globLoop all rest result' ({[r]} ∪ seen) = (None, [d]) ∧ diag.isUserError d).
  { intros result' Hne Hnin. apply IH.
    destruct Hbad as [H|[H|(x & H & Hx)]].
    - left. set_solver.
    - destruct (decide (r ∈ rest)) as [Hr|Hr].
      + right; right. exists r. set_solver.
      + right; left. intros Hnd. apply H. by constructor.
    - right; right. destruct (decide (x = r)) as [->|Hxr]; [done|].
      exists x. set_solver. }
  destruct (globLoop_outcome all (r :: rest) result seen)
    as [(res' & Heq & _)|Hfail]; [|done].
  exfalso.
  destruct (decide (r = "")) as [->|Hne]; [done|].
  destruct (decide (r ∈ seen)) as [Hin|Hnin].
  { simpl in Heq. by rewrite bool_decide_eq_false_2, bool_decide_eq_true_2 in Heq. }
  rewrite globLoop_cons in Heq by done.
  destruct (all !! r) as [t|].
  - destruct (Hrest (result ++ [r]) Hne Hnin) as (d & Hd & _). congruence.
  - case_bool_decide; [done|].
    destruct (matchResourceGlob r all) as [ms ds].
    destruct (diag.HasDiags ds) eqn:Hds.
    { apply (f_equal fst) in Heq. done. }
    case_bool_decide; [done|].
    destruct (Hrest (result ++ elems ms) Hne Hnin) as (d & Hd & _). congruence.
Qed.

(** An entry without a star that is not a catalog name does not exist. *)
Lemma globLoop_unknown_name all r rest result seen :
  r ≠ "" → r ∉ seen → all !! r = None → strings.Contains r "*" = false →
  globLoop all (r :: rest) result seen = (None, errNotExist r).
Proof.
  intros Hne Hseen Hlk Hplain.
  rewrite globLoop_cons, Hlk by done.
  rewrite bool_decide_eq_false_2 by (by intros ->).
  destruct (globShape_of r) as [n Hidx _ _|_ [Hstar|Hidx]|Hm _].
  - apply Contains_star_of_Index in Hidx. congruence.
  - congruence.
  - apply Index_nonneg_inv in Hidx as (n & Hidx & _).
    apply Contains_star_of_Index in Hidx. congruence.
  - by rewrite Hm.
Qed.

End LoopFacts.

(** ** The iteration order of the catalog does not show in the results *)

Section OrderIrrelevance.

Variables R1 R2 : MapRange.

Implicit Types (all : gmap string schema.Table) (r k : string).

Lemma matchResourceGlob_order (pattern : string) all :
  (matchResourceGlob (MR:=R1) pattern all).2 = (matchResourceGlob (MR:=R2) pattern all).2
  ∧ ∀ k, k ∈ elems (matchResourceGlob (MR:=R1) pattern all).1
         ↔ k ∈ elems (matchResourceGlob (MR:=R2) pattern all).1.
Proof.
  unfold matchResourceGlob.
  repeat case_bool_decide; simpl; try (split; [done | tauto]).
  split; [done|]. intros k. by rewrite !elem_of_collectPrefixed.
Qed.

Lemma globLoop_order all (requested result1 result2 : list string) (seen : gset string) :
  (∀ x, x ∈ result1 ↔ x ∈ result2) →
  globLoop (MR:=R1) all requested result1 seen
  = globLoop (MR:=R2) all requested result2 seen.
Proof.
  revert result1 result2 seen.
  induction requested as [|r rest IH]; intros result1 result2 seen Hres.
  - simpl. do 2 f_equal. by apply Unique_canonical.
  - simpl. repeat case_bool_decide; try done.
    + destruct (all !! r); [|done]. apply IH. set_solver.
    + destruct (all !! r); [apply IH; set_solver|].
      destruct (matchResourceGlob_order r all) as [Hds Hms].
      destruct (matchResourceGlob (MR:=R1) r all) as [ms1 ds1].
      destruct (matchResourceGlob (MR:=R2) r all) as [ms2 ds2].
      simpl in Hds, Hms. subst ds2.
      destruct (diag.HasDiags ds1); [done|].
      assert (Hnil : bool_decide (length (elems ms1) = 0%nat)
                     = bool_decide (length (elems ms2) = 0%nat)).
      { destruct (elems ms1) as [|a l1], (elems ms2) as [|b l2]; simpl; try done.
        - exfalso. assert (Hb : b ∈ []) by (apply Hms; left).
          by apply elem_of_nil in Hb.
        - exfalso. assert (Ha : a ∈ []) by (apply Hms; left).
          by apply elem_of_nil in Ha. }
      rewrite Hnil. clear Hnil.
      destruct (bool_decide (length (elems ms2) = 0%nat)); [done|].
      apply IH. intros x. rewrite !elem_of_app. by rewrite Hres, Hms.
Qed.

Lemma doGlobResources_order (requested : list string) (allowWild : bool) all :
  doGlobResources (MR:=R1) requested allowWild all
  = doGlobResources (MR:=R2) requested allowWild all.
Proof.
  unfold doGlobResources. destruct allowWild.
  - case_bool_decide; [done|]. by apply globLoop_order.
  - destruct (_ && _); [|by apply globLoop_order].
    destruct (decide ("" ∈ dom all)) as [He|He].
    + rewrite !globLoop_exact_empty; try done;
        try apply NoDup_rangeKeys; try (intros k; by rewrite elem_of_rangeKeys);
        try (rewrite elem_of_rangeKeys; by apply elem_of_dom); set_solver.
    + rewrite !globLoop_exact;
        try apply NoDup_rangeKeys; try (intros k; by rewrite elem_of_rangeKeys);
        try (rewrite elem_of_rangeKeys; by rewrite <- elem_of_dom); try set_solver.
      do 2 f_equal. apply Unique_canonical. intros x. simpl.
      by rewrite !elem_of_rangeKeys.
Qed.

Lemma doNormalizeResources_order (resources skip : list string) all :
  doNormalizeResources (MR:=R1) resources skip all
  = doNormalizeResources (MR:=R2) resources skip all.
Proof.
  unfold doNormalizeResources. by rewrite !doGlobResources_order.
Qed.

End OrderIrrelevance.

(** ** Properties of the resolver *)

Section ResolverProperties.

Context `{MR : MapRange}.

Implicit Types (all : gmap string schema.Table) (r k : string).
Implicit Types (requested rest result ks : list string) (seen : gset string).

Lemma lone_wildcard_test requested :
  bool_decide (length requested = 1%nat) && bool_decide (head requested = Some "*")
  = bool_decide (requested = ["*"]).
Proof.
  destruct requested as [|a [|b l]]; simpl;
    repeat case_bool_decide; simpl; simplify_eq; done.
Qed.

Lemma doGlobResources_outcome requested (allowWild : bool) all :
  (∃ result, doGlobResources requested allowWild all = (Some (cqsort.Unique result), [])
             ∧ ∀ x, x ∈ result → is_Some (all !! x) ∧ x ≠ "")
  ∨ (∃ d, doGlobResources requested allowWild all = (None, [d]) ∧ diag.isUserError d).
Proof.
  assert (Hloop : ∀ l,
    (∃ result, globLoop all l [] ∅ = (Some (cqsort.Unique result), [])
               ∧ ∀ x, x ∈ result → is_Some (all !! x) ∧ x ≠ "")
    ∨ (∃ d, globLoop all l [] ∅ = (None, [d]) ∧ diag.isUserError d)).
  { intros l. destruct (globLoop_outcome all l [] ∅) as [(res & Heq & _ & Hsup)|Hf].
    - left. exists res. split; [done|]. intros x Hx.
      destruct (Hsup x Hx) as [Hnil|Hok]; [by apply elem_of_nil in Hnil | done].
    - by right. }
  unfold doGlobResources. destruct allowWild.
  - case_bool_decide; [|apply Hloop].
    right. eexists. split; [reflexivity | by split].
  - destruct (_ && _); apply Hloop.
Qed.

(** Entries that are accepted are consumed by the loop, which goes on with
    the rest of the list having seen them. *)
Lemma globLoop_accepted_prefix all (pre : list string) result seen :
  NoDup pre → Forall (acceptsEntry all) pre → (∀ x, x ∈ pre → x ∉ seen) →
  ∃ result', ∀ rest,
    globLoop all (pre ++ rest) result seen
    = globLoop all rest result' (list_to_set pre ∪ seen).
Proof.
  revert result seen. induction pre as [|r pre IH]; intros result seen Hnd Hacc Hseen.
  - exists result. intros rest. simpl. f_equal. set_solver.
  - apply NoDup_cons in Hnd as [Hr Hnd].
    apply Forall_cons in Hacc as [[Hne Hr_ok] Hacc].
    assert (Hstep : ∃ result1, ∀ rest,
      globLoop all (r :: rest) result seen = globLoop all rest result1 ({[r]} ∪ seen)).
    { destruct (all !! r) as [t|] eqn:Hlk.
      - exists (result ++ [r]). intros rest.
        rewrite globLoop_cons; [by rewrite Hlk | done | set_solver].
      - destruct Hr_ok as [[t Ht]|(Hstar & ms & Hm & Hms)]; [congruence|].
        exists (result ++ elems ms). intros rest.
        rewrite globLoop_cons; [| done | set_solver].
        rewrite Hlk, Hm, bool_decide_eq_false_2 by done. simpl.
        rewrite bool_decide_eq_false_2; [done|].
        by destruct (elems ms). }
    destruct Hstep as [result1 Hstep].
    destruct (IH result1 ({[r]} ∪ seen) Hnd Hacc) as [result' Hrest]; [set_solver|].
    exists result'. intros rest. simpl app. rewrite Hstep, Hrest.
    f_equal. set_solver.
Qed.

(** C3 (amended). For every resource catalog none of whose names is the
    empty string, and for every iteration order of the catalog, resolving the
    requested list [["*"]] (the role in which the wildcard is permitted)
    succeeds without diagnostics and returns exactly the names of the
    catalog, sorted and without duplicates; so does the whole normalization
    with an empty skip list. *)
Theorem C3_wildcard_yields_catalog all :
  all !! "" = None →
  ∃ names,
    doGlobResources ["*"] false all = (Some names, [])
    ∧ doNormalizeResources ["*"] [] all = (Some names, [])
    ∧ Sorted String.le names ∧ NoDup names
    ∧ ∀ k, k ∈ names ↔ is_Some (all !! k).
Proof.
  intros Hempty.
  assert (Hglob : doGlobResources ["*"] false all
                  = (Some (cqsort.Unique (rangeKeys all)), [])).
  { unfold doGlobResources. simpl.
    apply globLoop_exact.
    - intros k. by rewrite elem_of_rangeKeys.
    - rewrite elem_of_rangeKeys, Hempty. by intros [? ?].
    - apply NoDup_rangeKeys.
    - set_solver. }
  exists (cqsort.Unique (rangeKeys all)). split; [done|]. split.
  - unfold doNormalizeResources. rewrite Hglob.
    change (doGlobResources [] true all) with (Some (@nil string), @nil diag.Diagnostic).
    cbv beta iota. by rewrite Subtract_nil_r.
  - split; [apply Sorted_Unique|]. split; [apply NoDup_Unique|].
    intros k. by rewrite elem_of_Unique, elem_of_rangeKeys.
Qed.

(** C4. In the skip role the wildcard is refused wherever it stands: the
    skip list is then not resolved at all, exactly one diagnostic is
    returned, a user error, and the normalization reports it after the
    diagnostics of the requested list. Otherwise the skip list is resolved
    exactly as a requested list is; the normalized result is the requested
    result minus the skip result, as a set difference; and on the catalog
    [{ec2, s3, iam.roles, iam.policies}], requested [["*"]] and skip
    [["iam.*"]] give exactly [ec2, s3], for every iteration order. *)
Theorem C4_skip_list_subtracted (resources skip : list string) all :
  doGlobResources skip true all
  = (if bool_decide ("*" ∈ skip) then (None, errWildcardInSkip)
     else doGlobResources skip false all)
  ∧ (∃ d, errWildcardInSkip = [d]
          ∧ diag.isUserError d
          ∧ diag.err d
            = Some "wildcard resource can only be in the requested resources list"
          ∧ ("*" ∈ skip →
             doGlobResources skip true all = (None, [d])
             ∧ (doNormalizeResources resources skip all).2
               = (doGlobResources resources false all).2 ++ [d]))
  ∧ doNormalizeResources resources skip all
    = (funk.Subtract (doGlobResources resources false all).1
                     (doGlobResources skip true all).1,
       diag.Add (doGlobResources resources false all).2
                (doGlobResources skip true all).2)
  ∧ (∀ v, v ∈ elems (doNormalizeResources resources skip all).1
          ↔ v ∈ elems (doGlobResources resources false all).1
            ∧ v ∉ elems (doGlobResources skip true all).1)
  ∧ doNormalizeResources ["*"] ["iam.*"] sampleCatalog = (Some ["ec2"; "s3"], []).
Proof.
  assert (Hnorm : doNormalizeResources resources skip all
    = (funk.Subtract (doGlobResources resources false all).1
                     (doGlobResources skip true all).1,
       diag.Add (doGlobResources resources false all).2
                (doGlobResources skip true all).2)).
  { unfold doNormalizeResources.
    by destruct (doGlobResources resources false all), (doGlobResources skip true all). }
  assert (Hskip : doGlobResources skip true all
    = (if bool_decide ("*" ∈ skip) then (None, errWildcardInSkip)
       else doGlobResources skip false all)).
  { unfold doGlobResources. case_bool_decide as Hstar; [done|].
    rewrite lone_wildcard_test. rewrite bool_decide_eq_false_2; [done|].
    intros ->. apply Hstar. by left. }
  split; [exact Hskip|]. split; [|split; [|split]].
  - eexists. split; [reflexivity|]. split; [done|]. split; [done|].
    intros Hstar. rewrite Hnorm, Hskip, bool_decide_eq_true_2 by done. done.
  - exact Hnorm.
  - intros v. rewrite Hnorm. simpl. apply elem_of_Subtract.
  - rewrite (doNormalizeResources_order MR elementsRange). by vm_compute.
Qed.

End ResolverProperties.

(** Witness of C3 on the scenario catalog. *)
Lemma C3_wildcard_yields_catalog_witness :
  sampleCatalog !! "" = None
  ∧ ∃ names,
      doGlobResources ["*"] false sampleCatalog = (Some names, [])
      ∧ doNormalizeResources ["*"] [] sampleCatalog = (Some names, [])
      ∧ Sorted String.le names ∧ NoDup names
      ∧ ∀ k, k ∈ names ↔ is_Some (sampleCatalog !! k).
Proof.
  split; [by vm_compute|].
  apply (C3_wildcard_yields_catalog (MR:=elementsRange) sampleCatalog).
  by vm_compute.
Defined.

(** C3 as stated fails on a catalog that has a resource with an empty name:
    the expansion of the wildcard meets the guard against empty names. *)
Lemma C3_counterexample_unnamed_resource :
  doGlobResources ["*"] false unnamedCatalog = (None, errEmptyName)
  ∧ diag.HasErrors errEmptyName = true
  ∧ ¬ ∃ names, doGlobResources ["*"] false unnamedCatalog = (Some names, []).
Proof.
  assert (Heval : doGlobResources ["*"] false unnamedCatalog = (None, errEmptyName))
    by (by vm_compute).
  split; [exact Heval|]. split; [by vm_compute|].
  intros [names Hn]. rewrite Heval in Hn. discriminate Hn.
Qed.

(** C4 on a skip list with the wildcard in second place: nothing is
    skipped, and the one diagnostic is the user error of the wildcard. *)
Lemma C4_skip_list_subtracted_witness :
  ∃ d, doGlobResources ["ec2"; "*"] true sampleCatalog = (None, [d])
       ∧ diag.isUserError d
       ∧ (doNormalizeResources ["s3"] ["ec2"; "*"] sampleCatalog).2 = [d].
Proof.
  destruct (C4_skip_list_subtracted (MR:=elementsRange) ["s3"] ["ec2"; "*"] sampleCatalog)
    as (_ & (d & _ & Huser & _ & Hstar) & _).
  destruct Hstar as [Hglob Hnorm]; [set_solver|].
  exists d. split; [exact Hglob|]. split; [exact Huser|].
  rewrite Hnorm. by vm_compute.
Defined.

Section GlobEntries.

Context `{MR : MapRange}.

Implicit Types (all : gmap string schema.Table) (r k : string).





End GlobEntries.



Section FaultyLists.

Context `{MR : MapRange}.

Implicit Types (all : gmap string schema.Table) (r k : string).

(** C6 (amended). A list with an empty entry or with the same entry twice
    is never resolved: [doGlobResources] returns a nil list and exactly one
    diagnostic, a user-classified error. The loop stops at the first entry
    it rejects: the diagnostic is the empty-name error when every entry
    before the empty one is accepted, and the duplicate error when every
    entry before the second occurrence is accepted (in the skip role,
    provided the list has no wildcard, which is refused before the loop). *)
Theorem C6_faulty_list_rejected (requested : list string) (allowWild : bool) all :
  "" ∈ requested ∨ ¬ NoDup requested →
  (∃ d, doGlobResources requested allowWild all = (None, [d]) ∧ diag.isUserError d)
  ∧ (∀ pre post, requested = pre ++ "" :: post →
       NoDup pre → Forall (acceptsEntry all) pre →
       (allowWild = true → "*" ∉ requested) →
       doGlobResources requested allowWild all = (None, errEmptyName))
  ∧ (∀ pre r post, requested = pre ++ r :: post → r ∈ pre →
       NoDup pre → Forall (acceptsEntry all) pre →
       (allowWild = true → "*" ∉ requested) →
       doGlobResources requested allowWild all = (None, errDuplicate r)).
Proof.
  intros Hbad.
  assert (Hnot_lone : requested ≠ ["*"]).
  { intros ->. destruct Hbad as [H|H].
    - apply list_elem_of_singleton in H. done.
    - apply H. apply NoDup_singleton. }
  assert (Hloop : ∀ pre rest, requested = pre ++ rest →
    NoDup pre → Forall (acceptsEntry all) pre →
    (allowWild = true → "*" ∉ requested) →
    ∃ result', doGlobResources requested allowWild all
               = globLoop all rest result' (list_to_set pre ∪ ∅)).
  { intros pre rest Heq Hnd Hacc Hwild.
    destruct (globLoop_accepted_prefix all pre [] ∅ Hnd Hacc) as [result' Hres];
      [set_solver|].
    exists result'. rewrite <- Hres, <- Heq.
    unfold doGlobResources. destruct allowWild.
    - rewrite bool_decide_eq_false_2; [done | by apply Hwild].
    - by rewrite lone_wildcard_test, bool_decide_eq_false_2. }
  split; [|split].
  - unfold doGlobResources. destruct allowWild.
    + case_bool_decide.
      * eexists. split; [reflexivity | by split].
      * apply globLoop_fails. tauto.
    + rewrite lone_wildcard_test, bool_decide_eq_false_2 by done.
      apply globLoop_fails. tauto.
  - intros pre post Heq Hnd Hacc Hwild.
    destruct (Hloop pre ("" :: post) Heq Hnd Hacc Hwild) as [result' ->]. done.
  - intros pre r post Heq Hr Hnd Hacc Hwild.
    destruct (Hloop pre (r :: post) Heq Hnd Hacc Hwild) as [result' ->].
    assert (Hne : r ≠ "").
    { rewrite Forall_forall in Hacc. by destruct (Hacc r Hr). }
    simpl. rewrite bool_decide_eq_false_2 by done.
    rewrite bool_decide_eq_true_2; [done|]. set_solver.
Qed.

(** C8 (amended). Normalization is idempotent on every output other than
    the one-entry list [["*"]]: when [doNormalizeResources] succeeds with
    such an output, normalizing that output with an empty skip list succeeds
    and returns it unchanged. (An output [["*"]] needs a catalog with a
    resource literally named [*].) *)
Theorem C8_normalize_idempotent (resources skip out : list string) all :
  doNormalizeResources resources skip all = (Some out, []) →
  out ≠ ["*"] →
  doNormalizeResources out [] all = (Some out, []).
Proof.
  intros Hrun Hout. unfold doNormalizeResources in Hrun.
  destruct (doGlobResources_outcome resources false all)
    as [(res & Huse & Hnames)|(d & Huse & _)]; rewrite Huse in Hrun;
    destruct (doGlobResources skip true all) as [skipRes dd];
    injection Hrun as Hsub Hdiags; [|discriminate Hdiags].
  simpl in Hsub. subst out.
  set (out := filter _ _) in *.
  assert (Hin : ∀ x, x ∈ out → is_Some (all !! x) ∧ x ≠ "").
  { intros x Hx. apply list_elem_of_filter in Hx as [_ Hx].
    simpl in Hx. rewrite elem_of_Unique in Hx. by apply Hnames. }
  assert (Hsorted : Sorted String.le out) by apply Sorted_le_filter, Sorted_Unique.
  assert (Hnodup : NoDup out) by apply NoDup_filter, NoDup_Unique.
  assert (Hglob : doGlobResources out false all = (Some out, [])).
  { unfold doGlobResources.
    rewrite lone_wildcard_test, bool_decide_eq_false_2 by done.
    rewrite globLoop_exact; [| | |done|set_solver].
    - simpl. by rewrite Unique_fixed.
    - intros k Hk. by apply Hin.
    - intros He. by destruct (Hin "" He). }
  unfold doNormalizeResources. rewrite Hglob.
  change (doGlobResources [] true all) with (Some (@nil string), @nil diag.Diagnostic).
  cbv beta iota. by rewrite Subtract_nil_r.
Qed.

End FaultyLists.

(** Witness of C6: the scenario [["ec2"; "ec2"]]. *)
Lemma C6_faulty_list_rejected_witness :
  ("" ∈ ["ec2"; "ec2"] ∨ ¬ NoDup ["ec2"; "ec2"])
  ∧ (∃ d, doGlobResources ["ec2"; "ec2"] false sampleCatalog = (None, [d])
          ∧ diag.isUserError d)
  ∧ doGlobResources ["ec2"; "ec2"] false sampleCatalog = (None, errDuplicate "ec2").
Proof.
  assert (Hdup : "" ∈ ["ec2"; "ec2"] ∨ ¬ NoDup ["ec2"; "ec2"]).
  { right. intros Hnd. apply NoDup_cons in Hnd as [Hnin _]. apply Hnin. by left. }
  split; [exact Hdup|].
  destruct (C6_faulty_list_rejected (MR:=elementsRange) ["ec2"; "ec2"] false
              sampleCatalog Hdup) as (Hfail & _ & Hsecond).
  split; [exact Hfail|].
  apply (Hsecond ["ec2"] "ec2" []).
  - reflexivity.
  - apply list_elem_of_here.
  - apply NoDup_singleton.
  - apply Forall_cons. split; [|constructor].
    split; [done|]. left. eexists. by vm_compute.
  - discriminate.
Defined.

(** C6 as stated fails when an earlier fault is met first: in
    [["vpc"; "vpc"]] over a catalog without [vpc] the entry is repeated, yet
    the diagnostic is "does not exist", raised at the first occurrence. *)
Lemma C6_counterexample_unknown_repeated :
  ¬ NoDup ["vpc"; "vpc"]
  ∧ doGlobResources ["vpc"; "vpc"] false sampleCatalog = (None, errNotExist "vpc")
  ∧ doGlobResources ["vpc"; "vpc"] false sampleCatalog ≠ (None, errDuplicate "vpc").
Proof.
  split; [|split].
  - intros Hnd. apply NoDup_cons in Hnd as [Hnin _]. apply Hnin. by left.
  - by vm_compute.
  - by vm_compute.
Qed.

(** Witness of C8: the scenario with requested [["*"]] and skip [["iam.*"]]. *)
Lemma C8_normalize_idempotent_witness :
  doNormalizeResources ["*"] ["iam.*"] sampleCatalog = (Some ["ec2"; "s3"], [])
  ∧ ["ec2"; "s3"] ≠ ["*"]
  ∧ doNormalizeResources ["ec2"; "s3"] [] sampleCatalog = (Some ["ec2"; "s3"], []).
Proof.
  assert (Hrun : doNormalizeResources ["*"] ["iam.*"] sampleCatalog
                 = (Some ["ec2"; "s3"], [])) by (by vm_compute).
  assert (Hout : ["ec2"; "s3"] ≠ ["*"]) by done.
  split; [exact Hrun|]. split; [exact Hout|].
  exact (C8_normalize_idempotent (MR:=elementsRange) ["*"] ["iam.*"] ["ec2"; "s3"]
           sampleCatalog Hrun Hout).
Defined.

(** C8 as stated fails on a catalog with a resource literally named [*]:
    requested [["*"]] minus skip [["a"]] is [["*"]], and normalizing
    [["*"]] again expands it to the whole catalog. *)
Lemma C8_counterexample_star_resource :
  doNormalizeResources ["*"] ["a"] starCatalog = (Some ["*"], [])
  ∧ doNormalizeResources ["*"] [] starCatalog = (Some ["*"; "a"], [])
  ∧ doNormalizeResources ["*"] [] starCatalog ≠ (Some ["*"], []).
Proof. split; [|split]; by vm_compute. Qed.

(** ** Facts about the runner *)

Section RunnerFacts.

Context `{MR : MapRange} `{CO : Collaborators}.

Implicit Types (providerPlugin : plugin.Plugin) (info : ProviderInfo).
Implicit Types (summary : ProviderFetchSummary.t) (diags : diag.Diagnostics).
Implicit Types (msgs : list cqproto.FetchResourcesResponse) (err : error).

(** A stream closed by an error is consumed like the same stream closed by
    the end-of-stream marker, up to the closing step. *)
Lemma recvLoop_closing providerPlugin info (callback : bool) msgs err summary diags
    (calls : list FetchUpdate.t) :
  recvLoop providerPlugin info callback msgs (Some err) summary diags calls
  = let '(s0, d0, c0) := recvLoop providerPlugin info callback msgs None summary diags calls in
    (ProviderFetchSummary.withStatus s0 (closingStatus err),
     diag.Add d0 (closingDiag err),
     c0 ++ (if callback then [closingUpdate providerPlugin info err d0] else [])).
Proof.
  revert summary diags calls.
  induction msgs as [|resp msgs IH]; intros summary diags calls.
  - simpl. unfold closingStatus, closingDiag, closingUpdate.
    destruct callback, (IsCancelation err); by rewrite ?app_nil_r.
  - simpl. destruct (FilterTelemetryEvents _) as [events rdiags]. apply IH.
Qed.

Lemma recvLoop_identity providerPlugin info (callback : bool) msgs (closing : option error)
    summary diags (calls : list FetchUpdate.t) :
  let s := (recvLoop providerPlugin info callback msgs closing summary diags calls).1.1 in
  ProviderFetchSummary.Name s = ProviderFetchSummary.Name summary
  ∧ ProviderFetchSummary.Alias s = ProviderFetchSummary.Alias summary
  ∧ ProviderFetchSummary.Status s
    = match closing with
      | None => ProviderFetchSummary.Status summary
      | Some err => closingStatus err
      end.
Proof.
  revert summary diags calls.
  induction msgs as [|resp msgs IH]; intros summary diags calls.
  - simpl. destruct closing as [err|]; [|done].
    unfold closingStatus. by destruct (IsCancelation err).
  - simpl. destruct (FilterTelemetryEvents _) as [events rdiags].
    match goal with
    | |- context [recvLoop _ _ _ _ _ ?s ?d ?c] => specialize (IH s d c)
    end.
    simpl in IH. exact IH.
Qed.

Lemma closingStatus_assigned err : closingStatus err ∈ assignedStatuses.
Proof.
  unfold closingStatus, assignedStatuses.
  destruct (IsCancelation err); set_solver.
Qed.

Lemma executeFetch_identity providerPlugin info (metadata : uuid.UUID) (callback : bool) :
  let s := (executeFetch providerPlugin info metadata callback).1.1 in
  ProviderFetchSummary.Name s = registry.Name (Provider info)
  ∧ ProviderFetchSummary.Alias s = config.Alias (Config info)
  ∧ ProviderFetchSummary.Status s ∈ [FetchFailed; FetchCanceled; FetchFinished].
Proof.
  unfold executeFetch.
  destruct (normalizeResources _ _ _) as [resources ndiags].
  destruct (diag.HasErrors ndiags); [simpl; set_solver|].
  destruct (plugin.FetchResources _ _) as [err|stream]; [simpl; set_solver|].
  destruct (recvLoop_identity providerPlugin info callback (cqproto.messages stream)
              (cqproto.closing stream)
              (ProviderFetchSummary.mk (registry.Name (Provider info))
                 (config.Alias (Config info)) (plugin.Version providerPlugin) 0 ∅
                 FetchFinished)
              ndiags []) as (Hn & Ha & Hs).
  split; [exact Hn|]. split; [exact Ha|].
  simpl in Hs |- *. rewrite Hs.
  destruct (cqproto.closing stream) as [err|]; [|set_solver].
  unfold closingStatus. destruct (IsCancelation err); set_solver.
Qed.

Lemma runProviderFetch_identity (pm : plugin.Manager) info (dsnURI : string)
    (metadata : uuid.UUID) (opts : FetchOptions) (s : ProviderFetchSummary.t) :
  (runProviderFetch pm info dsnURI metadata opts).1.1 = Some s →
  ProviderFetchSummary.String s = displayKey info
  ∧ ProviderFetchSummary.Status s ∈ assignedStatuses.
Proof.
  unfold runProviderFetch, ProviderFetchSummary.String, displayKey, assignedStatuses.
  destruct (plugin.CreatePlugin _ _) as [err|providerPlugin]; [done|].
  destruct (plugin.ConfigureProvider _ _) as [err|resp].
  - destruct (IsCancelation err); simpl; intros [= <-]; simpl; set_solver.
  - destruct (diag.HasErrors _).
    + simpl; intros [= <-]; simpl; set_solver.
    + pose proof (executeFetch_identity providerPlugin info metadata (UpdateCallback opts))
        as (Hn & Ha & Hs).
      destruct (executeFetch _ _ _ _) as [[s' fd] calls]. simpl in *.
      intros [= <-]. rewrite Hn, Ha. set_solver.
Qed.

End RunnerFacts.

(** ** Properties of the runner *)

Section RunnerProperties.

Context `{MR : MapRange} `{CO : Collaborators}.

Implicit Types (providerPlugin : plugin.Plugin) (info : ProviderInfo).
Implicit Types (pm : plugin.Manager) (opts : FetchOptions) (err : error).

(** C7. When the configure RPC returns an error, the runner returns a
    summary without resources whose status is [Canceled], with the
    cancellation diagnostic, if the cancellation predicate recognizes the
    error, and [ConfigureFailed], with an [INTERNAL] diagnostic wrapping the
    error, if not. When the stream is closed by an error, [executeFetch]
    returns what it would return had the stream ended with the end-of-stream
    marker at that point — the summary accumulated so far — except that the
    status is [Canceled] or [Failed], the cancellation diagnostic or an
    [INTERNAL] diagnostic wrapping the error is appended, and the callback,
    if there is one, is called one last time with the text of the error.
    In both phases the status is [Canceled] exactly when the predicate holds. *)
Theorem C7_rpc_error_status pm info (dsnURI : string) (metadata : uuid.UUID) opts
    providerPlugin err (callback : bool) :
  (plugin.CreatePlugin pm (creationOptions info) = inr providerPlugin →
   plugin.ConfigureProvider providerPlugin (configureRequest info dsnURI) = inl err →
   ∃ s, runProviderFetch pm info dsnURI metadata opts
        = (Some s,
           if IsCancelation err then CancelationDiag err
           else diag.FromError (Some err) diag.INTERNAL [],
           [])
        ∧ ProviderFetchSummary.FetchedResources s = ∅
        ∧ ProviderFetchSummary.Status s
          = (if IsCancelation err then FetchCanceled else FetchConfigureFailed)
        ∧ (ProviderFetchSummary.Status s = FetchCanceled ↔ IsCancelation err = true))
  ∧ (∀ resources ndiags stream,
       normalizeResources providerPlugin (config.Resources (Config info))
         (config.SkipResources (Config info)) = (resources, ndiags) →
       diag.HasErrors ndiags = false →
       plugin.FetchResources providerPlugin (fetchRequest info resources metadata)
       = inr stream →
       cqproto.closing stream = Some err →
       ∃ s0 d0 c0,
         recvLoop providerPlugin info callback (cqproto.messages stream) None
           (initialSummary providerPlugin info) ndiags [] = (s0, d0, c0)
         ∧ executeFetch providerPlugin info metadata callback
           = (ProviderFetchSummary.withStatus s0
                (if IsCancelation err then FetchCanceled else FetchFailed),
              diag.Add d0
                (if IsCancelation err then CancelationDiag err
                 else diag.FromError (Some err) diag.INTERNAL []),
              c0 ++ (if callback then [closingUpdate providerPlugin info err d0] else []))
         ∧ FetchUpdate.Error (closingUpdate providerPlugin info err d0) = err
         ∧ (ProviderFetchSummary.Status (executeFetch providerPlugin info metadata callback).1.1
            = FetchCanceled ↔ IsCancelation err = true)).
Proof.
  split.
  - intros Hcreate Hconf. unfold runProviderFetch.
    change (plugin.mkCreationOptions _ _ _) with (creationOptions info).
    rewrite Hcreate.
    change (cqproto.mkConfigureProviderRequest _ _ _) with (configureRequest info dsnURI).
    rewrite Hconf.
    destruct (IsCancelation err); eexists; (split; [reflexivity|]); simpl;
      repeat split; done.
  - intros resources ndiags stream Hnorm Herr Hfetch Hclose.
    destruct (recvLoop providerPlugin info callback (cqproto.messages stream) None
                (initialSummary providerPlugin info) ndiags []) as [[s0 d0] c0] eqn:Hloop.
    exists s0, d0, c0. split; [done|].
    assert (Hexec : executeFetch providerPlugin info metadata callback
      = (ProviderFetchSummary.withStatus s0 (closingStatus err),
         diag.Add d0 (closingDiag err),
         c0 ++ (if callback then [closingUpdate providerPlugin info err d0] else []))).
    { unfold executeFetch. rewrite Hnorm, Herr.
      change (cqproto.mkFetchResourcesRequest _ _ _ _ _)
        with (fetchRequest info resources metadata).
      rewrite Hfetch, Hclose, recvLoop_closing.
      change (ProviderFetchSummary.mk _ _ _ 0 ∅ FetchFinished)
        with (initialSummary providerPlugin info).
      by rewrite Hloop. }
    split; [exact Hexec|]. split; [done|].
    rewrite Hexec. simpl. unfold closingStatus.
    destruct (IsCancelation err); split; done.
Qed.

(** C9. No path assigns [Partial]: the status of a summary returned by
    [executeFetch] or by [runProviderFetch] is one of [Failed],
    [ConfigureFailed], [Canceled], [Finished]; and a stream that ends with
    the end-of-stream marker yields [Finished], whatever the messages
    carried. *)
Theorem C9_partial_never_assigned pm info (dsnURI : string) (metadata : uuid.UUID) opts
    providerPlugin (callback : bool) :
  ProviderFetchSummary.Status (executeFetch providerPlugin info metadata callback).1.1
    ∈ assignedStatuses
  ∧ ProviderFetchSummary.Status (executeFetch providerPlugin info metadata callback).1.1
    ≠ FetchPartial
  ∧ match (runProviderFetch pm info dsnURI metadata opts).1.1 with
    | Some s => ProviderFetchSummary.Status s ∈ assignedStatuses
                ∧ ProviderFetchSummary.Status s ≠ FetchPartial
    | None => True
    end
  ∧ (∀ resources ndiags stream,
       normalizeResources providerPlugin (config.Resources (Config info))
         (config.SkipResources (Config info)) = (resources, ndiags) →
       diag.HasErrors ndiags = false →
       plugin.FetchResources providerPlugin (fetchRequest info resources metadata)
       = inr stream →
       cqproto.closing stream = None →
       ProviderFetchSummary.Status (executeFetch providerPlugin info metadata callback).1.1
       = FetchFinished).
Proof.
  assert (Hnot : ∀ st, st ∈ assignedStatuses → st ≠ FetchPartial).
  { intros st Hst ->. unfold assignedStatuses in Hst. set_solver. }
  assert (Hexec : ProviderFetchSummary.Status
                    (executeFetch providerPlugin info metadata callback).1.1
                  ∈ assignedStatuses).
  { destruct (executeFetch_identity providerPlugin info metadata callback) as (_ & _ & Hs).
    unfold assignedStatuses. set_solver. }
  split; [exact Hexec|]. split; [by apply Hnot|]. split.
  - destruct (runProviderFetch pm info dsnURI metadata opts).1.1 as [s|] eqn:Hrun; [|done].
    apply runProviderFetch_identity in Hrun as [_ Hs]. split; [done | by apply Hnot].
  - intros resources ndiags stream Hnorm Herr Hfetch Hclose.
    unfold executeFetch. rewrite Hnorm, Herr.
    change (cqproto.mkFetchResourcesRequest _ _ _ _ _)
      with (fetchRequest info resources metadata).
    rewrite Hfetch, Hclose.
    change (ProviderFetchSummary.mk _ _ _ 0 ∅ FetchFinished)
      with (initialSummary providerPlugin info).
    by destruct (recvLoop_identity providerPlugin info callback (cqproto.messages stream)
                   None (initialSummary providerPlugin info) ndiags []) as (_ & _ & ->).
Qed.

End RunnerProperties.

(** Witness of C7: a provider that cannot be configured, and a stream
    canceled after its first message. *)
Lemma C7_rpc_error_status_witness :
  (∃ s, runProviderFetch sampleManager (sampleProvider "offline" "" ["ec2"])
          "postgres://localhost/cq" 7%N (sampleOptions [])
        = (Some s, diag.FromError (Some "connection refused") diag.INTERNAL [], [])
        ∧ ProviderFetchSummary.Status s = FetchConfigureFailed)
  ∧ ProviderFetchSummary.Status
      (executeFetch (streamingPlugin (Some "context canceled"))
         (sampleProvider "slow" "" ["ec2"]) 7%N true).1.1 = FetchCanceled.
Proof.
  pose proof (C7_rpc_error_status sampleManager (sampleProvider "offline" "" ["ec2"])
                "postgres://localhost/cq" 7%N (sampleOptions [])
                (unconfigurablePlugin "connection refused") "connection refused" true)
    as [Hconf _].
  pose proof (C7_rpc_error_status sampleManager (sampleProvider "slow" "" ["ec2"])
                "postgres://localhost/cq" 7%N (sampleOptions [])
                (streamingPlugin (Some "context canceled")) "context canceled" true)
    as [_ Hstream].
  split.
  - destruct Hconf as (s & Hrun & _ & Hstatus & _); [reflexivity | reflexivity |].
    exists s. split; [exact Hrun | exact Hstatus].
  - destruct (Hstream (Some ["ec2"]) []
                (cqproto.mkFetchResourcesStream [ec2Message] (Some "context canceled")))
      as (s0 & d0 & c0 & _ & _ & _ & Hiff).
    + by vm_compute.
    + reflexivity.
    + reflexivity.
    + reflexivity.
    + apply Hiff. reflexivity.
Defined.

(** Witness of C9: a stream whose only message carries a resource error and
    an error diagnostic, and which ends with the end-of-stream marker. *)
Lemma C9_partial_never_assigned_witness :
  cqproto.Error ec2Message ≠ ""
  ∧ diag.HasErrors (cqproto.Diagnostics (cqproto.Summary ec2Message)) = true
  ∧ ProviderFetchSummary.Status
      (executeFetch (streamingPlugin None) (sampleProvider "aws" "" ["ec2"]) 7%N true).1.1
    = FetchFinished.
Proof.
  split; [done|]. split; [reflexivity|].
  destruct (C9_partial_never_assigned sampleManager (sampleProvider "aws" "" ["ec2"])
              "postgres://localhost/cq" 7%N (sampleOptions []) (streamingPlugin None) true)
    as (_ & _ & _ & Heof).
  apply (Heof (Some ["ec2"]) [] (cqproto.mkFetchResourcesStream [ec2Message] None)).
  - by vm_compute.
  - reflexivity.
  - reflexivity.
  - reflexivity.
Defined.

(** ** Facts about the orchestrator *)

Section OrchestratorFacts.

Context `{MR : MapRange} `{CO : Collaborators} `{SC : Schedule}.

Implicit Types (info : ProviderInfo) (pm : plugin.Manager) (opts : FetchOptions).
Implicit Types (results : list fetchResult.t) (ss : list ProviderFetchSummary.t).

Lemma join_Returned {A : Type} (ws : list (outcome A)) (l : list A) :
  join ws = Returned l → ws = Returned <$> l.
Proof.
  revert l. induction ws as [|w ws IH]; intros l Hj.
  - simpl in Hj. by injection Hj as <-.
  - destruct w as [a|]; [|done]. simpl in Hj.
    destruct (join ws) as [l'|]; [|done]. injection Hj as <-.
    simpl. f_equal. by apply IH.
Qed.

Lemma launch_started (infos : list ProviderInfo) (diags : diag.Diagnostics) :
  (launch infos diags).2
  = List.filter (λ i, negb (bool_decide (length (config.Resources (Config i)) = 0%nat))) infos.
Proof.
  revert diags. induction infos as [|i infos IH]; intros diags; [done|].
  simpl. case_bool_decide; simpl; [apply IH|].
  specialize (IH diags). destruct (launch infos diags) as [d started].
  simpl in *. by rewrite IH.
Qed.

Lemma launch_diags_prefix (infos : list ProviderInfo) (diags : diag.Diagnostics) :
  ∃ warnings, (launch infos diags).1 = diags ++ warnings
              ∧ diag.HasErrors warnings = false.
Proof.
  revert diags. induction infos as [|i infos IH]; intros diags.
  - exists []. simpl. by rewrite app_nil_r.
  - cbn [launch]. case_bool_decide.
    + change (diag.FromError None _ _) with (@nil diag.Diagnostic).
      unfold diag.Add. rewrite app_nil_r. apply IH.
    + destruct (IH diags) as (w & Hw & Hne).
      destruct (launch infos diags) as [d started]. simpl in *. by exists w.
Qed.

(** The summaries read by the drain loop, the map and the total it builds
    and the diagnostics it collects. *)
Lemma drain_Returned results (response response' : FetchResponse.t)
    (diags diags' : diag.Diagnostics) :
  drain results response diags = Returned (response', diags') →
  ∃ ss, fetchResult.summary <$> results = Some <$> ss
    ∧ FetchResponse.ProviderFetchSummary response'
      = foldl (λ m s, <[ProviderFetchSummary.String s := s]> m)
          (FetchResponse.ProviderFetchSummary response) ss
    ∧ FetchResponse.TotalFetched response'
      = foldl (λ t s, add64 t (ProviderFetchSummary.TotalResourcesFetched s))
          (FetchResponse.TotalFetched response) ss
    ∧ diags' = diags ++ concat (fetchResult.diags <$> results).
Proof.
  revert response diags.
  induction results as [|ps results IH]; intros response diags Hd.
  - simpl in Hd. injection Hd as <- <-. exists []. simpl. by rewrite app_nil_r.
  - simpl in Hd. destruct (fetchResult.summary ps) as [s|] eqn:Hs; [|done].
    apply IH in Hd as (ss & Hss & Hmap & Htot & Hdiags).
    exists (s :: ss). rewrite !fmap_cons, Hs, Hss. split; [done|].
    split; [exact Hmap|]. split; [exact Htot|].
    rewrite Hdiags. unfold diag.Add. simpl concat.
    destruct (fetchResult.diags ps); simpl; [done|].
    by rewrite <- app_assoc.
Qed.

Lemma add64_range (a b : Z) : 0 ≤ add64 a b < uint64_modulus.
Proof. unfold add64, uint64_modulus. apply Z.mod_pos_bound. lia. Qed.

Lemma fold_add64 (t : Z) (l : list Z) :
  0 ≤ t < uint64_modulus →
  foldl add64 t l = (t + foldr Z.add 0 l) mod uint64_modulus.
Proof.
  revert t. induction l as [|x l IH]; intros t Ht; simpl.
  - rewrite Z.add_0_r, Z.mod_small; lia.
  - rewrite IH by apply add64_range. unfold add64.
    rewrite Zplus_mod_idemp_l. f_equal. lia.
Qed.

Lemma foldl_insert_lookup (m : gmap string ProviderFetchSummary.t) ss (k : string)
    (s : ProviderFetchSummary.t) :
  foldl (λ m s, <[ProviderFetchSummary.String s := s]> m) m ss !! k = Some s →
  m !! k = Some s ∨ s ∈ ss.
Proof.
  revert m. induction ss as [|x ss IH]; intros m Hl; [by left|].
  simpl in Hl. apply IH in Hl as [Hl|Hl]; [|right; by right].
  destruct (decide (ProviderFetchSummary.String x = k)) as [<-|Hne].
  - rewrite lookup_insert_eq in Hl. injection Hl as <-. right. by left.
  - rewrite lookup_insert_ne in Hl by done. by left.
Qed.

Lemma foldl_insert_to_list (m : gmap string ProviderFetchSummary.t) ss :
  NoDup (ProviderFetchSummary.String <$> ss) →
  (∀ s, s ∈ ss → m !! ProviderFetchSummary.String s = None) →
  map_to_list (foldl (λ m s, <[ProviderFetchSummary.String s := s]> m) m ss)
  ≡ₚ ((λ s, (ProviderFetchSummary.String s, s)) <$> ss) ++ map_to_list m.
Proof.
  revert m. induction ss as [|x ss IH]; intros m Hnd Hfresh; [done|].
  simpl in Hnd. apply NoDup_cons in Hnd as [Hx Hnd]. simpl.
  rewrite IH; [|done|].
  - rewrite map_to_list_insert by (apply Hfresh; by left).
    by rewrite Permutation_middle.
  - intros s Hs. rewrite lookup_insert_ne; [apply Hfresh; by right|].
    intros Heq. apply Hx. rewrite Heq. by apply list_elem_of_fmap_2.
Qed.

End OrchestratorFacts.

Section OrchestratorRuns.

Context `{MR : MapRange} `{CO : Collaborators} `{SC : Schedule}.

Implicit Types (info : ProviderInfo) (pm : plugin.Manager) (opts : FetchOptions).
Implicit Types (ctx : context.Context) (sta : state.Client) (storage : database.Storage).
Implicit Types (ss : list ProviderFetchSummary.t).

Lemma sum_Permutation (l1 l2 : list Z) :
  l1 ≡ₚ l2 → foldr Z.add 0 l1 = foldr Z.add 0 l2.
Proof.
  induction 1 as [|x l l' _ IH|x y l|l l' l'' _ IH1 _ IH2]; simpl; lia.
Qed.

(** What a worker that returns has put on the channel and saved. *)
Lemma fetchWorker_Returned ctx sta pm opts (fetchId : uuid.UUID) (dsnURI : string) info
    (r : fetchResult.t) (records : list state.FetchSummary) :
  fetchWorker ctx sta pm opts fetchId dsnURI info = Returned (r, records) →
  fetchResult.summary r = (runProviderFetch pm info dsnURI fetchId opts).1.1
  ∧ (∃ extra, fetchResult.diags r
              = (runProviderFetch pm info dsnURI fetchId opts).1.2 ++ extra)
  ∧ (if context.hasDeadline ctx then records = []
     else ∃ s record, fetchResult.summary r = Some s
                      ∧ createFetchSummary fetchId (Some s) = Returned record
                      ∧ records = [record]).
Proof.
  unfold fetchWorker.
  destruct (runProviderFetch pm info dsnURI fetchId opts) as [[s d] calls]. simpl.
  destruct (context.hasDeadline ctx).
  - intros [= <- <-]. simpl. split; [done|]. split; [|done].
    exists []. by rewrite app_nil_r.
  - destruct s as [s|]; [|done]. simpl.
    intros [= <- <-]. simpl. split; [done|]. split.
    + destruct (state.SaveFetchSummary sta _); [by eexists|].
      exists []. by rewrite app_nil_r.
    + by eexists _, _.
Qed.

(** The anatomy of a run of [Fetch] that returns a response. *)
Lemma Fetch_Returned ctx sta storage pm opts (resp : FetchResponse.t)
    (ds : diag.Diagnostics) (saved : list state.FetchSummary) :
  Fetch ctx sta storage pm opts = Returned (Some resp, ds, saved) →
  ∃ (fetchId : uuid.UUID) (dsnURI : string)
    (delivered : list (fetchResult.t * list state.FetchSummary)) ss
    (warnings : diag.Diagnostics),
    parseDSN storage = inr dsnURI
    ∧ fetchWorker ctx sta pm opts fetchId dsnURI <$> attempted opts = Returned <$> delivered
    ∧ fetchResult.summary <$> arrival (delivered.*1) = Some <$> ss
    ∧ FetchResponse.ProviderFetchSummary resp
      = foldl (λ m s, <[ProviderFetchSummary.String s := s]> m) ∅ ss
    ∧ FetchResponse.TotalFetched resp
      = foldl (λ t s, add64 t (ProviderFetchSummary.TotalResourcesFetched s)) 0 ss
    ∧ diag.HasErrors warnings = false
    ∧ ds = (FilterTelemetryEvents
              (warnings ++ concat (fetchResult.diags <$> arrival (delivered.*1)))).2
    ∧ saved = concat (delivered.*2).
Proof.
  unfold Fetch, attempted.
  destruct (if bool_decide (FetchId opts = uuid.Nil) then NewUUID else inr (FetchId opts))
    as [err|fetchId]; [done|].
  destruct (parseDSN storage) as [err|dsnURI]; [done|].
  destruct (launch_diags_prefix (ProvidersInfo opts) []) as (warnings & Hw & Hwe).
  destruct (launch (ProvidersInfo opts) []) as [diags started]. simpl in *. subst diags.
  destruct (join _) as [delivered|] eqn:Hjoin; [|done].
  apply join_Returned in Hjoin.
  destruct (drain _ _ _) as [[response diags']|] eqn:Hdrain; [|done].
  apply drain_Returned in Hdrain as (ss & Hss & Hmap & Htot & Hdiags).
  destruct (FilterTelemetryEvents diags') as [events filtered] eqn:Hfilter.
  intros [= <- <- <-]. simpl in *.
  exists fetchId, dsnURI, delivered, ss, warnings.
  repeat split; try done.
  by rewrite <- Hdiags, Hfilter.
Qed.

(** In a run that returns, the summaries on the channel are those of the
    attempted providers, each filed under the display key of its provider. *)
Lemma delivered_keys ctx sta pm opts (fetchId : uuid.UUID) (dsnURI : string)
    (started : list ProviderInfo)
    (delivered : list (fetchResult.t * list state.FetchSummary)) :
  fetchWorker ctx sta pm opts fetchId dsnURI <$> started = Returned <$> delivered →
  Forall (λ r, is_Some (fetchResult.summary r)) (delivered.*1) →
  Forall2 (λ info r, ∃ s, fetchResult.summary r = Some s
                          ∧ (runProviderFetch pm info dsnURI fetchId opts).1.1 = Some s
                          ∧ ProviderFetchSummary.String s = displayKey info)
    started (delivered.*1).
Proof.
  revert delivered. induction started as [|info started IH]; intros delivered Hw Hall.
  - destruct delivered; [constructor | done].
  - destruct delivered as [|[r records] delivered]; [done|].
    rewrite !fmap_cons in Hw. injection Hw as Hhead Htail.
    rewrite fmap_cons in Hall. apply Forall_cons in Hall as [[s Hs] Hall].
    rewrite fmap_cons. constructor; [|by apply IH].
    apply fetchWorker_Returned in Hhead as (Hsum & _ & _). simpl in *.
    exists s. split; [done|]. rewrite <- Hsum. split; [done|].
    eapply runProviderFetch_identity. by rewrite <- Hsum.
Qed.

Lemma summaries_all_Some (l : list fetchResult.t) ss :
  fetchResult.summary <$> arrival l = Some <$> ss →
  Forall (λ r, is_Some (fetchResult.summary r)) l.
Proof.
  intros Hss. rewrite <- (arrival_perm l).
  assert (Hall : Forall is_Some (fetchResult.summary <$> arrival l)).
  { rewrite Hss. apply Forall_fmap, Forall_forall. intros s _. by eexists. }
  rewrite Forall_fmap in Hall. exact Hall.
Qed.

End OrchestratorRuns.

(** ** Properties of the orchestrator *)

Section OrchestratorProperties.

Context `{MR : MapRange} `{CO : Collaborators} `{SC : Schedule}.

Implicit Types (info : ProviderInfo) (pm : plugin.Manager) (opts : FetchOptions).
Implicit Types (ctx : context.Context) (sta : state.Client) (storage : database.Storage).
Implicit Types (ss : list ProviderFetchSummary.t).

(** In a run that returns a response, the summaries read from the channel
    carry, up to their order, the display keys of the attempted providers. *)
Lemma delivered_display_keys ctx sta pm opts (fetchId : uuid.UUID) (dsnURI : string)
    (delivered : list (fetchResult.t * list state.FetchSummary)) ss :
  fetchWorker ctx sta pm opts fetchId dsnURI <$> attempted opts = Returned <$> delivered →
  fetchResult.summary <$> arrival (delivered.*1) = Some <$> ss →
  ProviderFetchSummary.String <$> ss ≡ₚ displayKey <$> attempted opts.
Proof.
  intros Hworkers Hss.
  set (key := λ r : fetchResult.t,
         from_option ProviderFetchSummary.String "" (fetchResult.summary r)).
  assert (Hkeys : displayKey <$> attempted opts = key <$> delivered.*1).
  { apply list_eq_Forall2, Forall2_fmap.
    eapply Forall2_impl;
      [apply (delivered_keys _ _ _ _ _ _ _ _ Hworkers), (summaries_all_Some _ _ Hss)|].
    intros info r (s & Hs & _ & Hkey). unfold key. by rewrite Hs. }
  assert (Hread : ProviderFetchSummary.String <$> ss = key <$> arrival (delivered.*1)).
  { unfold key.
    rewrite (list_fmap_compose fetchResult.summary
               (from_option ProviderFetchSummary.String "")).
    rewrite Hss, <- list_fmap_compose. done. }
  by rewrite Hkeys, Hread, arrival_perm.
Qed.

(** C2 (amended). When the display strings of the attempted providers are
    pairwise distinct, the [TotalFetched] of the response returned by
    [Fetch] is the sum of [TotalResourcesFetched] over the summaries of the
    response map, the sum being taken as [uint64] additions are, modulo
    [2^64]. *)
Theorem C2_total_is_sum_of_summaries ctx sta storage pm opts (resp : FetchResponse.t)
    (ds : diag.Diagnostics) (saved : list state.FetchSummary) :
  Fetch ctx sta storage pm opts = Returned (Some resp, ds, saved) →
  NoDup (displayKey <$> attempted opts) →
  FetchResponse.TotalFetched resp
  = sumTotals (FetchResponse.ProviderFetchSummary resp) mod uint64_modulus.
Proof.
  intros Hrun Hdistinct.
  apply Fetch_Returned in Hrun
    as (fetchId & dsnURI & delivered & ss & warnings & _ & Hworkers & Hss & Hmap & Htot & _).
  pose proof (delivered_display_keys _ _ _ _ _ _ _ _ Hworkers Hss) as Hkeys.
  rewrite <- Hkeys in Hdistinct.
  pose proof (foldl_insert_to_list ∅ ss Hdistinct (λ s _, lookup_empty _)) as Hlist.
  rewrite map_to_list_empty, app_nil_r in Hlist.
  unfold sumTotals. rewrite Hmap.
  rewrite (sum_Permutation _ (ProviderFetchSummary.TotalResourcesFetched <$> ss)).
  - rewrite Htot.
    transitivity (foldl add64 0 (ProviderFetchSummary.TotalResourcesFetched <$> ss)).
    + clear. generalize 0. induction ss as [|s ss IH]; intros t; [done|]. simpl. apply IH.
    + rewrite fold_add64 by (unfold uint64_modulus; lia). by rewrite Z.add_0_l.
  - rewrite Hlist, <- list_fmap_compose. done.
Qed.

End OrchestratorProperties.

(** Witness of C2: two providers under distinct display keys, [aws] and
    [aws(eu)], each fetching one resource. *)
Lemma C2_total_is_sum_of_summaries_witness :
  ∃ resp ds saved,
    Fetch background sampleState sampleStorage sampleManager
      (sampleOptions [sampleProvider "aws" "" ["ec2"]; sampleProvider "aws" "eu" ["s3"]])
    = Returned (Some resp, ds, saved)
    ∧ NoDup (displayKey <$> attempted
               (sampleOptions [sampleProvider "aws" "" ["ec2"];
                               sampleProvider "aws" "eu" ["s3"]]))
    ∧ FetchResponse.TotalFetched resp = 2
    ∧ FetchResponse.TotalFetched resp
      = sumTotals (FetchResponse.ProviderFetchSummary resp) mod uint64_modulus.
Proof.
  destruct (Fetch background sampleState sampleStorage sampleManager
      (sampleOptions [sampleProvider "aws" "" ["ec2"]; sampleProvider "aws" "eu" ["s3"]]))
    as [[[[resp|] ds] saved]|] eqn:Hrun; try (by vm_compute in Hrun).
  assert (Hnd : NoDup (displayKey <$> attempted
               (sampleOptions [sampleProvider "aws" "" ["ec2"];
                               sampleProvider "aws" "eu" ["s3"]]))).
  { replace (displayKey <$> attempted _) with ["aws"; "aws(eu)"] by (by vm_compute).
    apply NoDup_cons. split; [|apply NoDup_singleton].
    by rewrite list_elem_of_singleton. }
  exists resp, ds, saved. split; [reflexivity|]. split; [exact Hnd|]. split.
  - vm_compute in Hrun. by injection Hrun as <- _ _.
  - exact (C2_total_is_sum_of_summaries _ _ _ _ _ _ _ _ Hrun Hnd).
Defined.

(** C2 as stated fails when two attempted providers share a display string:
    the second summary replaces the first in the map, while both counts are
    added to [TotalFetched]. *)
Lemma C2_counterexample_shared_display_key :
  match Fetch background sampleState sampleStorage sampleManager
          (sampleOptions [sampleProvider "aws" "" ["ec2"]; sampleProvider "aws" "" ["s3"]])
  with
  | Returned (Some resp, _, _) =>
      FetchResponse.TotalFetched resp = 2
      ∧ sumTotals (FetchResponse.ProviderFetchSummary resp) = 1
      ∧ FetchResponse.TotalFetched resp
        ≠ sumTotals (FetchResponse.ProviderFetchSummary resp) mod uint64_modulus
  | _ => False
  end.
Proof. by vm_compute. Qed.

Section SummaryDiagnostics.

Context `{MR : MapRange} `{CO : Collaborators} `{SC : Schedule}.

Implicit Types (info : ProviderInfo) (pm : plugin.Manager) (opts : FetchOptions).
Implicit Types (ctx : context.Context) (sta : state.Client) (storage : database.Storage).
Implicit Types (p : ProviderFetchSummary.t).

Lemma elem_of_summary_Diagnostics p (d : diag.Diagnostic) :
  d ∈ ProviderFetchSummary.Diagnostics p
  ↔ ∃ (name : string) (r : ResourceFetchSummary.t),
      ProviderFetchSummary.FetchedResources p !! name = Some r
      ∧ d ∈ ResourceFetchSummary.Diagnostics r.
Proof.
  unfold ProviderFetchSummary.Diagnostics. rewrite elem_of_concat. split.
  - intros (l & Hd & Hl). apply list_elem_of_fmap in Hl as ([name r] & -> & Hin).
    apply elem_of_map_to_list in Hin. by exists name, r.
  - intros (name & r & Hlk & Hd). exists (ResourceFetchSummary.Diagnostics r).
    split; [done|]. apply list_elem_of_fmap. exists (name, r). split; [done|].
    by apply elem_of_map_to_list.
Qed.

Lemma summary_Diagnostics_empty p :
  ProviderFetchSummary.FetchedResources p = ∅ → ProviderFetchSummary.Diagnostics p = [].
Proof.
  intros He. unfold ProviderFetchSummary.Diagnostics.
  by rewrite He, map_to_list_empty.
Qed.

(** What the runner returns for a provider that fails early. *)
Lemma runProviderFetch_earlyFailure pm (dsnURI : string) info (metadata : uuid.UUID) opts :
  earlyFailure pm dsnURI info →
  ∃ s d, runProviderFetch pm info dsnURI metadata opts = (Some s, d, [])
    ∧ ProviderFetchSummary.FetchedResources s = ∅
    ∧ ProviderFetchSummary.Status s ∈ [FetchConfigureFailed; FetchFailed]
    ∧ ((∀ fd name version, diag.HasErrors fd = true →
                           diag.HasErrors (convertToFetchDiags fd name version) = true) →
       diag.HasErrors d = true).
Proof.
  intros [providerPlugin err Hcreate Hconf Hcancel
         |providerPlugin resp Hcreate Hconf Herr
         |providerPlugin resp Hcreate Hconf Hok Hnorm];
    unfold runProviderFetch;
    change (plugin.mkCreationOptions _ _ _) with (creationOptions info);
    rewrite Hcreate;
    change (cqproto.mkConfigureProviderRequest _ _ _) with (configureRequest info dsnURI);
    rewrite Hconf.
  - rewrite Hcancel. eexists _, _. split; [reflexivity|]. simpl.
    split; [done|]. split; [set_solver | done].
  - unfold diag.Add. simpl app. rewrite Herr.
    eexists _, _. split; [reflexivity|]. simpl.
    split; [done|]. split; [set_solver | done].
  - unfold diag.Add. simpl app. rewrite Hok. unfold executeFetch.
    destruct (normalizeResources _ _ _) as [resources ndiags]. simpl in Hnorm.
    rewrite Hnorm. eexists _, _. split; [reflexivity|]. simpl.
    split; [done|]. split; [set_solver|].
    intros Hkeep. rewrite HasErrors_app, (Hkeep _ _ _ Hnorm). apply orb_true_r.
Qed.

(** C10. [Diagnostics()] of a provider summary holds exactly the
    diagnostics stored in the entries of [FetchedResources]. Hence, when
    every attempted provider fails during configuration or normalization,
    each summary of the response has no resources and no diagnostics,
    [FetchResponse.HasErrors()] is false and every persisted record has
    [IsSuccess] set (one record per attempted provider when the context has
    no deadline) — while the diagnostics returned by [Fetch] do contain
    errors, as soon as one provider was attempted and neither the fetch
    diagnostics converter nor the telemetry filter drops errors. *)
Theorem C10_early_failures_reported_as_success ctx sta storage pm opts (dsnURI : string)
    (resp : FetchResponse.t) (ds : diag.Diagnostics) (saved : list state.FetchSummary) :
  parseDSN storage = inr dsnURI →
  Fetch ctx sta storage pm opts = Returned (Some resp, ds, saved) →
  Forall (earlyFailure pm dsnURI) (attempted opts) →
  (∀ p d, d ∈ ProviderFetchSummary.Diagnostics p
          ↔ ∃ name r, ProviderFetchSummary.FetchedResources p !! name = Some r
                      ∧ d ∈ ResourceFetchSummary.Diagnostics r)
  ∧ (∀ key s, FetchResponse.ProviderFetchSummary resp !! key = Some s →
              ProviderFetchSummary.FetchedResources s = ∅
              ∧ ProviderFetchSummary.Diagnostics s = [])
  ∧ FetchResponse.HasErrors resp = false
  ∧ Forall (λ record, state.IsSuccess record = true) saved
  ∧ (context.hasDeadline ctx = false → length saved = length (attempted opts))
  ∧ (attempted opts ≠ [] →
     (∀ fd name version, diag.HasErrors fd = true →
                         diag.HasErrors (convertToFetchDiags fd name version) = true) →
     (∀ d, diag.HasErrors d = true → diag.HasErrors (FilterTelemetryEvents d).2 = true) →
     diag.HasErrors ds = true).
Proof.
  intros Hdsn Hrun Hearly.
  apply Fetch_Returned in Hrun
    as (fetchId & dsnURI' & delivered & ss & warnings & Hdsn' & Hworkers & Hss & Hmap
        & _ & _ & Hds & Hsaved).
  rewrite Hdsn in Hdsn'. injection Hdsn' as <-.
  pose proof (delivered_keys _ _ _ _ _ _ _ _ Hworkers (summaries_all_Some _ _ Hss)) as Hkeys.
  (* every delivered summary is without resources *)
  assert (Hdelivered : Forall (λ r, ∃ s, fetchResult.summary r = Some s
                             ∧ ProviderFetchSummary.FetchedResources s = ∅) (delivered.*1)).
  { clear -Hkeys Hearly. induction Hkeys as [|info r infos rs (s & Hs & Hr & _) _ IH].
    - constructor.
    - apply Forall_cons in Hearly as [He Hearly]. constructor; [|by apply IH].
      exists s. split; [done|].
      destruct (runProviderFetch_earlyFailure pm dsnURI info fetchId opts He)
        as (s' & d & Hrun & Hempty & _).
      rewrite Hrun in Hr. simpl in Hr. by injection Hr as <-. }
  assert (Hss_empty : ∀ s, s ∈ ss → ProviderFetchSummary.FetchedResources s = ∅).
  { intros s Hs.
    assert (Hin : Some s ∈ fetchResult.summary <$> arrival (delivered.*1)).
    { rewrite Hss. by apply list_elem_of_fmap_2. }
    apply list_elem_of_fmap in Hin as (r & Hr & Hin).
    rewrite arrival_perm in Hin.
    rewrite Forall_forall in Hdelivered.
    destruct (Hdelivered r Hin) as (s' & Hs' & Hempty). congruence. }
  assert (Hentries : ∀ key s, FetchResponse.ProviderFetchSummary resp !! key = Some s →
                              ProviderFetchSummary.FetchedResources s = ∅
                              ∧ ProviderFetchSummary.Diagnostics s = []).
  { intros key s Hlk. rewrite Hmap in Hlk.
    apply foldl_insert_lookup in Hlk as [Hlk|Hin]; [by rewrite lookup_empty in Hlk|].
    split; [by apply Hss_empty | by apply summary_Diagnostics_empty, Hss_empty]. }
  split; [apply elem_of_summary_Diagnostics|]. split; [exact Hentries|]. split; [|split; [|split]].
  - unfold FetchResponse.HasErrors. apply not_true_iff_false. intros Hex.
    apply existsb_exists in Hex as ([key s] & Hin & Herr).
    apply list_elem_of_In, elem_of_map_to_list in Hin.
    destruct (Hentries key s Hin) as [_ Hnil]. simpl in Herr. by rewrite Hnil in Herr.
  - subst saved. apply Forall_forall. intros record Hrec.
    apply elem_of_concat in Hrec as (records & Hrec & Hrecords).
    apply list_elem_of_fmap in Hrecords as ([r records'] & -> & Hin). simpl in Hrec.
    assert (Hw : Returned (r, records') ∈ fetchWorker ctx sta pm opts fetchId dsnURI
                                           <$> attempted opts).
    { rewrite Hworkers. by apply list_elem_of_fmap_2. }
    apply list_elem_of_fmap in Hw as (info & Hw & Hinfo). symmetry in Hw.
    apply fetchWorker_Returned in Hw as (_ & _ & Hrecords).
    destruct (context.hasDeadline ctx).
    + subst records'. by apply elem_of_nil in Hrec.
    + destruct Hrecords as (s & record' & Hs & Hcreate & ->).
      apply list_elem_of_singleton in Hrec as ->.
      assert (Hempty : ProviderFetchSummary.FetchedResources s = ∅).
      { rewrite Forall_forall in Hdelivered.
        destruct (Hdelivered r) as (s' & Hs' & Hempty).
        - apply list_elem_of_fmap. by exists (r, [record']).
        - congruence. }
      simpl in Hcreate. injection Hcreate as <-. simpl.
      by rewrite (summary_Diagnostics_empty _ Hempty).
  - intros Hnodl. subst saved.
    assert (Hlen : length delivered = length (attempted opts)).
    { apply (f_equal length) in Hworkers. by rewrite !length_fmap in Hworkers. }
    rewrite <- Hlen. clear -Hworkers Hnodl.
    revert Hworkers. generalize (attempted opts). intros infos. revert infos.
    induction delivered as [|[r records] delivered IH]; intros infos Hworkers; [done|].
    destruct infos as [|info infos]; [done|].
    rewrite !fmap_cons in Hworkers. injection Hworkers as Hhead Htail.
    apply fetchWorker_Returned in Hhead as (_ & _ & Hrecords).
    rewrite Hnodl in Hrecords. destruct Hrecords as (s & record & _ & _ & ->).
    rewrite fmap_cons. simpl. f_equal. by apply (IH infos).
  - intros Hsome Hconv Hfilter. subst ds. apply Hfilter.
    rewrite HasErrors_app. apply orb_true_iff. right.
    destruct (attempted opts) as [|info infos] eqn:Hatt; [done|].
    destruct delivered as [|[r records] delivered]; [done|].
    rewrite !fmap_cons in Hworkers. injection Hworkers as Hhead _.
    apply fetchWorker_Returned in Hhead as (_ & (extra & Hdiags) & _).
    apply Forall_cons in Hearly as [He _].
    destruct (runProviderFetch_earlyFailure pm dsnURI info fetchId opts He)
      as (s' & d & Hrun & _ & _ & Herrs).
    rewrite Hrun in Hdiags. simpl in Hdiags.
    assert (Hr : diag.HasErrors (fetchResult.diags r) = true).
    { rewrite Hdiags, HasErrors_app, (Herrs Hconv). done. }
    rewrite (HasErrors_Permutation _
               (concat (fetchResult.diags <$> (r :: delivered.*1)))).
    + rewrite fmap_cons. simpl. rewrite HasErrors_app, Hr. done.
    + apply concat_Permutation. by rewrite arrival_perm.
Qed.

End SummaryDiagnostics.

(** Witness of C10: one provider that cannot be configured and one that
    asks for a resource its catalog does not have. *)
Lemma C10_early_failures_reported_as_success_witness :
  ∃ resp ds saved,
    Fetch background sampleState sampleStorage sampleManager
      (sampleOptions [sampleProvider "offline" "" ["ec2"]; sampleProvider "aws" "" ["vpc"]])
    = Returned (Some resp, ds, saved)
    ∧ Forall (earlyFailure sampleManager "postgres://localhost/cq")
        (attempted (sampleOptions [sampleProvider "offline" "" ["ec2"];
                                   sampleProvider "aws" "" ["vpc"]]))
    ∧ FetchResponse.HasErrors resp = false
    ∧ Forall (λ record, state.IsSuccess record = true) saved
    ∧ length saved = 2%nat
    ∧ diag.HasErrors ds = true.
Proof.
  destruct (Fetch background sampleState sampleStorage sampleManager
      (sampleOptions [sampleProvider "offline" "" ["ec2"]; sampleProvider "aws" "" ["vpc"]]))
    as [[[[resp|] ds] saved]|] eqn:Hrun; try (by vm_compute in Hrun).
  assert (Hearly : Forall (earlyFailure sampleManager "postgres://localhost/cq")
        (attempted (sampleOptions [sampleProvider "offline" "" ["ec2"];
                                   sampleProvider "aws" "" ["vpc"]]))).
  { change (attempted _)
      with [sampleProvider "offline" "" ["ec2"]; sampleProvider "aws" "" ["vpc"]].
    apply Forall_cons. split; [|apply Forall_cons; split; [|constructor]].
    - by apply (configureError _ _ _ (unconfigurablePlugin "connection refused")
                  "connection refused").
    - apply (normalizationError _ _ _ (streamingPlugin None)
               (cqproto.mkConfigureProviderResponse [])); reflexivity. }
  assert (Hdsn : parseDSN sampleStorage = inr "postgres://localhost/cq") by reflexivity.
  destruct (C10_early_failures_reported_as_success background sampleState sampleStorage
              sampleManager _ "postgres://localhost/cq" resp ds saved Hdsn Hrun Hearly)
    as (_ & _ & Hquiet & Hsuccess & Hsaved & Hloud).
  exists resp, ds, saved. split; [reflexivity|]. split; [exact Hearly|].
  split; [exact Hquiet|]. split; [exact Hsuccess|]. split.
  - by apply Hsaved.
  - apply Hloud; [done | by intros | by intros].
Defined.

Section FailedInstantiation.

Context `{MR : MapRange} `{CO : Collaborators} `{SC : Schedule}.

Lemma join_Panicked {A : Type} (ws : list (outcome A)) :
  Panicked ∈ ws → join ws = Panicked.
Proof.
  induction ws as [|w ws IH]; intros Hin; [by apply elem_of_nil in Hin|].
  apply elem_of_cons in Hin as [<-|Hin]; [done|].
  destruct w; [|done]. simpl. by rewrite IH.
Qed.

Lemma drain_Panicked (results : list fetchResult.t) (response : FetchResponse.t)
    (diags : diag.Diagnostics) :
  (∃ r, r ∈ results ∧ fetchResult.summary r = None) →
  drain results response diags = Panicked.
Proof.
  revert response diags. induction results as [|ps results IH];
    intros response diags (r & Hin & Hr); [by apply elem_of_nil in Hin|].
  simpl. destruct (fetchResult.summary ps) as [s|] eqn:Hs; [|done].
  apply IH. exists r. split; [|done].
  apply elem_of_cons in Hin as [->|Hin]; [congruence | done].
Qed.

(** When the plugin of an attempted provider cannot be instantiated, the
    runner returns a nil summary, and [Fetch] does not return a response:
    unless it returned before starting the workers (no fetch identifier, no
    DSN), it panics on the nil summary — in [createFetchSummary] when the
    context has no deadline, in the drain loop when it has one. *)
Lemma Fetch_without_response_after_failed_instantiation (ctx : context.Context)
    (sta : state.Client) (storage : database.Storage) (pm : plugin.Manager)
    (opts : FetchOptions) (info : ProviderInfo) (err : error) :
  info ∈ attempted opts →
  plugin.CreatePlugin pm (creationOptions info) = inl err →
  Fetch ctx sta storage pm opts = Panicked
  ∨ ∃ d, Fetch ctx sta storage pm opts = Returned (None, d, []).
Proof.
  intros Hin Hcreate. unfold Fetch.
  destruct (if bool_decide (FetchId opts = uuid.Nil) then NewUUID else inr (FetchId opts))
    as [e|fetchId]; [right; by eexists|].
  destruct (parseDSN storage) as [e|dsnURI]; [right; by eexists|].
  left. unfold attempted in Hin.
  destruct (launch (ProvidersInfo opts) []) as [diags started]. simpl in Hin.
  assert (Hworker : fetchWorker ctx sta pm opts fetchId dsnURI info
                    = if context.hasDeadline ctx
                      then Returned (fetchResult.mk None
                                       (diag.FromError (Some err) diag.INTERNAL []), [])
                      else Panicked).
  { unfold fetchWorker, runProviderFetch.
    change (plugin.mkCreationOptions _ _ _) with (creationOptions info).
    rewrite Hcreate. by destruct (context.hasDeadline ctx). }
  destruct (join _) as [delivered|] eqn:Hjoin; [|done].
  apply join_Returned in Hjoin.
  assert (Hw : fetchWorker ctx sta pm opts fetchId dsnURI info ∈ Returned <$> delivered).
  { rewrite <- Hjoin. by apply list_elem_of_fmap_2. }
  rewrite Hworker in Hw. destruct (context.hasDeadline ctx).
  - apply list_elem_of_fmap in Hw as ([r records] & [= <- <-] & Hd).
    rewrite drain_Panicked; [done|].
    exists (fetchResult.mk None (diag.FromError (Some err) diag.INTERNAL [])).
    split; [|done]. rewrite arrival_perm.
    apply list_elem_of_fmap. by eexists (_, _).
  - apply list_elem_of_fmap in Hw as (x & Hx & _). done.
Qed.

Lemma foldl_insert_lookup_key (m : gmap string ProviderFetchSummary.t)
    (ss : list ProviderFetchSummary.t) (key : string) (s : ProviderFetchSummary.t) :
  foldl (λ m s, <[ProviderFetchSummary.String s := s]> m) m ss !! key = Some s →
  m !! key = Some s ∨ (s ∈ ss ∧ key = ProviderFetchSummary.String s).
Proof.
  revert m. induction ss as [|x ss IH]; intros m Hlk; [by left|].
  simpl in Hlk. apply IH in Hlk as [Hlk|[Hin Hk]]; [|right; split; [by right | done]].
  destruct (decide (ProviderFetchSummary.String x = key)) as [<-|Hne].
  - rewrite lookup_insert_eq in Hlk. injection Hlk as <-. right. split; [by left | done].
  - rewrite lookup_insert_ne in Hlk by done. by left.
Qed.

Lemma foldl_insert_is_Some (m : gmap string ProviderFetchSummary.t)
    (ss : list ProviderFetchSummary.t) (key : string) :
  is_Some (m !! key) ∨ key ∈ ProviderFetchSummary.String <$> ss →
  is_Some (foldl (λ m s, <[ProviderFetchSummary.String s := s]> m) m ss !! key).
Proof.
  revert m. induction ss as [|x ss IH]; intros m Hkey.
  - destruct Hkey as [Hkey|Hkey]; [done | by apply elem_of_nil in Hkey].
  - simpl. apply IH.
    destruct (decide (ProviderFetchSummary.String x = key)) as [<-|Hne].
    + left. rewrite lookup_insert_eq. by eexists.
    + rewrite lookup_insert_ne by done.
      destruct Hkey as [Hkey|Hkey]; [by left|]. right.
      rewrite fmap_cons in Hkey. apply elem_of_cons in Hkey as [Hkey|Hkey]; [congruence | done].
Qed.

(** When [Fetch] does return a response, the response has an entry under
    the display key of every attempted provider and no other entry, and
    every entry carries one of the four assigned statuses. *)
Lemma Fetch_response_entries (ctx : context.Context) (sta : state.Client)
    (storage : database.Storage) (pm : plugin.Manager) (opts : FetchOptions)
    (resp : FetchResponse.t) (ds : diag.Diagnostics) (saved : list state.FetchSummary) :
  Fetch ctx sta storage pm opts = Returned (Some resp, ds, saved) →
  (∀ info, info ∈ attempted opts →
           is_Some (FetchResponse.ProviderFetchSummary resp !! displayKey info))
  ∧ (∀ key s, FetchResponse.ProviderFetchSummary resp !! key = Some s →
              key ∈ displayKey <$> attempted opts
              ∧ ProviderFetchSummary.Status s ∈ assignedStatuses).
Proof.
  intros Hrun.
  apply Fetch_Returned in Hrun
    as (fetchId & dsnURI & delivered & ss & warnings & _ & Hworkers & Hss & Hmap & _).
  pose proof (delivered_display_keys _ _ _ _ _ _ _ _ Hworkers Hss) as Hkeys.
  pose proof (delivered_keys _ _ _ _ _ _ _ _ Hworkers (summaries_all_Some _ _ Hss)) as Hrunners.
  split.
  - intros info Hinfo. rewrite Hmap. apply foldl_insert_is_Some. right.
    rewrite Hkeys. by apply list_elem_of_fmap_2.
  - intros key s Hlk. rewrite Hmap in Hlk.
    apply foldl_insert_lookup_key in Hlk as [Hlk|[Hs ->]];
      [by rewrite lookup_empty in Hlk|].
    split.
    + rewrite <- Hkeys. by apply list_elem_of_fmap_2.
    + assert (Hin : Some s ∈ fetchResult.summary <$> arrival (delivered.*1)).
      { rewrite Hss. by apply list_elem_of_fmap_2. }
      apply list_elem_of_fmap in Hin as (r & Hr & Hin). rewrite arrival_perm in Hin.
      assert (Hall : Forall (λ r, ∀ s, fetchResult.summary r = Some s →
                                      ProviderFetchSummary.Status s ∈ assignedStatuses)
                       (delivered.*1)).
      { clear -Hrunners.
        induction Hrunners as [|info r' infos rs (s' & Hs' & Hr' & _) _ IH];
          constructor; [|done].
        intros s'' Hs''. assert (s'' = s') as -> by congruence.
        by apply (runProviderFetch_identity _ _ _ _ _ _ Hr'). }
      rewrite Forall_forall in Hall. by apply (Hall r Hin).
Qed.

End FailedInstantiation.

(** C1 (defect of the code). With one provider whose plugin cannot be
    instantiated, the runner returns a diagnostic and a nil summary, as the
    claim says, but [Fetch] then dereferences the nil summary and panics,
    with or without a deadline on the context: no response is returned, so
    no entry with a terminal status stands for that provider. *)
Theorem C1_nil_summary_panics :
  attempted (sampleOptions [sampleProvider "broken" "" ["ec2"]])
  = [sampleProvider "broken" "" ["ec2"]]
  ∧ runProviderFetch sampleManager (sampleProvider "broken" "" ["ec2"])
      "postgres://localhost/cq" 7%N (sampleOptions [sampleProvider "broken" "" ["ec2"]])
    = (None, diag.FromError (Some "plugin binary not found") diag.INTERNAL [], [])
  ∧ Fetch background sampleState sampleStorage sampleManager
      (sampleOptions [sampleProvider "broken" "" ["ec2"]]) = Panicked
  ∧ Fetch withDeadline sampleState sampleStorage sampleManager
      (sampleOptions [sampleProvider "broken" "" ["ec2"]]) = Panicked.
Proof. repeat split; by vm_compute. Qed.

(** ** Further properties of the resolver *)

Section ResolverCoverage.

Context `{MR : MapRange}.

Implicit Types (all : gmap string schema.Table) (r k x : string).
Implicit Types (requested rest result added : list string) (seen : gset string).

(** One entry of the loop: either it stops the loop with a user error, or
    the loop goes on with some catalog names appended, the entry itself
    when it is a catalog name. *)
Lemma globLoop_step all x result seen :
  (∃ d, diag.isUserError d
        ∧ ∀ rest, globLoop all (x :: rest) result seen = (None, [d]))
  ∨ (∃ added, (is_Some (all !! x) → added = [x])
              ∧ (∀ y, y ∈ added → is_Some (all !! y) ∧ y ≠ "")
              ∧ ∀ rest, globLoop all (x :: rest) result seen
                        = globLoop all rest (result ++ added) ({[x]} ∪ seen)).
Proof.
  assert (Hstop : ∀ ds : diag.Diagnostics,
    (∃ d, ds = [d] ∧ diag.isUserError d) →
    (∀ rest, globLoop all (x :: rest) result seen = (None, ds)) →
    ∃ d, diag.isUserError d ∧ ∀ rest, globLoop all (x :: rest) result seen = (None, [d])).
  { intros ds (d & -> & Hu) Hrun. by exists d. }
  destruct (decide (x = "")) as [->|Hne].
  { left. apply (Hstop errEmptyName); [eexists; by repeat split | done]. }
  destruct (decide (x ∈ seen)) as [Hin|Hnin].
  { left. apply (Hstop (errDuplicate x)); [eexists; by repeat split|].
    intros rest. simpl.
    by rewrite bool_decide_eq_false_2, bool_decide_eq_true_2. }
  destruct (all !! x) as [t|] eqn:Hlk.
  { right. exists [x]. split; [done|]. split.
    - intros y Hy. apply list_elem_of_singleton in Hy as ->. split; [by eexists | done].
    - intros rest. rewrite globLoop_cons by done. by rewrite Hlk. }
  destruct (decide (x = "*")) as [->|Hstar].
  { left. apply (Hstop errWildcardNotAlone); [eexists; by repeat split|].
    intros rest. rewrite globLoop_cons by done. by rewrite Hlk. }
  destruct (matchResourceGlob x all) as [ms ds] eqn:Hm.
  destruct (globShape_of x) as [n Hidx Hpos Hend|Hbad _|Hplain _].
  - pose proof (matchResourceGlob_glob x n all Hidx Hpos Hend) as Hglob.
    rewrite Hm in Hglob. injection Hglob as -> ->.
    destruct (elems (collectPrefixed (substring 0 n x +:+ ".") (rangeKeys all) None))
      as [|m ms'] eqn:Hms.
    + left. apply (Hstop (errNotExist x)); [eexists; by repeat split|].
      intros rest.
      rewrite globLoop_cons, Hlk, bool_decide_eq_false_2, Hm by done. simpl.
      by rewrite Hms.
    + right. exists (m :: ms'). split; [intros [? ?]; congruence|]. split.
      * intros y Hy. apply (matchResourceGlob_names x all _ _ y Hm). by rewrite Hms.
      * intros rest.
        rewrite globLoop_cons, Hlk, bool_decide_eq_false_2, Hm by done. simpl.
        by rewrite Hms.
  - destruct (Hbad all) as (d & Hd & Hu & _). rewrite Hd in Hm. injection Hm as <- <-.
    left. exists d. split; [done|]. intros rest.
    rewrite globLoop_cons, Hlk, bool_decide_eq_false_2, Hd by done. done.
  - rewrite Hplain in Hm. injection Hm as <- <-.
    left. apply (Hstop (errNotExist x)); [eexists; by repeat split|].
    intros rest.
    rewrite globLoop_cons, Hlk, bool_decide_eq_false_2, Hplain by done. done.
Qed.

(** An entry that is rejected whenever the loop reaches it makes the whole
    list fail, wherever it stands. *)
Lemma globLoop_fails_at all x requested result seen :
  x ∈ requested →
  (∀ result' seen' rest, ∃ d, globLoop all (x :: rest) result' seen' = (None, [d])
                              ∧ diag.isUserError d) →
  ∃ d, globLoop all requested result seen = (None, [d]) ∧ diag.isUserError d.
Proof.
  intros Hin Hreject. revert result seen.
  induction requested as [|y rest IH]; intros result seen; [by apply elem_of_nil in Hin|].
  destruct (decide (y = x)) as [->|Hne]; [apply Hreject|].
  apply elem_of_cons in Hin as [Hin|Hin]; [congruence|].
  destruct (globLoop_step all y result seen) as [(d & Hu & Hd)|(added & _ & _ & Hgo)].
  - exists d. by rewrite Hd.
  - rewrite Hgo. by apply IH.
Qed.

(** The names of a successful run contain every requested catalog name. *)
Lemma globLoop_keeps_exact all requested result seen (out : list string)
    (ds : diag.Diagnostics) x :
  globLoop all requested result seen = (Some out, ds) →
  x ∈ result ∨ (x ∈ requested ∧ is_Some (all !! x)) → x ∈ out.
Proof.
  revert result seen. induction requested as [|y rest IH]; intros result seen Hrun Hx.
  - simpl in Hrun. injection Hrun as <- _. apply elem_of_Unique.
    destruct Hx as [Hx|[Hx _]]; [done | by apply elem_of_nil in Hx].
  - destruct (globLoop_step all y result seen) as [(d & _ & Hd)|(added & Hexact & _ & Hgo)].
    + by rewrite Hd in Hrun.
    + rewrite Hgo in Hrun. apply (IH _ _ Hrun).
      destruct Hx as [Hx|[Hx Hsome]]; [left; set_solver|].
      apply elem_of_cons in Hx as [->|Hx]; [|by right].
      left. rewrite (Hexact Hsome). set_solver.
Qed.

(** X1. The result of normalization does not depend on the order in which
    the catalog, a Go map, is iterated: for any two iteration orders
    [doNormalizeResources] and [doGlobResources] return the same list and
    the same diagnostics. [matchResourceGlob] returns the same diagnostics
    and the same names, in an order that may differ: it is the sorting at
    the end of [doGlobResources] that makes the result canonical. *)
Theorem X1_normalization_ignores_map_order (R1 R2 : MapRange) (resources skip : list string)
    all :
  doNormalizeResources (MR:=R1) resources skip all
  = doNormalizeResources (MR:=R2) resources skip all
  ∧ doGlobResources (MR:=R1) resources false all = doGlobResources (MR:=R2) resources false all
  ∧ doGlobResources (MR:=R1) skip true all = doGlobResources (MR:=R2) skip true all
  ∧ ∀ pattern,
      (matchResourceGlob (MR:=R1) pattern all).2 = (matchResourceGlob (MR:=R2) pattern all).2
      ∧ ∀ k, k ∈ elems (matchResourceGlob (MR:=R1) pattern all).1
             ↔ k ∈ elems (matchResourceGlob (MR:=R2) pattern all).1.
Proof.
  split; [apply doNormalizeResources_order|].
  split; [apply doGlobResources_order|]. split; [apply doGlobResources_order|].
  intros pattern. apply matchResourceGlob_order.
Qed.

(** X2. Whenever [doNormalizeResources] returns without diagnostics, the
    list it returns is sorted and free of duplicates, every name in it is a
    non-empty name of the catalog that the skip list did not resolve to, and
    every requested entry that is a catalog name and was not skipped is in
    it. *)
Theorem X2_normalized_list_postcondition (resources skip out : list string) all :
  doNormalizeResources resources skip all = (Some out, []) →
  Sorted String.le out ∧ NoDup out
  ∧ (∀ x, x ∈ out → is_Some (all !! x) ∧ x ≠ ""
                    ∧ x ∉ elems (doGlobResources skip true all).1)
  ∧ (∀ x, x ∈ resources → is_Some (all !! x) →
          x ∉ elems (doGlobResources skip true all).1 → x ∈ out).
Proof.
  intros Hrun. unfold doNormalizeResources in Hrun.
  destruct (doGlobResources_outcome resources false all)
    as [(res & Huse & Hnames)|(d & Huse & _)]; rewrite Huse in Hrun;
    destruct (doGlobResources skip true all) as [skipRes dd] eqn:Hskip;
    injection Hrun as Hsub Hdiags; [|discriminate Hdiags].
  simpl in Hsub. subst out. simpl.
  split; [apply Sorted_le_filter, Sorted_Unique|].
  split; [apply NoDup_filter, NoDup_Unique|]. split.
  - intros x Hx. apply list_elem_of_filter in Hx as [Hskipped Hx].
    rewrite elem_of_Unique in Hx. destruct (Hnames x Hx). done.
  - intros x Hx Hsome Hskipped. apply list_elem_of_filter. split; [done|].
    unfold doGlobResources in Huse.
    destruct (bool_decide (length resources = 1%nat) && bool_decide (head resources = Some "*"))
      eqn:Hlone.
    + rewrite lone_wildcard_test in Hlone. apply bool_decide_eq_true_1 in Hlone. subst.
      apply list_elem_of_singleton in Hx as ->.
      apply (globLoop_keeps_exact _ _ _ _ _ _ "*" Huse). right.
      split; [by apply elem_of_rangeKeys | done].
    + apply (globLoop_keeps_exact _ _ _ _ _ _ x Huse). by right.
Qed.

(** X3. A requested or skipped entry without a star that is not a name of
    the catalog is never dropped silently: wherever it stands in the list,
    [doGlobResources] returns nil and one user-classified error. *)
Theorem X3_unknown_name_rejected (requested : list string) (allowWild : bool) all r :
  r ∈ requested → all !! r = None → strings.Contains r "*" = false →
  ∃ d, doGlobResources requested allowWild all = (None, [d]) ∧ diag.isUserError d.
Proof.
  intros Hin Hlk Hplain.
  assert (Hloop : ∀ result seen,
    ∃ d, globLoop all requested result seen = (None, [d]) ∧ diag.isUserError d).
  { intros result seen. apply (globLoop_fails_at all r); [done|].
    intros result' seen' rest.
    destruct (decide (r = "")) as [->|Hne].
    { eexists. split; [reflexivity | by split]. }
    destruct (decide (r ∈ seen')) as [Hseen|Hseen].
    { simpl. rewrite bool_decide_eq_false_2, bool_decide_eq_true_2 by done.
      eexists. split; [reflexivity | by split]. }
    rewrite globLoop_unknown_name by done.
    eexists. split; [reflexivity | by split]. }
  unfold doGlobResources. destruct allowWild.
  - case_bool_decide; [|apply Hloop].
    eexists. split; [reflexivity | by split].
  - rewrite lone_wildcard_test. case_bool_decide as Hlone; [|apply Hloop].
    subst. apply list_elem_of_singleton in Hin as ->. done.
Qed.

(** X4. The wildcard only stands alone: a list that holds ["*"] next to
    other entries is rejected with one user-classified error, in both roles
    (the catalog having no resource literally named [*]). *)
Theorem X4_wildcard_among_others_rejected (requested : list string) (allowWild : bool) all :
  "*" ∈ requested → requested ≠ ["*"] → all !! "*" = None →
  ∃ d, doGlobResources requested allowWild all = (None, [d]) ∧ diag.isUserError d.
Proof.
  intros Hin Hothers Hlk.
  unfold doGlobResources. destruct allowWild.
  - rewrite bool_decide_eq_true_2 by done.
    eexists. split; [reflexivity | by split].
  - rewrite lone_wildcard_test, bool_decide_eq_false_2 by done.
    apply (globLoop_fails_at all "*"); [done|].
    intros result' seen' rest.
    destruct (decide ("*" ∈ seen')) as [Hseen|Hseen].
    { simpl. rewrite bool_decide_eq_true_2 by done.
      eexists. split; [reflexivity | by split]. }
    rewrite globLoop_cons, Hlk by done. simpl.
    eexists. split; [reflexivity | by split].
Qed.

(** X5. A list of distinct, non-empty catalog names is accepted as it is:
    the result is that list in sorted order (a permutation of it), with no
    diagnostics, in the requested role unless the list is the lone ["*"],
    and in the skip role unless it holds ["*"]. *)
Theorem X5_exact_names_accepted_sorted (requested : list string) (allowWild : bool) all :
  NoDup requested → (∀ k, k ∈ requested → is_Some (all !! k) ∧ k ≠ "") →
  (if allowWild then "*" ∉ requested else requested ≠ ["*"]) →
  ∃ out, doGlobResources requested allowWild all = (Some out, [])
         ∧ out ≡ₚ requested ∧ Sorted String.le out.
Proof.
  intros Hnd Hnames Hwild.
  assert (Hloop : globLoop all requested [] ∅ = (Some (cqsort.Unique requested), [])).
  { rewrite globLoop_exact; [done| | |done|set_solver].
    - intros k Hk. by destruct (Hnames k Hk).
    - intros He. by destruct (Hnames "" He). }
  exists (cqsort.Unique requested). split; [|split].
  - unfold doGlobResources. destruct allowWild.
    + by rewrite bool_decide_eq_false_2.
    + by rewrite lone_wildcard_test, bool_decide_eq_false_2.
  - apply NoDup_Permutation; [apply NoDup_Unique | done |].
    intros x. apply elem_of_Unique.
  - apply Sorted_Unique.
Qed.

(** X6. Requesting everything but some resources: over a catalog without an
    empty name, requested [["*"]] with a skip list of distinct catalog names
    (none of them ["*"]) succeeds and returns, sorted and without
    duplicates, exactly the catalog names that are not in the skip list. *)
Theorem X6_wildcard_minus_skipped (skip : list string) all :
  all !! "" = None → NoDup skip → (∀ k, k ∈ skip → is_Some (all !! k)) → "*" ∉ skip →
  ∃ out, doNormalizeResources ["*"] skip all = (Some out, [])
         ∧ Sorted String.le out ∧ NoDup out
         ∧ ∀ k, k ∈ out ↔ is_Some (all !! k) ∧ k ∉ skip.
Proof.
  intros Hempty Hnd Hnames Hstar.
  assert (Huse : doGlobResources ["*"] false all = (Some (cqsort.Unique (rangeKeys all)), [])).
  { unfold doGlobResources. simpl. apply globLoop_exact.
    - intros k. by rewrite elem_of_rangeKeys.
    - rewrite elem_of_rangeKeys, Hempty. by intros [? ?].
    - apply NoDup_rangeKeys.
    - set_solver. }
  assert (Hskip : doGlobResources skip true all = (Some (cqsort.Unique skip), [])).
  { unfold doGlobResources. rewrite bool_decide_eq_false_2 by done.
    rewrite globLoop_exact; [done|done| |done|set_solver].
    intros He. destruct (Hnames "" He) as [t Ht]. congruence. }
  unfold doNormalizeResources. rewrite Huse, Hskip. unfold funk.Subtract. simpl.
  eexists. split; [reflexivity|].
  split; [apply Sorted_le_filter, Sorted_Unique|].
  split; [apply NoDup_filter, NoDup_Unique|].
  intros k. rewrite list_elem_of_filter, !elem_of_Unique, elem_of_rangeKeys. tauto.
Qed.

End ResolverCoverage.

(** Witness of X2: the scenario with requested [["*"]] and skip [["iam.*"]]. *)
Lemma X2_normalized_list_postcondition_witness :
  doNormalizeResources ["*"] ["iam.*"] sampleCatalog = (Some ["ec2"; "s3"], [])
  ∧ Sorted String.le ["ec2"; "s3"] ∧ NoDup ["ec2"; "s3"].
Proof.
  assert (Hrun : doNormalizeResources ["*"] ["iam.*"] sampleCatalog
                 = (Some ["ec2"; "s3"], [])) by (by vm_compute).
  split; [exact Hrun|].
  destruct (X2_normalized_list_postcondition (MR:=elementsRange) ["*"] ["iam.*"]
              ["ec2"; "s3"] sampleCatalog Hrun) as (Hs & Hn & _).
  by split.
Defined.

(** Witness of X3: [vpc] after a known name, on the scenario catalog. *)
Lemma X3_unknown_name_rejected_witness :
  "vpc" ∈ ["ec2"; "vpc"] ∧ sampleCatalog !! "vpc" = None
  ∧ strings.Contains "vpc" "*" = false
  ∧ ∃ d, doGlobResources ["ec2"; "vpc"] false sampleCatalog = (None, [d])
         ∧ diag.isUserError d.
Proof.
  assert (H1 : "vpc" ∈ ["ec2"; "vpc"]) by (apply list_elem_of_further, list_elem_of_here).
  assert (H2 : sampleCatalog !! "vpc" = None) by (by vm_compute).
  assert (H3 : strings.Contains "vpc" "*" = false) by (by vm_compute).
  split; [exact H1|]. split; [exact H2|]. split; [exact H3|].
  exact (X3_unknown_name_rejected (MR:=elementsRange) ["ec2"; "vpc"] false sampleCatalog
           "vpc" H1 H2 H3).
Defined.

(** Witness of X4: the wildcard after a known name. *)
Lemma X4_wildcard_among_others_rejected_witness :
  "*" ∈ ["ec2"; "*"] ∧ ["ec2"; "*"] ≠ ["*"] ∧ sampleCatalog !! "*" = None
  ∧ ∃ d, doGlobResources ["ec2"; "*"] false sampleCatalog = (None, [d])
         ∧ diag.isUserError d.
Proof.
  assert (H1 : "*" ∈ ["ec2"; "*"]) by (apply list_elem_of_further, list_elem_of_here).
  assert (H2 : ["ec2"; "*"] ≠ ["*"]) by done.
  assert (H3 : sampleCatalog !! "*" = None) by (by vm_compute).
  split; [exact H1|]. split; [exact H2|]. split; [exact H3|].
  exact (X4_wildcard_among_others_rejected (MR:=elementsRange) ["ec2"; "*"] false
           sampleCatalog H1 H2 H3).
Defined.

(** Witness of X5: two names of the scenario catalog, given out of order. *)
Lemma X5_exact_names_accepted_sorted_witness :
  NoDup ["s3"; "ec2"]
  ∧ ∃ out, doGlobResources ["s3"; "ec2"] false sampleCatalog = (Some out, [])
           ∧ out ≡ₚ ["s3"; "ec2"] ∧ Sorted String.le out.
Proof.
  assert (Hnd : NoDup ["s3"; "ec2"]).
  { apply NoDup_cons. split; [|apply NoDup_singleton]. by rewrite list_elem_of_singleton. }
  split; [exact Hnd|].
  apply (X5_exact_names_accepted_sorted (MR:=elementsRange) ["s3"; "ec2"] false
           sampleCatalog Hnd).
  - intros k Hk. apply elem_of_cons in Hk as [->|Hk].
    + split; [eexists; by vm_compute | done].
    + apply list_elem_of_singleton in Hk as ->. split; [eexists; by vm_compute | done].
  - done.
Defined.

(** Witness of X6: everything but [iam.roles]. *)
Lemma X6_wildcard_minus_skipped_witness :
  sampleCatalog !! "" = None ∧ NoDup ["iam.roles"]
  ∧ ∃ out, doNormalizeResources ["*"] ["iam.roles"] sampleCatalog = (Some out, [])
           ∧ Sorted String.le out ∧ NoDup out
           ∧ ∀ k, k ∈ out ↔ is_Some (sampleCatalog !! k) ∧ k ∉ ["iam.roles"].
Proof.
  assert (H1 : sampleCatalog !! "" = None) by (by vm_compute).
  assert (H2 : NoDup ["iam.roles"]) by apply NoDup_singleton.
  split; [exact H1|]. split; [exact H2|].
  apply (X6_wildcard_minus_skipped (MR:=elementsRange) ["iam.roles"] sampleCatalog H1 H2).
  - intros k Hk. apply list_elem_of_singleton in Hk as ->. eexists. by vm_compute.
  - by rewrite list_elem_of_singleton.
Defined.

(** ** Further properties of the runner *)

Section RunnerCoverage.

Context `{MR : MapRange} `{CO : Collaborators}.

Implicit Types (providerPlugin : plugin.Plugin) (info : ProviderInfo).
Implicit Types (summary : ProviderFetchSummary.t) (diags : diag.Diagnostics).
Implicit Types (msgs : list cqproto.FetchResourcesResponse) (err : error).
Implicit Types (calls : list FetchUpdate.t) (closing : option error).

(** The state of the receive loop after one message. *)
Lemma recvLoop_cons providerPlugin info (callback : bool) resp msgs closing summary diags
    calls :
  recvLoop providerPlugin info callback (resp :: msgs) closing summary diags calls
  = recvLoop providerPlugin info callback msgs closing
      (ProviderFetchSummary.mk
         (ProviderFetchSummary.Name summary) (ProviderFetchSummary.Alias summary)
         (ProviderFetchSummary.Version summary)
         (add64 (ProviderFetchSummary.TotalResourcesFetched summary)
                (cqproto.ResourceCount resp))
         (<[cqproto.ResourceName resp := resourceEntry resp]>
            (ProviderFetchSummary.FetchedResources summary))
         (ProviderFetchSummary.Status summary))
      ((diags ++ (if bool_decide (cqproto.Error resp ≠ "") then resourceErrorDiag resp
                  else []))
       ++ (resourceEntry resp).(ResourceFetchSummary.Diagnostics))
      (calls ++ (if callback
                 then [messageUpdate providerPlugin info resp
                         (diag.Len (diag.BySeverity [diag.WARNING; diag.ERROR; diag.PANIC]
                                      diags))]
                 else [])).
Proof.
  simpl. unfold resourceEntry, resourceErrorDiag, messageUpdate.
  destruct (FilterTelemetryEvents _) as [events rdiags]. simpl.
  f_equal.
  - unfold diag.Add.
    destruct (bool_decide (cqproto.Error resp ≠ "")); rewrite ?app_nil_r;
      destruct rdiags; simpl; by rewrite ?app_nil_r.
  - destruct callback; by rewrite ?app_nil_r.
Qed.

Lemma recvLoop_nil providerPlugin info (callback : bool) closing summary diags calls :
  recvLoop providerPlugin info callback [] closing summary diags calls
  = match closing with
    | None => (summary, diags, calls)
    | Some err =>
        (ProviderFetchSummary.withStatus summary (closingStatus err),
         diags ++ closingDiag err,
         calls ++ (if callback then [closingUpdate providerPlugin info err diags] else []))
    end.
Proof.
  simpl. destruct closing as [err|]; [|done].
  unfold closingStatus, closingDiag, closingUpdate, diag.Add.
  destruct callback, (IsCancelation err); by rewrite ?app_nil_r.
Qed.

(** What the receive loop leaves in the summary, the diagnostics and the
    calls of the callback. *)
Lemma recvLoop_result providerPlugin info (callback : bool) msgs closing summary diags calls :
  ∃ s ds cs counts,
    recvLoop providerPlugin info callback msgs closing summary diags calls = (s, ds, cs)
    ∧ ProviderFetchSummary.Version s = ProviderFetchSummary.Version summary
    ∧ ProviderFetchSummary.TotalResourcesFetched s
      = foldl add64 (ProviderFetchSummary.TotalResourcesFetched summary)
          (cqproto.ResourceCount <$> msgs)
    ∧ ProviderFetchSummary.FetchedResources s
      = foldl (λ m resp, <[cqproto.ResourceName resp := resourceEntry resp]> m)
          (ProviderFetchSummary.FetchedResources summary) msgs
    ∧ diags `prefix_of` ds
    ∧ (∀ resp, resp ∈ msgs → cqproto.Error resp ≠ "" → resourceErrorDiag resp ⊆ ds)
    ∧ (∀ resp, resp ∈ msgs → ResourceFetchSummary.Diagnostics (resourceEntry resp) ⊆ ds)
    ∧ (∀ err, closing = Some err → closingDiag err `suffix_of` ds)
    ∧ length counts = length msgs
    ∧ cs = calls
           ++ (if callback
               then zip_with (messageUpdate providerPlugin info) msgs counts
                    ++ match closing with
                       | Some err =>
                           [closingUpdate providerPlugin info err
                              (take (length ds - length (closingDiag err)) ds)]
                       | None => []
                       end
               else []).
Proof.
  revert summary diags calls. induction msgs as [|resp msgs IH]; intros summary diags calls.
  - rewrite recvLoop_nil. destruct closing as [err|].
    + eexists _, _, _, []. split; [reflexivity|]. simpl.
      repeat split; try done.
      * by apply prefix_app_r.
      * intros resp Hin. by apply elem_of_nil in Hin.
      * intros resp Hin. by apply elem_of_nil in Hin.
      * intros err' [= <-]. by apply suffix_app_r.
      * rewrite length_app.
        replace (length diags + length (closingDiag err) - length (closingDiag err))%nat
          with (length diags) by lia.
        by rewrite take_app_length.
    + eexists _, _, _, []. split; [reflexivity|]. simpl.
      repeat split; try done.
      * intros resp Hin. by apply elem_of_nil in Hin.
      * intros resp Hin. by apply elem_of_nil in Hin.
      * by destruct callback; rewrite ?app_nil_r.
  - rewrite recvLoop_cons.
    match goal with
    | |- context [recvLoop _ _ _ _ _ ?s' ?d' ?c'] =>
        destruct (IH s' d' c')
          as (s & ds & cs & counts & Hrun & Hver & Htot & Hmap & Hpre & Herrs & Hres
              & Hclose & Hlen & Hcalls)
    end.
    exists s, ds, cs,
      (diag.Len (diag.BySeverity [diag.WARNING; diag.ERROR; diag.PANIC] diags) :: counts).
    split; [exact Hrun|]. simpl in Hver, Htot, Hmap.
    split; [exact Hver|]. split; [exact Htot|]. split; [exact Hmap|].
    assert (Hstep : ∀ x, x ∈ (diags
              ++ (if bool_decide (cqproto.Error resp ≠ "") then resourceErrorDiag resp
                  else []))
              ++ ResourceFetchSummary.Diagnostics (resourceEntry resp) → x ∈ ds).
    { intros x Hx. destruct Hpre as [more ->]. set_solver. }
    split; [|split; [|split; [|split; [|split]]]].
    + destruct Hpre as [more ->]. rewrite <- !app_assoc. by eexists.
    + intros resp' Hin Herr x Hx.
      apply elem_of_cons in Hin as [->|Hin]; [|by apply (Herrs resp' Hin Herr)].
      apply Hstep. rewrite bool_decide_eq_true_2 by done. set_solver.
    + intros resp' Hin x Hx.
      apply elem_of_cons in Hin as [->|Hin]; [|by apply (Hres resp' Hin)].
      apply Hstep. set_solver.
    + exact Hclose.
    + simpl. by rewrite Hlen.
    + rewrite Hcalls. destruct callback; simpl; by rewrite <- ?app_assoc, ?app_nil_r.
Qed.

(** The run of [executeFetch] once the stream is open. *)
Lemma executeFetch_streaming providerPlugin info (metadata : uuid.UUID) (callback : bool)
    (resources : option (list string)) (ndiags : diag.Diagnostics)
    (stream : cqproto.FetchResourcesStream) :
  normalizeResources providerPlugin (config.Resources (Config info))
    (config.SkipResources (Config info)) = (resources, ndiags) →
  diag.HasErrors ndiags = false →
  plugin.FetchResources providerPlugin (fetchRequest info resources metadata) = inr stream →
  executeFetch providerPlugin info metadata callback
  = recvLoop providerPlugin info callback (cqproto.messages stream) (cqproto.closing stream)
      (initialSummary providerPlugin info) ndiags [].
Proof.
  intros Hnorm Herr Hfetch. unfold executeFetch. rewrite Hnorm, Herr.
  change (cqproto.mkFetchResourcesRequest _ _ _ _ _)
    with (fetchRequest info resources metadata).
  by rewrite Hfetch.
Qed.

Lemma foldl_insert_last (msgs : list cqproto.FetchResourcesResponse)
    (m : gmap string ResourceFetchSummary.t) (name : string) :
  foldl (λ m resp, <[cqproto.ResourceName resp := resourceEntry resp]> m) m msgs !! name
  = match lastMessageFor name msgs with
    | Some resp => Some (resourceEntry resp)
    | None => m !! name
    end.
Proof.
  unfold lastMessageFor. revert m. induction msgs as [|resp msgs IH]; intros m; [done|].
  simpl. rewrite IH. case_bool_decide as Hname.
  - destruct (List.filter _ msgs) as [|r l] eqn:Hf.
    + simpl. by rewrite <- Hname, lookup_insert_eq.
    + rewrite last_cons_cons. destruct (last (r :: l)) eqn:Hlast; [done|].
      by apply last_None in Hlast.
  - destruct (last (List.filter _ msgs)); [done|]. by rewrite lookup_insert_ne.
Qed.

(** X7. The total of a provider is the sum of the row counts of all the
    messages received, as [uint64] additions make it (modulo [2^64]),
    whether the stream ends with the end-of-stream marker or with an error. *)
Theorem X7_total_is_sum_of_messages providerPlugin info (metadata : uuid.UUID)
    (callback : bool) (resources : option (list string)) (ndiags : diag.Diagnostics)
    (stream : cqproto.FetchResourcesStream) :
  normalizeResources providerPlugin (config.Resources (Config info))
    (config.SkipResources (Config info)) = (resources, ndiags) →
  diag.HasErrors ndiags = false →
  plugin.FetchResources providerPlugin (fetchRequest info resources metadata) = inr stream →
  ProviderFetchSummary.TotalResourcesFetched
    (executeFetch providerPlugin info metadata callback).1.1
  = foldr Z.add 0 (cqproto.ResourceCount <$> cqproto.messages stream) mod uint64_modulus.
Proof.
  intros Hnorm Herr Hfetch.
  rewrite (executeFetch_streaming _ _ _ _ _ _ _ Hnorm Herr Hfetch).
  destruct (recvLoop_result providerPlugin info callback (cqproto.messages stream)
              (cqproto.closing stream) (initialSummary providerPlugin info) ndiags [])
    as (s & ds & cs & counts & -> & _ & Htot & _).
  simpl in *. rewrite Htot, fold_add64 by (unfold uint64_modulus; lia).
  by rewrite Z.add_0_l.
Qed.

(** X8. The resources of a provider summary are exactly the resources named
    by the messages received, and the entry of a resource is the one of the
    last message about it: a later message replaces an earlier one. *)
Theorem X8_last_message_wins providerPlugin info (metadata : uuid.UUID)
    (callback : bool) (resources : option (list string)) (ndiags : diag.Diagnostics)
    (stream : cqproto.FetchResourcesStream) (name : string) :
  normalizeResources providerPlugin (config.Resources (Config info))
    (config.SkipResources (Config info)) = (resources, ndiags) →
  diag.HasErrors ndiags = false →
  plugin.FetchResources providerPlugin (fetchRequest info resources metadata) = inr stream →
  ProviderFetchSummary.FetchedResources
    (executeFetch providerPlugin info metadata callback).1.1 !! name
  = resourceEntry <$> lastMessageFor name (cqproto.messages stream)
  ∧ (is_Some (ProviderFetchSummary.FetchedResources
                (executeFetch providerPlugin info metadata callback).1.1 !! name)
     ↔ name ∈ cqproto.ResourceName <$> cqproto.messages stream).
Proof.
  intros Hnorm Herr Hfetch.
  rewrite (executeFetch_streaming _ _ _ _ _ _ _ Hnorm Herr Hfetch).
  destruct (recvLoop_result providerPlugin info callback (cqproto.messages stream)
              (cqproto.closing stream) (initialSummary providerPlugin info) ndiags [])
    as (s & ds & cs & counts & -> & _ & _ & Hmap & _).
  simpl in *. rewrite Hmap, foldl_insert_last, lookup_empty.
  assert (Hlast : is_Some (lastMessageFor name (cqproto.messages stream))
                  ↔ name ∈ cqproto.ResourceName <$> cqproto.messages stream).
  { unfold lastMessageFor. rewrite last_is_Some, list_elem_of_fmap. split.
    - intros Hne. destruct (List.filter _ _) as [|resp l] eqn:Hf; [done|].
      assert (Hin : In resp (List.filter
                (λ r, bool_decide (cqproto.ResourceName r = name)) (cqproto.messages stream)))
        by (rewrite Hf; by left).
      apply filter_In in Hin as [Hin Hname]. apply bool_decide_eq_true_1 in Hname.
      exists resp. split; [done | by apply list_elem_of_In].
    - intros (resp & -> & Hin) Hnil.
      assert (Hf : In resp (List.filter
                (λ r, bool_decide (cqproto.ResourceName r = cqproto.ResourceName resp))
                (cqproto.messages stream))).
      { apply filter_In. split; [by apply list_elem_of_In | by apply bool_decide_eq_true_2]. }
      by rewrite Hnil in Hf. }
  split.
  - by destruct (lastMessageFor name (cqproto.messages stream)).
  - rewrite <- Hlast. destruct (lastMessageFor name (cqproto.messages stream)); simpl.
    + split; by eexists.
    + split; by intros [? ?].
Qed.

(** X9. Without a callback nothing is reported; with one, it is called once
    for every message, in order, with that message's finished resources and
    row count and no error text, and once more, with the text of the error,
    when the stream ends with an error. *)
Theorem X9_callback_once_per_message providerPlugin info (metadata : uuid.UUID)
    (callback : bool) (resources : option (list string)) (ndiags : diag.Diagnostics)
    (stream : cqproto.FetchResourcesStream) :
  normalizeResources providerPlugin (config.Resources (Config info))
    (config.SkipResources (Config info)) = (resources, ndiags) →
  diag.HasErrors ndiags = false →
  plugin.FetchResources providerPlugin (fetchRequest info resources metadata) = inr stream →
  ∃ (counts : list Z) (seenAtClose : diag.Diagnostics),
    length counts = length (cqproto.messages stream)
    ∧ (executeFetch providerPlugin info metadata callback).2
      = if callback
        then zip_with (messageUpdate providerPlugin info) (cqproto.messages stream) counts
             ++ match cqproto.closing stream with
                | Some err => [closingUpdate providerPlugin info err seenAtClose]
                | None => []
                end
        else [].
Proof.
  intros Hnorm Herr Hfetch.
  rewrite (executeFetch_streaming _ _ _ _ _ _ _ Hnorm Herr Hfetch).
  destruct (recvLoop_result providerPlugin info callback (cqproto.messages stream)
              (cqproto.closing stream) (initialSummary providerPlugin info) ndiags [])
    as (s & ds & cs & counts & -> & _ & _ & _ & _ & _ & _ & _ & Hlen & ->).
  simpl. destruct (cqproto.closing stream) as [err|].
  - exists counts, (take (length ds - length (closingDiag err)) ds). by split.
  - exists counts, []. by split.
Qed.

(** X10. Diagnostics are only ever appended: the diagnostics of
    normalization open the result, every message that carries an error text
    leaves a [RESOLVING] diagnostic tagged with its resource, the
    diagnostics of every message that pass the telemetry filter are kept,
    and the diagnostic of a closing error comes last. *)
Theorem X10_diagnostics_appended providerPlugin info (metadata : uuid.UUID)
    (callback : bool) (resources : option (list string)) (ndiags : diag.Diagnostics)
    (stream : cqproto.FetchResourcesStream) :
  normalizeResources providerPlugin (config.Resources (Config info))
    (config.SkipResources (Config info)) = (resources, ndiags) →
  diag.HasErrors ndiags = false →
  plugin.FetchResources providerPlugin (fetchRequest info resources metadata) = inr stream →
  ndiags `prefix_of` (executeFetch providerPlugin info metadata callback).1.2
  ∧ (∀ resp, resp ∈ cqproto.messages stream → cqproto.Error resp ≠ "" →
       diag.mkDiagnostic diag.ERROR diag.RESOLVING (Some (cqproto.Error resp)) "" ""
         (cqproto.ResourceName resp)
       ∈ (executeFetch providerPlugin info metadata callback).1.2)
  ∧ (∀ resp d, resp ∈ cqproto.messages stream →
       d ∈ (FilterTelemetryEvents (cqproto.Diagnostics (cqproto.Summary resp))).2 →
       d ∈ (executeFetch providerPlugin info metadata callback).1.2)
  ∧ (∀ err, cqproto.closing stream = Some err →
       closingDiag err `suffix_of` (executeFetch providerPlugin info metadata callback).1.2).
Proof.
  intros Hnorm Herr Hfetch.
  rewrite (executeFetch_streaming _ _ _ _ _ _ _ Hnorm Herr Hfetch).
  destruct (recvLoop_result providerPlugin info callback (cqproto.messages stream)
              (cqproto.closing stream) (initialSummary providerPlugin info) ndiags [])
    as (s & ds & cs & counts & -> & _ & _ & _ & Hpre & Herrs & Hres & Hclose & _).
  simpl. split; [exact Hpre|]. split; [|split; [|exact Hclose]].
  - intros resp Hin Hne. apply (Herrs resp Hin Hne). by left.
  - intros resp d Hin Hd. by apply (Hres resp Hin).
Qed.

(** X11. Before the stream is open, an error is never read as a
    cancellation: when the schema RPC fails, or when the fetch request is
    refused, [executeFetch] returns the untouched initial summary with
    status [Failed], one [INTERNAL] diagnostic wrapping the error and no
    call of the callback, whatever the cancellation predicate says of the
    error. *)
Theorem X11_errors_before_stream_fail providerPlugin info (metadata : uuid.UUID)
    (callback : bool) err :
  plugin.GetProviderSchema providerPlugin = inl err
  ∨ (∃ resources ndiags,
       normalizeResources providerPlugin (config.Resources (Config info))
         (config.SkipResources (Config info)) = (resources, ndiags)
       ∧ diag.HasErrors ndiags = false
       ∧ plugin.FetchResources providerPlugin (fetchRequest info resources metadata)
         = inl err) →
  executeFetch providerPlugin info metadata callback
  = (ProviderFetchSummary.withStatus (initialSummary providerPlugin info) FetchFailed,
     diag.FromError (Some err) diag.INTERNAL [], []).
Proof.
  intros [Hschema|(resources & ndiags & Hnorm & Herr & Hfetch)]; unfold executeFetch.
  - unfold normalizeResources. by rewrite Hschema.
  - rewrite Hnorm, Herr.
    change (cqproto.mkFetchResourcesRequest _ _ _ _ _)
      with (fetchRequest info resources metadata).
    by rewrite Hfetch.
Qed.

(** X12. The runner returns a nil summary exactly when the plugin cannot be
    created, with one [INTERNAL] diagnostic wrapping the error; every other
    summary carries the name of the registry provider, the alias of its
    configuration and the version of the plugin. *)
Theorem X12_summary_nil_iff_no_plugin (pm : plugin.Manager) info (dsnURI : string)
    (metadata : uuid.UUID) (opts : FetchOptions) :
  match plugin.CreatePlugin pm (creationOptions info) with
  | inl err =>
      runProviderFetch pm info dsnURI metadata opts
      = (None, diag.FromError (Some err) diag.INTERNAL [], [])
  | inr providerPlugin =>
      ∃ s, (runProviderFetch pm info dsnURI metadata opts).1.1 = Some s
           ∧ ProviderFetchSummary.Name s = registry.Name (Provider info)
           ∧ ProviderFetchSummary.Alias s = config.Alias (Config info)
           ∧ ProviderFetchSummary.Version s = plugin.Version providerPlugin
  end.
Proof.
  unfold runProviderFetch.
  change (plugin.mkCreationOptions _ _ _) with (creationOptions info).
  destruct (plugin.CreatePlugin pm (creationOptions info)) as [err|providerPlugin]; [done|].
  destruct (plugin.ConfigureProvider _ _) as [err|resp].
  - destruct (IsCancelation err); by eexists.
  - destruct (diag.HasErrors _); [by eexists|].
    pose proof (executeFetch_identity providerPlugin info metadata (UpdateCallback opts))
      as (Hn & Ha & _).
    assert (Hv : ProviderFetchSummary.Version
                   (executeFetch providerPlugin info metadata (UpdateCallback opts)).1.1
                 = plugin.Version providerPlugin).
    { unfold executeFetch. destruct (normalizeResources _ _ _) as [resources ndiags].
      destruct (diag.HasErrors ndiags); [done|].
      destruct (plugin.FetchResources _ _) as [e|stream]; [done|].
      match goal with
      | |- context [recvLoop ?p ?i ?c ?m ?cl ?s ?d ?cs] =>
          destruct (recvLoop_result p i c m cl s d cs) as (s' & ds & cs' & counts & -> & Hv & _)
      end.
      exact Hv. }
    destruct (executeFetch _ _ _ _) as [[s fd] calls]. simpl in *.
    by exists s.
Qed.

End RunnerCoverage.

(** Witness of X7: one message of one row, then a cancellation. *)
Lemma X7_total_is_sum_of_messages_witness :
  normalizeResources (streamingPlugin (Some "context canceled")) ["ec2"] []
  = (Some ["ec2"], [])
  ∧ ProviderFetchSummary.TotalResourcesFetched
      (executeFetch (streamingPlugin (Some "context canceled"))
         (sampleProvider "slow" "" ["ec2"]) 7%N true).1.1
    = foldr Z.add 0 [1] mod uint64_modulus.
Proof.
  assert (Hnorm : normalizeResources (streamingPlugin (Some "context canceled")) ["ec2"] []
                  = (Some ["ec2"], [])) by (by vm_compute).
  split; [exact Hnorm|].
  exact (X7_total_is_sum_of_messages (MR:=elementsRange)
           (streamingPlugin (Some "context canceled")) (sampleProvider "slow" "" ["ec2"])
           7%N true (Some ["ec2"]) []
           (cqproto.mkFetchResourcesStream [ec2Message] (Some "context canceled"))
           Hnorm eq_refl eq_refl).
Defined.

(** Witness of X8: two messages about [ec2]; the entry is the second one's. *)
Lemma X8_last_message_wins_witness :
  normalizeResources repeatingPlugin ["ec2"] [] = (Some ["ec2"], [])
  ∧ lastMessageFor "ec2" [ec2Message; ec2SecondMessage] = Some ec2SecondMessage
  ∧ ProviderFetchSummary.FetchedResources
      (executeFetch repeatingPlugin (sampleProvider "aws" "" ["ec2"]) 7%N true).1.1 !! "ec2"
    = resourceEntry <$> lastMessageFor "ec2" [ec2Message; ec2SecondMessage].
Proof.
  assert (Hnorm : normalizeResources repeatingPlugin ["ec2"] [] = (Some ["ec2"], []))
    by (by vm_compute).
  split; [exact Hnorm|]. split; [reflexivity|].
  exact (proj1 (X8_last_message_wins (MR:=elementsRange) repeatingPlugin
                  (sampleProvider "aws" "" ["ec2"]) 7%N true (Some ["ec2"]) []
                  (cqproto.mkFetchResourcesStream [ec2Message; ec2SecondMessage] None) "ec2"
                  Hnorm eq_refl eq_refl)).
Defined.

(** Witness of X9: one message, then a cancellation: two calls. *)
Lemma X9_callback_once_per_message_witness :
  normalizeResources (streamingPlugin (Some "context canceled")) ["ec2"] []
  = (Some ["ec2"], [])
  ∧ ∃ (counts : list Z) (seenAtClose : diag.Diagnostics),
      length counts = 1%nat
      ∧ (executeFetch (streamingPlugin (Some "context canceled"))
           (sampleProvider "slow" "" ["ec2"]) 7%N true).2
        = zip_with (messageUpdate (streamingPlugin (Some "context canceled"))
                      (sampleProvider "slow" "" ["ec2"])) [ec2Message] counts
          ++ [closingUpdate (streamingPlugin (Some "context canceled"))
                (sampleProvider "slow" "" ["ec2"]) "context canceled" seenAtClose].
Proof.
  assert (Hnorm : normalizeResources (streamingPlugin (Some "context canceled")) ["ec2"] []
                  = (Some ["ec2"], [])) by (by vm_compute).
  split; [exact Hnorm|].
  exact (X9_callback_once_per_message (MR:=elementsRange)
           (streamingPlugin (Some "context canceled")) (sampleProvider "slow" "" ["ec2"])
           7%N true (Some ["ec2"]) []
           (cqproto.mkFetchResourcesStream [ec2Message] (Some "context canceled"))
           Hnorm eq_refl eq_refl).
Defined.

(** Witness of X10: the message of [ec2] carries the error "access denied". *)
Lemma X10_diagnostics_appended_witness :
  normalizeResources (streamingPlugin None) ["ec2"] [] = (Some ["ec2"], [])
  ∧ cqproto.Error ec2Message ≠ ""
  ∧ diag.mkDiagnostic diag.ERROR diag.RESOLVING (Some "access denied") "" "" "ec2"
    ∈ (executeFetch (streamingPlugin None) (sampleProvider "aws" "" ["ec2"]) 7%N true).1.2.
Proof.
  assert (Hnorm : normalizeResources (streamingPlugin None) ["ec2"] [] = (Some ["ec2"], []))
    by (by vm_compute).
  assert (Hne : cqproto.Error ec2Message ≠ "") by done.
  split; [exact Hnorm|]. split; [exact Hne|].
  destruct (X10_diagnostics_appended (MR:=elementsRange) (streamingPlugin None)
              (sampleProvider "aws" "" ["ec2"]) 7%N true (Some ["ec2"]) []
              (cqproto.mkFetchResourcesStream [ec2Message] None) Hnorm eq_refl eq_refl)
    as (_ & Herrs & _).
  apply (Herrs ec2Message); [apply list_elem_of_here | exact Hne].
Defined.

(** Witness of X11: the schema RPC is canceled; the status is [Failed]. *)
Lemma X11_errors_before_stream_fail_witness :
  plugin.GetProviderSchema (schemalessPlugin "context canceled") = inl "context canceled"
  ∧ IsCancelation "context canceled" = true
  ∧ ProviderFetchSummary.Status
      (executeFetch (schemalessPlugin "context canceled")
         (sampleProvider "aws" "" ["ec2"]) 7%N true).1.1 = FetchFailed.
Proof.
  split; [reflexivity|]. split; [reflexivity|].
  by rewrite (X11_errors_before_stream_fail (MR:=elementsRange)
                (schemalessPlugin "context canceled") (sampleProvider "aws" "" ["ec2"])
                7%N true "context canceled" (or_introl eq_refl)).
Defined.

(** ** Further properties of the orchestrator *)

Section OrchestratorCoverage.

Context `{MR : MapRange} `{CO : Collaborators}.

Implicit Types (info : ProviderInfo) (pm : plugin.Manager) (opts : FetchOptions).
Implicit Types (ctx : context.Context) (sta : state.Client) (storage : database.Storage).
Implicit Types (ss : list ProviderFetchSummary.t) (results : list fetchResult.t).

Lemma launch_adds_nothing (infos : list ProviderInfo) (diags : diag.Diagnostics) :
  (launch infos diags).1 = diags.
Proof.
  revert diags. induction infos as [|i infos IH]; intros diags; [done|].
  cbn [launch]. case_bool_decide.
  - change (diag.FromError None _ _) with (@nil diag.Diagnostic).
    unfold diag.Add. rewrite app_nil_r. apply IH.
  - specialize (IH diags). destruct (launch infos diags) as [d started]. exact IH.
Qed.

Lemma drain_header results (response response' : FetchResponse.t)
    (diags diags' : diag.Diagnostics) :
  drain results response diags = Returned (response', diags') →
  FetchResponse.FetchId response' = FetchResponse.FetchId response
  ∧ FetchResponse.TelemetryEvents response' = FetchResponse.TelemetryEvents response.
Proof.
  revert response diags. induction results as [|ps results IH]; intros response diags Hd.
  - simpl in Hd. by injection Hd as <- <-.
  - simpl in Hd. destruct (fetchResult.summary ps) as [s|]; [|done].
    by apply IH in Hd as [-> ->].
Qed.

Lemma drain_succeeds results (response : FetchResponse.t) (diags : diag.Diagnostics) :
  Forall (λ r, is_Some (fetchResult.summary r)) results →
  ∃ response' diags', drain results response diags = Returned (response', diags').
Proof.
  intros Hall. revert response diags.
  induction Hall as [|ps results [s Hs] _ IH]; intros response diags.
  - by eexists _, _.
  - simpl. rewrite Hs. apply IH.
Qed.

Lemma omap_of_fmap_Some {A B : Type} (f : A → option B) (l : list A) (bs : list B) :
  f <$> l = Some <$> bs → omap f l = bs.
Proof.
  revert bs. induction l as [|a l IH]; intros [|b bs] Heq; try done.
  rewrite !fmap_cons in Heq. injection Heq as Ha Hl. simpl. rewrite Ha. simpl.
  f_equal. by apply IH.
Qed.

Lemma fmap_Some_of_Forall {A B : Type} (f : A → option B) (l : list A) :
  Forall (λ a, is_Some (f a)) l → f <$> l = Some <$> omap f l.
Proof.
  induction 1 as [|a l [b Hb] _ IH]; [done|].
  rewrite fmap_cons. simpl. rewrite Hb. simpl. by rewrite IH.
Qed.

Lemma foldl_total ss (t : Z) :
  foldl (λ t s, add64 t (ProviderFetchSummary.TotalResourcesFetched s)) t ss
  = foldl add64 t (ProviderFetchSummary.TotalResourcesFetched <$> ss).
Proof. revert t. induction ss as [|s ss IH]; intros t; [done|]. simpl. apply IH. Qed.

Section OneSchedule.

Context `{SC : Schedule}.

(** The anatomy of a run of [Fetch] that returns a response, with the
    fetch identifier and the list handed to the telemetry filter. *)
Lemma Fetch_anatomy ctx sta storage pm opts (resp : FetchResponse.t)
    (ds : diag.Diagnostics) (saved : list state.FetchSummary) :
  Fetch ctx sta storage pm opts = Returned (Some resp, ds, saved) →
  ∃ (dsnURI : string) (delivered : list (fetchResult.t * list state.FetchSummary)) ss,
    fetchIdFor opts = inr (FetchResponse.FetchId resp)
    ∧ parseDSN storage = inr dsnURI
    ∧ fetchWorker ctx sta pm opts (FetchResponse.FetchId resp) dsnURI <$> attempted opts
      = Returned <$> delivered
    ∧ fetchResult.summary <$> arrival (delivered.*1) = Some <$> ss
    ∧ FetchResponse.ProviderFetchSummary resp
      = foldl (λ m s, <[ProviderFetchSummary.String s := s]> m) ∅ ss
    ∧ FetchResponse.TotalFetched resp
      = foldl (λ t s, add64 t (ProviderFetchSummary.TotalResourcesFetched s)) 0 ss
    ∧ (FetchResponse.TelemetryEvents resp, ds)
      = FilterTelemetryEvents (concat (fetchResult.diags <$> arrival (delivered.*1)))
    ∧ saved = concat (delivered.*2).
Proof.
  unfold Fetch, attempted, fetchIdFor.
  destruct (if bool_decide (FetchId opts = uuid.Nil) then NewUUID else inr (FetchId opts))
    as [err|fetchId]; [done|].
  destruct (parseDSN storage) as [err|dsnURI]; [done|].
  pose proof (launch_adds_nothing (ProvidersInfo opts) []) as Hw.
  destruct (launch (ProvidersInfo opts) []) as [diags started]. simpl in *. subst diags.
  destruct (join _) as [delivered|] eqn:Hjoin; [|done].
  apply join_Returned in Hjoin.
  destruct (drain _ _ _) as [[response diags']|] eqn:Hdrain; [|done].
  pose proof (drain_header _ _ _ _ _ Hdrain) as [Hid Hev].
  apply drain_Returned in Hdrain as (ss & Hss & Hmap & Htot & Hdiags).
  destruct (FilterTelemetryEvents diags') as [events filtered] eqn:Hfilter.
  intros [= <- <- <-]. simpl in *.
  exists dsnURI, delivered, ss. rewrite Hid.
  repeat split; try done.
  by rewrite <- Hdiags, Hfilter.
Qed.

(** X13. [Fetch] returns without a response exactly when no fetch
    identifier could be generated or the DSN of the storage cannot be
    parsed; it then returns one [INTERNAL] diagnostic wrapping that error,
    has started no worker and has saved nothing, whatever the providers. *)
Theorem X13_no_response_iff_no_id_or_dsn ctx sta storage pm opts (ds : diag.Diagnostics)
    (saved : list state.FetchSummary) :
  Fetch ctx sta storage pm opts = Returned (None, ds, saved)
  ↔ ∃ err, (fetchIdFor opts = inl err
            ∨ (∃ fetchId, fetchIdFor opts = inr fetchId) ∧ parseDSN storage = inl err)
           ∧ ds = diag.FromError (Some err) diag.INTERNAL []
           ∧ saved = [].
Proof.
  unfold Fetch, fetchIdFor.
  destruct (if bool_decide (FetchId opts = uuid.Nil) then NewUUID else inr (FetchId opts))
    as [err|fetchId].
  - split.
    + intros [= <- <-]. exists err. by split; [left|].
    + intros (err' & Hwhy & -> & ->).
      destruct Hwhy as [Hid|[[fetchId Hid] _]]; [|done]. by injection Hid as <-.
  - destruct (parseDSN storage) as [err|dsnURI].
    + split.
      * intros [= <- <-]. exists err. split; [right; split; [by eexists | done] | done].
      * intros (err' & Hwhy & -> & ->).
        destruct Hwhy as [Hid|[_ Hdsn]]; [done|]. by injection Hdsn as <-.
    + split.
      * destruct (launch _ _) as [diags started].
        destruct (join _) as [delivered|]; [|done].
        destruct (drain _ _ _) as [[response diags']|]; [|done].
        by destruct (FilterTelemetryEvents diags').
      * intros (err' & Hwhy & _). by destruct Hwhy as [Hid|[_ Hdsn]].
Qed.

Lemma delivered_workers ctx sta pm opts (fetchId : uuid.UUID) (dsnURI : string)
    (started : list ProviderInfo)
    (delivered : list (fetchResult.t * list state.FetchSummary)) :
  fetchWorker ctx sta pm opts fetchId dsnURI <$> started = Returned <$> delivered →
  Forall2 (λ info d, fetchWorker ctx sta pm opts fetchId dsnURI info = Returned d)
    started delivered.
Proof.
  revert delivered. induction started as [|info started IH]; intros [|d delivered] Hw;
    try done; constructor.
  - rewrite !fmap_cons in Hw. by injection Hw as Hhead Htail.
  - apply IH. rewrite !fmap_cons in Hw. by injection Hw as Hhead Htail.
Qed.

(** X14. The identifier of the response is the one of the options, or the
    freshly generated one when the options carry the nil identifier, and
    every record handed to the state client carries that identifier and
    the version of the core. *)
Theorem X14_fetch_id_propagated ctx sta storage pm opts (resp : FetchResponse.t)
    (ds : diag.Diagnostics) (saved : list state.FetchSummary) :
  Fetch ctx sta storage pm opts = Returned (Some resp, ds, saved) →
  fetchIdFor opts = inr (FetchResponse.FetchId resp)
  ∧ (FetchId opts ≠ uuid.Nil → FetchResponse.FetchId resp = FetchId opts)
  ∧ Forall (λ record, state.FetchId record = FetchResponse.FetchId resp
                      ∧ state.CoreVersion record = Version) saved.
Proof.
  intros Hrun.
  apply Fetch_anatomy in Hrun
    as (dsnURI & delivered & ss & Hid & _ & Hworkers & _ & _ & _ & _ & ->).
  split; [exact Hid|]. split.
  - intros Hne. unfold fetchIdFor in Hid.
    rewrite bool_decide_eq_false_2 in Hid by done. by injection Hid as <-.
  - apply delivered_workers in Hworkers.
    induction Hworkers as [|info [r records] infos ds' Hw _ IH]; [constructor|].
    rewrite fmap_cons. simpl. apply Forall_app. split; [|exact IH].
    apply fetchWorker_Returned in Hw as (_ & _ & Hrec).
    destruct (context.hasDeadline ctx); [subst; constructor|].
    destruct Hrec as (s & record & _ & [= <-] & ->).
    by repeat constructor.
Qed.

(** The records handed to the state client in a run that returns. *)
Lemma saved_records ctx sta storage pm opts (resp : FetchResponse.t)
    (ds : diag.Diagnostics) (saved : list state.FetchSummary) :
  Fetch ctx sta storage pm opts = Returned (Some resp, ds, saved) →
  if context.hasDeadline ctx then saved = []
  else
    ∃ (dsnURI : string) (records : list state.FetchSummary),
      parseDSN storage = inr dsnURI
      ∧ records ≡ₚ saved
      ∧ Forall2 (λ info record,
                   ∃ s, (runProviderFetch pm info dsnURI (FetchResponse.FetchId resp) opts).1.1
                        = Some s
                        ∧ createFetchSummary (FetchResponse.FetchId resp) (Some s)
                          = Returned record)
          (attempted opts) records.
Proof.
  intros Hrun.
  apply Fetch_anatomy in Hrun
    as (dsnURI & delivered & ss & _ & Hdsn & Hworkers & _ & _ & _ & _ & ->).
  apply delivered_workers in Hworkers.
  destruct (context.hasDeadline ctx) eqn:Hdl.
  - induction Hworkers as [|info [r records] infos ds' Hw _ IH]; [done|].
    rewrite fmap_cons. simpl. rewrite IH.
    apply fetchWorker_Returned in Hw as (_ & _ & Hrec). rewrite Hdl in Hrec. by subst.
  - exists dsnURI, (concat (delivered.*2)). split; [exact Hdsn|]. split; [done|].
    induction Hworkers as [|info [r records] infos ds' Hw _ IH]; [constructor|].
    rewrite fmap_cons. simpl.
    apply fetchWorker_Returned in Hw as (Hsum & _ & Hrec). rewrite Hdl in Hrec.
    destruct Hrec as (s & record & Hs & Hcreate & ->). simpl in *.
    constructor; [|exact IH].
    exists s. split; [congruence | done].
Qed.

(** X15. With a deadline on the context nothing is saved. Without one, the
    state client is handed one record for every attempted provider, the
    one [createFetchSummary] builds from the summary the runner returned
    for that provider; a failing save does not change this. The records
    are listed here in the order of the providers; the workers may save
    them in any order. *)
Theorem X15_one_record_per_attempted ctx sta storage pm opts (resp : FetchResponse.t)
    (ds : diag.Diagnostics) (saved : list state.FetchSummary) :
  Fetch ctx sta storage pm opts = Returned (Some resp, ds, saved) →
  if context.hasDeadline ctx then saved = []
  else
    ∃ (dsnURI : string) (records : list state.FetchSummary),
      parseDSN storage = inr dsnURI
      ∧ records ≡ₚ saved
      ∧ Forall2 (λ info record,
                   ∃ s, (runProviderFetch pm info dsnURI (FetchResponse.FetchId resp) opts).1.1
                        = Some s
                        ∧ createFetchSummary (FetchResponse.FetchId resp) (Some s)
                          = Returned record)
          (attempted opts) records.
Proof. apply saved_records. Qed.

(** What a worker adds to the diagnostics of its runner: nothing, or the
    [INTERNAL] diagnostic of a failed save. *)
Lemma fetchWorker_diags ctx sta pm opts (fetchId : uuid.UUID) (dsnURI : string) info
    (r : fetchResult.t) (records : list state.FetchSummary) :
  fetchWorker ctx sta pm opts fetchId dsnURI info = Returned (r, records) →
  ∃ extra,
    fetchResult.diags r = (runProviderFetch pm info dsnURI fetchId opts).1.2 ++ extra
    ∧ (extra = []
       ∨ context.hasDeadline ctx = false
         ∧ ∃ record err, state.SaveFetchSummary sta record = Some err
                         ∧ extra = [diag.mkDiagnostic diag.ERROR diag.INTERNAL (Some err)
                                      "" "" ""]).
Proof.
  unfold fetchWorker.
  destruct (runProviderFetch pm info dsnURI fetchId opts) as [[s d] calls]. simpl.
  destruct (context.hasDeadline ctx).
  - intros [= <- <-]. simpl. exists []. split; [by rewrite app_nil_r | by left].
  - destruct s as [s|]; [|done]. simpl.
    destruct (state.SaveFetchSummary sta _) as [err|] eqn:Hsave; intros [= <- <-]; simpl.
    + eexists. split; [reflexivity|]. right. split; [done|]. by eexists _, err.
    + exists []. split; [by rewrite app_nil_r | by left].
Qed.

(** X16. The diagnostics [Fetch] returns and the telemetry events of its
    response are the two parts into which the telemetry filter splits one
    list. That list holds all the diagnostics of the runner of every
    attempted provider and, besides them, only the [INTERNAL] diagnostics
    of failed saves: a skipped provider contributes nothing to it, the
    warning built for it wrapping a nil error. *)
Theorem X16_diagnostics_come_from_workers ctx sta storage pm opts
    (resp : FetchResponse.t) (ds : diag.Diagnostics) (saved : list state.FetchSummary) :
  Fetch ctx sta storage pm opts = Returned (Some resp, ds, saved) →
  ∃ (dsnURI : string) (workerDiags : diag.Diagnostics),
    parseDSN storage = inr dsnURI
    ∧ (FetchResponse.TelemetryEvents resp, ds) = FilterTelemetryEvents workerDiags
    ∧ (∀ info d, info ∈ attempted opts →
                 d ∈ (runProviderFetch pm info dsnURI (FetchResponse.FetchId resp) opts).1.2 →
                 d ∈ workerDiags)
    ∧ (∀ d, d ∈ workerDiags →
            (∃ info, info ∈ attempted opts
                     ∧ d ∈ (runProviderFetch pm info dsnURI (FetchResponse.FetchId resp)
                              opts).1.2)
            ∨ context.hasDeadline ctx = false
              ∧ ∃ record err, state.SaveFetchSummary sta record = Some err
                              ∧ d = diag.mkDiagnostic diag.ERROR diag.INTERNAL (Some err)
                                      "" "" "").
Proof.
  intros Hrun.
  apply Fetch_anatomy in Hrun
    as (dsnURI & delivered & ss & _ & Hdsn & Hworkers & _ & _ & _ & Hfilter & _).
  exists dsnURI, (concat (fetchResult.diags <$> arrival (delivered.*1))).
  split; [exact Hdsn|]. split; [exact Hfilter|].
  apply delivered_workers in Hworkers. split.
  - intros info d Hinfo Hd.
    apply list_elem_of_lookup in Hinfo as [i Hi].
    destruct (Forall2_lookup_l _ _ _ _ _ Hworkers Hi) as ([r records] & Hr & Hw).
    apply fetchWorker_diags in Hw as (extra & Hdiags & _). simpl in Hdiags.
    apply elem_of_concat. exists (fetchResult.diags r). split.
    + rewrite Hdiags. apply elem_of_app. by left.
    + apply list_elem_of_fmap_2. rewrite arrival_perm.
      apply list_elem_of_fmap. exists (r, records). split; [done|].
      by eapply list_elem_of_lookup_2.
  - intros d Hd. apply elem_of_concat in Hd as (ds' & Hd & Hds').
    apply list_elem_of_fmap in Hds' as (r & -> & Hr). rewrite arrival_perm in Hr.
    apply list_elem_of_fmap in Hr as ([r' records] & -> & Hr).
    apply list_elem_of_lookup in Hr as [i Hi].
    destruct (Forall2_lookup_r _ _ _ _ _ Hworkers Hi) as (info & Hinfo & Hw).
    apply fetchWorker_diags in Hw as (extra & Hdiags & Hextra). simpl in *.
    rewrite Hdiags in Hd. apply elem_of_app in Hd as [Hd|Hd].
    + left. exists info. split; [by eapply list_elem_of_lookup_2 | done].
    + right. destruct Hextra as [->|(Hdl & record & err & Hsave & ->)];
        [by apply elem_of_nil in Hd|].
      apply list_elem_of_singleton in Hd as ->. split; [done|]. by exists record, err.
Qed.

(** X17. When every provider of the options is configured with no
    resources, [Fetch] contacts no plugin and saves nothing: it returns a
    response with no summary and no rows, and what the telemetry filter
    makes of the empty list of diagnostics. No warning about the skipped
    providers is among them. *)
Theorem X17_nothing_to_fetch ctx sta storage pm opts (fetchId : uuid.UUID)
    (dsnURI : string) :
  fetchIdFor opts = inr fetchId →
  parseDSN storage = inr dsnURI →
  Forall (λ info, config.Resources (Config info) = []) (ProvidersInfo opts) →
  Fetch ctx sta storage pm opts
  = Returned
      (Some (FetchResponse.mk fetchId ∅ 0 (FilterTelemetryEvents []).1),
       (FilterTelemetryEvents []).2,
       []).
Proof.
  intros Hid Hdsn Hall. unfold Fetch. unfold fetchIdFor in Hid. rewrite Hid, Hdsn.
  assert (Hlaunch : launch (ProvidersInfo opts) [] = ([], [])).
  { generalize (@nil diag.Diagnostic).
    induction Hall as [|info infos Hinfo _ IH]; intros diags; [done|].
    cbn [launch]. rewrite Hinfo. simpl.
    unfold diag.Add. rewrite app_nil_r. apply IH. }
  rewrite Hlaunch. simpl.
  assert (Hnil : arrival [] = []) by (apply Permutation_nil_r, arrival_perm).
  rewrite Hnil. simpl.
  by destruct (FilterTelemetryEvents _).
Qed.

(** The entries of the response when the display keys are distinct. *)
Lemma response_entries_of_runners ctx sta storage pm opts (resp : FetchResponse.t)
    (ds : diag.Diagnostics) (saved : list state.FetchSummary) :
  Fetch ctx sta storage pm opts = Returned (Some resp, ds, saved) →
  NoDup (displayKey <$> attempted opts) →
  ∃ dsnURI : string,
    parseDSN storage = inr dsnURI
    ∧ size (FetchResponse.ProviderFetchSummary resp) = length (attempted opts)
    ∧ ∀ info, info ∈ attempted opts →
              FetchResponse.ProviderFetchSummary resp !! displayKey info
              = (runProviderFetch pm info dsnURI (FetchResponse.FetchId resp) opts).1.1.
Proof.
  intros Hrun Hdistinct.
  apply Fetch_anatomy in Hrun
    as (dsnURI & delivered & ss & _ & Hdsn & Hworkers & Hss & Hmap & _).
  exists dsnURI. split; [exact Hdsn|].
  pose proof (delivered_display_keys _ _ _ _ _ _ _ _ Hworkers Hss) as Hkeys.
  pose proof (delivered_keys _ _ _ _ _ _ _ _ Hworkers (summaries_all_Some _ _ Hss))
    as Hrunners.
  assert (Hnd : NoDup (ProviderFetchSummary.String <$> ss)) by (by rewrite Hkeys).
  pose proof (foldl_insert_to_list ∅ ss Hnd (λ s _, lookup_empty _)) as Hlist.
  rewrite map_to_list_empty, app_nil_r, <- Hmap in Hlist.
  split.
  - rewrite <- length_map_to_list, Hlist, length_fmap.
    rewrite <- (length_fmap ProviderFetchSummary.String), Hkeys. by rewrite length_fmap.
  - intros info Hinfo.
    apply list_elem_of_lookup in Hinfo as [i Hi].
    destruct (Forall2_lookup_l _ _ _ _ _ Hrunners Hi) as (r & Hr & s & Hs & Hrun & Hkey).
    rewrite Hrun, <- Hkey. apply elem_of_map_to_list. rewrite Hlist.
    apply (list_elem_of_fmap_2 (λ s, (ProviderFetchSummary.String s, s))).
    assert (Hin : Some s ∈ fetchResult.summary <$> arrival (delivered.*1)).
    { rewrite arrival_perm, <- Hs. apply list_elem_of_fmap_2.
      by eapply list_elem_of_lookup_2. }
    rewrite Hss in Hin. apply list_elem_of_fmap in Hin as (s' & [= ->] & Hin). done.
Qed.

(** X19. When the display strings of the attempted providers are pairwise
    distinct, the response has exactly one entry for every attempted
    provider, and the entry filed under the display key of a provider is
    the summary the runner returned for that provider. *)
Theorem X19_entries_are_runner_summaries ctx sta storage pm opts (resp : FetchResponse.t)
    (ds : diag.Diagnostics) (saved : list state.FetchSummary) :
  Fetch ctx sta storage pm opts = Returned (Some resp, ds, saved) →
  NoDup (displayKey <$> attempted opts) →
  ∃ dsnURI : string,
    parseDSN storage = inr dsnURI
    ∧ size (FetchResponse.ProviderFetchSummary resp) = length (attempted opts)
    ∧ ∀ info, info ∈ attempted opts →
              FetchResponse.ProviderFetchSummary resp !! displayKey info
              = (runProviderFetch pm info dsnURI (FetchResponse.FetchId resp) opts).1.1.
Proof. apply response_entries_of_runners. Qed.

End OneSchedule.

Lemma join_fmap_Returned {A : Type} (l : list A) : join (Returned <$> l) = Returned l.
Proof. induction l as [|a l IH]; [done|]. rewrite fmap_cons. simpl. by rewrite IH. Qed.

(** X18. The order in which the workers deliver their results does not
    change what [Fetch] saves, nor the identifier and the total of the
    response; when the display strings of the attempted providers are
    pairwise distinct it does not change the summaries of the response
    either. *)
Theorem X18_delivery_order_irrelevant (SC1 SC2 : Schedule) ctx sta storage pm opts
    (resp : FetchResponse.t) (ds : diag.Diagnostics) (saved : list state.FetchSummary) :
  Fetch (SC:=SC1) ctx sta storage pm opts = Returned (Some resp, ds, saved) →
  ∃ (resp' : FetchResponse.t) (ds' : diag.Diagnostics),
    Fetch (SC:=SC2) ctx sta storage pm opts = Returned (Some resp', ds', saved)
    ∧ FetchResponse.FetchId resp' = FetchResponse.FetchId resp
    ∧ FetchResponse.TotalFetched resp' = FetchResponse.TotalFetched resp
    ∧ (NoDup (displayKey <$> attempted opts) →
       FetchResponse.ProviderFetchSummary resp' = FetchResponse.ProviderFetchSummary resp).
Proof.
  intros Hrun.
  apply (Fetch_anatomy (SC:=SC1)) in Hrun
    as (dsnURI & delivered & ss & Hid & Hdsn & Hworkers & Hss & Hmap & Htot & _ & ->).
  pose proof (summaries_all_Some (SC:=SC1) _ _ Hss) as Hall.
  assert (Hall2 : Forall (λ r, is_Some (fetchResult.summary r))
                    (arrival (Schedule:=SC2) (delivered.*1)))
    by (by rewrite arrival_perm).
  pose proof (fmap_Some_of_Forall _ _ Hall2) as Hss2.
  set (ss2 := omap fetchResult.summary (arrival (Schedule:=SC2) (delivered.*1))) in *.
  assert (Hperm : ss2 ≡ₚ ss).
  { unfold ss2. rewrite <- (omap_of_fmap_Some _ _ _ Hss).
    apply omap_Permutation. by rewrite !arrival_perm. }
  unfold Fetch. unfold fetchIdFor in Hid. rewrite Hid, Hdsn.
  unfold attempted in Hworkers.
  destruct (launch (ProvidersInfo opts) []) as [diags started] eqn:Hlaunch.
  simpl in Hworkers. rewrite Hworkers, join_fmap_Returned.
  destruct (drain_succeeds (arrival (Schedule:=SC2) (delivered.*1))
              (FetchResponse.mk (FetchResponse.FetchId resp) ∅ 0 []) diags Hall2)
    as (response & diags' & Hdrain).
  rewrite Hdrain.
  pose proof (drain_header _ _ _ _ _ Hdrain) as [Hid2 _].
  apply drain_Returned in Hdrain as (ss' & Hss' & Hmap2 & Htot2 & _).
  assert (ss' = ss2) as ->.
  { rewrite Hss2 in Hss'. by apply (inj (fmap Some)) in Hss'. }
  destruct (FilterTelemetryEvents diags') as [events filtered].
  eexists _, _. split; [reflexivity|]. simpl in *.
  split; [exact Hid2|]. split.
  - rewrite Htot, Htot2, !foldl_total, !fold_add64 by (unfold uint64_modulus; lia).
    f_equal. f_equal. apply sum_Permutation. by rewrite Hperm.
  - intros Hdistinct.
    assert (Hkeys : ProviderFetchSummary.String <$> ss ≡ₚ displayKey <$> attempted opts).
    { apply (delivered_display_keys (SC:=SC1) ctx sta pm opts (FetchResponse.FetchId resp)
               dsnURI delivered ss); [|done].
      unfold attempted. by rewrite Hlaunch. }
    assert (Hnd : NoDup (ProviderFetchSummary.String <$> ss)) by (by rewrite Hkeys).
    assert (Hnd2 : NoDup (ProviderFetchSummary.String <$> ss2)) by (by rewrite Hperm).
    apply map_to_list_inj. rewrite Hmap, Hmap2.
    rewrite (foldl_insert_to_list ∅ ss Hnd (λ s _, lookup_empty _)).
    rewrite (foldl_insert_to_list ∅ ss2 Hnd2 (λ s _, lookup_empty _)).
    by rewrite Hperm.
Qed.

End OrchestratorCoverage.

(** Witness of X13: with a DSN parser that rejects the connection string,
    [Fetch] returns no response, also for a provider whose plugin cannot be
    instantiated. *)
Lemma X13_no_response_iff_no_id_or_dsn_witness :
  Fetch (CO:=strictDSNCollaborators) background sampleState sampleStorage sampleManager
    (sampleOptions [sampleProvider "broken" "" ["ec2"]])
  = Returned (None, diag.FromError (Some "invalid connection string") diag.INTERNAL [], []).
Proof.
  apply (proj2 (X13_no_response_iff_no_id_or_dsn (CO:=strictDSNCollaborators)
                  background sampleState sampleStorage sampleManager
                  (sampleOptions [sampleProvider "broken" "" ["ec2"]]) _ _)).
  exists "invalid connection string".
  split; [right; split; [by exists 7%N | reflexivity] | by split].
Defined.

(** Witness of X14: the options carry the identifier 7. *)
Lemma X14_fetch_id_propagated_witness :
  ∃ resp ds saved,
    Fetch background sampleState sampleStorage sampleManager
      (sampleOptions [sampleProvider "aws" "" ["ec2"]; sampleProvider "slow" "" ["s3"]])
    = Returned (Some resp, ds, saved)
    ∧ FetchResponse.FetchId resp = 7%N
    ∧ length saved = 2%nat
    ∧ Forall (λ record, state.FetchId record = FetchResponse.FetchId resp
                        ∧ state.CoreVersion record = Version) saved.
Proof.
  destruct (Fetch background sampleState sampleStorage sampleManager
      (sampleOptions [sampleProvider "aws" "" ["ec2"]; sampleProvider "slow" "" ["s3"]]))
    as [[[[resp|] ds] saved]|] eqn:Hrun; try (by vm_compute in Hrun).
  exists resp, ds, saved. split; [reflexivity|].
  pose proof (X14_fetch_id_propagated _ _ _ _ _ _ _ _ Hrun) as (_ & Hid & Hsaved).
  split; [by apply Hid|]. split; [|exact Hsaved].
  vm_compute in Hrun. by injection Hrun as _ _ <-.
Defined.

(** Witness of X15: without a deadline, two providers, two records. *)
Lemma X15_one_record_per_attempted_witness :
  ∃ resp ds saved,
    Fetch background sampleState sampleStorage sampleManager
      (sampleOptions [sampleProvider "aws" "" ["ec2"]; sampleProvider "offline" "" ["s3"]])
    = Returned (Some resp, ds, saved)
    ∧ ∃ (dsnURI : string) (records : list state.FetchSummary),
        parseDSN sampleStorage = inr dsnURI
        ∧ records ≡ₚ saved
        ∧ Forall2 (λ info record,
                     ∃ s, (runProviderFetch sampleManager info dsnURI
                             (FetchResponse.FetchId resp)
                             (sampleOptions [sampleProvider "aws" "" ["ec2"];
                                             sampleProvider "offline" "" ["s3"]])).1.1
                          = Some s
                          ∧ createFetchSummary (FetchResponse.FetchId resp) (Some s)
                            = Returned record)
            (attempted (sampleOptions [sampleProvider "aws" "" ["ec2"];
                                       sampleProvider "offline" "" ["s3"]]))
            records.
Proof.
  destruct (Fetch background sampleState sampleStorage sampleManager
      (sampleOptions [sampleProvider "aws" "" ["ec2"]; sampleProvider "offline" "" ["s3"]]))
    as [[[[resp|] ds] saved]|] eqn:Hrun; try (by vm_compute in Hrun).
  exists resp, ds, saved. split; [reflexivity|].
  exact (X15_one_record_per_attempted background _ _ _ _ _ _ _ Hrun).
Defined.

(** Witness of X16: one skipped provider and one attempted, whose message
    carries an error; the diagnostics are those of the attempted one. *)
Lemma X16_diagnostics_come_from_workers_witness :
  ∃ resp ds saved,
    Fetch background sampleState sampleStorage sampleManager
      (sampleOptions [sampleProvider "gcp" "" []; sampleProvider "aws" "" ["ec2"]])
    = Returned (Some resp, ds, saved)
    ∧ ds = (runProviderFetch sampleManager (sampleProvider "aws" "" ["ec2"])
              "postgres://localhost/cq" 7%N
              (sampleOptions [sampleProvider "gcp" "" [];
                              sampleProvider "aws" "" ["ec2"]])).1.2
    ∧ ∃ (dsnURI : string) (workerDiags : diag.Diagnostics),
        parseDSN sampleStorage = inr dsnURI
        ∧ (FetchResponse.TelemetryEvents resp, ds) = FilterTelemetryEvents workerDiags.
Proof.
  destruct (Fetch background sampleState sampleStorage sampleManager
      (sampleOptions [sampleProvider "gcp" "" []; sampleProvider "aws" "" ["ec2"]]))
    as [[[[resp|] ds] saved]|] eqn:Hrun; try (by vm_compute in Hrun).
  exists resp, ds, saved. split; [reflexivity|]. split.
  - vm_compute in Hrun. injection Hrun as _ <- _. by vm_compute.
  - destruct (X16_diagnostics_come_from_workers _ _ _ _ _ _ _ _ Hrun)
      as (dsnURI & workerDiags & Hdsn & Hfilter & _).
    by exists dsnURI, workerDiags.
Defined.

(** Witness of X17: two providers, neither with resources; the manager
    would fail to instantiate the plugin of the first. *)
Lemma X17_nothing_to_fetch_witness :
  Forall (λ info, config.Resources (Config info) = [])
    [sampleProvider "broken" "" []; sampleProvider "aws" "" []]
  ∧ Fetch background sampleState sampleStorage sampleManager
      (sampleOptions [sampleProvider "broken" "" []; sampleProvider "aws" "" []])
    = Returned (Some (FetchResponse.mk 7%N ∅ 0 []), [], []).
Proof.
  assert (Hall : Forall (λ info, config.Resources (Config info) = [])
                   [sampleProvider "broken" "" []; sampleProvider "aws" "" []])
    by (by repeat constructor).
  split; [exact Hall|].
  assert (Hdsn : parseDSN sampleStorage = inr "postgres://localhost/cq") by reflexivity.
  exact (X17_nothing_to_fetch background sampleState sampleStorage sampleManager
           (sampleOptions [sampleProvider "broken" "" []; sampleProvider "aws" "" []])
           7%N "postgres://localhost/cq" eq_refl Hdsn Hall).
Defined.

(** Witness of X18: delivery in the order of the providers and in the
    reverse order. *)
Lemma X18_delivery_order_irrelevant_witness :
  ∃ resp ds saved resp' ds',
    Fetch (SC:=inProviderOrder) background sampleState sampleStorage sampleManager
      (sampleOptions [sampleProvider "aws" "" ["ec2"]; sampleProvider "slow" "" ["s3"]])
    = Returned (Some resp, ds, saved)
    ∧ Fetch (SC:=inReverseOrder) background sampleState sampleStorage sampleManager
        (sampleOptions [sampleProvider "aws" "" ["ec2"]; sampleProvider "slow" "" ["s3"]])
      = Returned (Some resp', ds', saved)
    ∧ FetchResponse.TotalFetched resp' = FetchResponse.TotalFetched resp.
Proof.
  destruct (Fetch (SC:=inProviderOrder) background sampleState sampleStorage sampleManager
      (sampleOptions [sampleProvider "aws" "" ["ec2"]; sampleProvider "slow" "" ["s3"]]))
    as [[[[resp|] ds] saved]|] eqn:Hrun; try (by vm_compute in Hrun).
  destruct (X18_delivery_order_irrelevant inProviderOrder inReverseOrder _ _ _ _ _ _ _ _ Hrun)
    as (resp' & ds' & Hrun' & _ & Htot & _).
  by exists resp, ds, saved, resp', ds'.
Defined.

(** Witness of X19: two providers under the distinct keys [aws] and
    [aws(eu)]. *)
Lemma X19_entries_are_runner_summaries_witness :
  ∃ resp ds saved,
    Fetch background sampleState sampleStorage sampleManager
      (sampleOptions [sampleProvider "aws" "" ["ec2"]; sampleProvider "aws" "eu" ["s3"]])
    = Returned (Some resp, ds, saved)
    ∧ NoDup (displayKey <$> attempted
               (sampleOptions [sampleProvider "aws" "" ["ec2"];
                               sampleProvider "aws" "eu" ["s3"]]))
    ∧ size (FetchResponse.ProviderFetchSummary resp) = 2%nat.
Proof.
  destruct (Fetch background sampleState sampleStorage sampleManager
      (sampleOptions [sampleProvider "aws" "" ["ec2"]; sampleProvider "aws" "eu" ["s3"]]))
    as [[[[resp|] ds] saved]|] eqn:Hrun; try (by vm_compute in Hrun).
  assert (Hnd : NoDup (displayKey <$> attempted
               (sampleOptions [sampleProvider "aws" "" ["ec2"];
                               sampleProvider "aws" "eu" ["s3"]]))).
  { replace (displayKey <$> attempted _) with ["aws"; "aws(eu)"] by (by vm_compute).
    apply NoDup_cons. split; [|apply NoDup_singleton].
    by rewrite list_elem_of_singleton. }
  exists resp, ds, saved. split; [reflexivity|]. split; [exact Hnd|].
  destruct (X19_entries_are_runner_summaries _ _ _ _ _ _ _ _ Hrun Hnd)
    as (dsnURI & _ & Hsize & _).
  exact Hsize.
Defined.

(** ** Progress updates and the error flag of a response *)

Section ProgressAndErrors.

Context `{MR : MapRange} `{CO : Collaborators} `{SC : Schedule}.

Implicit Types (f : FetchUpdate.t) (fr : FetchResponse.t).

(** X20. [AllDone] holds exactly when no resource of the update is marked
    unfinished, which is exactly when [DoneCount] is the number of
    resources of the update; [DoneCount] never exceeds that number, and an
    update without resources is all done. *)
Theorem X20_all_done_iff_done_count f :
  (FetchUpdate.AllDone f = true
   ↔ ∀ name done, FetchUpdate.FinishedResources f !! name = Some done → done = true)
  ∧ (FetchUpdate.AllDone f = true
     ↔ FetchUpdate.DoneCount f = Z.of_nat (size (FetchUpdate.FinishedResources f)))
  ∧ 0 ≤ FetchUpdate.DoneCount f ≤ Z.of_nat (size (FetchUpdate.FinishedResources f)).
Proof.
  unfold FetchUpdate.AllDone, FetchUpdate.DoneCount.
  rewrite <- length_map_to_list.
  set (l := map_to_list (FetchUpdate.FinishedResources f)).
  split; [|split].
  - rewrite forallb_forall. split.
    + intros Hall name done Hlk.
      apply elem_of_map_to_list, list_elem_of_In in Hlk. exact (Hall _ Hlk).
    + intros Hall [name done] Hin. simpl.
      apply list_elem_of_In, elem_of_map_to_list in Hin. by apply (Hall name).
  - split.
    + intros Hall. by rewrite forallb_filter_id.
    + intros Hlen. apply filter_length_forallb. lia.
  - pose proof (filter_length_le (λ kv : string * bool, kv.2) l). lia.
Qed.

(** X21. A response has errors exactly when the entry of some resource of
    some provider summary holds diagnostics with errors. *)
Theorem X21_response_has_errors_iff fr :
  FetchResponse.HasErrors fr = true
  ↔ ∃ key p name r,
      FetchResponse.ProviderFetchSummary fr !! key = Some p
      ∧ ProviderFetchSummary.FetchedResources p !! name = Some r
      ∧ diag.HasErrors (ResourceFetchSummary.Diagnostics r) = true.
Proof.
  unfold FetchResponse.HasErrors. rewrite existsb_exists. split.
  - intros ([key p] & Hin & Herr). simpl in Herr.
    apply list_elem_of_In, elem_of_map_to_list in Hin.
    unfold ProviderFetchSummary.Diagnostics in Herr.
    assert (Hsome : ∃ kv, kv ∈ map_to_list (ProviderFetchSummary.FetchedResources p)
                          ∧ diag.HasErrors (ResourceFetchSummary.Diagnostics kv.2) = true).
    { induction (map_to_list (ProviderFetchSummary.FetchedResources p)) as [|kv l IH];
        [done|].
      rewrite fmap_cons in Herr. simpl in Herr. rewrite HasErrors_app in Herr.
      apply orb_true_iff in Herr as [Herr|Herr].
      - exists kv. split; [apply list_elem_of_here | done].
      - destruct (IH Herr) as (kv' & Hin' & Herr'). exists kv'.
        split; [by apply list_elem_of_further | done]. }
    destruct Hsome as ([name r] & Hin' & Herr'). apply elem_of_map_to_list in Hin'.
    by exists key, p, name, r.
  - intros (key & p & name & r & Hp & Hr & Herr).
    exists (key, p). split; [by apply list_elem_of_In, elem_of_map_to_list|]. simpl.
    unfold ProviderFetchSummary.Diagnostics.
    apply elem_of_map_to_list in Hr.
    induction (map_to_list (ProviderFetchSummary.FetchedResources p)) as [|kv l IH];
      [by apply elem_of_nil in Hr|].
    rewrite fmap_cons. simpl. rewrite HasErrors_app. apply orb_true_iff.
    apply elem_of_cons in Hr as [<-|Hr]; [by left | right; by apply IH].
Qed.

(** X22. In a run without a deadline in which the display strings of the
    attempted providers are pairwise distinct, the response has errors
    exactly when one of the saved records is marked as not successful. *)
Theorem X22_response_errors_match_saved_records (ctx : context.Context)
    (sta : state.Client) (storage : database.Storage) (pm : plugin.Manager)
    (opts : FetchOptions) (resp : FetchResponse.t) (ds : diag.Diagnostics)
    (saved : list state.FetchSummary) :
  Fetch ctx sta storage pm opts = Returned (Some resp, ds, saved) →
  context.hasDeadline ctx = false →
  NoDup (displayKey <$> attempted opts) →
  FetchResponse.HasErrors resp = true
  ↔ ∃ record, record ∈ saved ∧ state.IsSuccess record = false.
Proof.
  intros Hrun Hdl Hdistinct.
  pose proof (saved_records _ _ _ _ _ _ _ _ Hrun) as Hsaved. rewrite Hdl in Hsaved.
  destruct Hsaved as (dsnURI & records & Hdsn & Hperm & Hrecords).
  destruct (response_entries_of_runners _ _ _ _ _ _ _ _ Hrun Hdistinct)
    as (dsnURI' & Hdsn' & _ & Hentries).
  assert (dsnURI' = dsnURI) as -> by congruence.
  pose proof (Fetch_response_entries _ _ _ _ _ _ _ _ Hrun) as [_ Honly].
  unfold FetchResponse.HasErrors. rewrite existsb_exists. split.
  - intros ([key p] & Hin & Herr). simpl in Herr.
    apply list_elem_of_In, elem_of_map_to_list in Hin.
    destruct (Honly _ _ Hin) as [Hkey _].
    apply list_elem_of_fmap in Hkey as (info & -> & Hinfo).
    pose proof (Hentries info Hinfo) as Hentry. rewrite Hin in Hentry.
    apply list_elem_of_lookup in Hinfo as [i Hi].
    destruct (Forall2_lookup_l _ _ _ _ _ Hrecords Hi) as (record & Hr & s & Hs & Hcreate).
    assert (s = p) as -> by congruence.
    exists record. split.
    + rewrite <- Hperm. by eapply list_elem_of_lookup_2.
    + simpl in Hcreate. injection Hcreate as <-. simpl. by rewrite Herr.
  - intros (record & Hin & Hfail). rewrite <- Hperm in Hin.
    apply list_elem_of_lookup in Hin as [i Hi].
    destruct (Forall2_lookup_r _ _ _ _ _ Hrecords Hi) as (info & Hinfo & s & Hs & Hcreate).
    apply list_elem_of_lookup_2 in Hinfo.
    exists (displayKey info, s). split.
    + apply list_elem_of_In, elem_of_map_to_list. by rewrite (Hentries info Hinfo).
    + simpl in *. injection Hcreate as <-. simpl in Hfail.
      by apply negb_false_iff in Hfail.
Qed.

End ProgressAndErrors.

(** Witness of X22: the one message of [aws] carries an error diagnostic. *)
Lemma X22_response_errors_match_saved_records_witness :
  ∃ resp ds saved,
    Fetch background sampleState sampleStorage sampleManager
      (sampleOptions [sampleProvider "aws" "" ["ec2"]])
    = Returned (Some resp, ds, saved)
    ∧ FetchResponse.HasErrors resp = true
    ∧ ∃ record, record ∈ saved ∧ state.IsSuccess record = false.
Proof.
  destruct (Fetch background sampleState sampleStorage sampleManager
      (sampleOptions [sampleProvider "aws" "" ["ec2"]]))
    as [[[[resp|] ds] saved]|] eqn:Hrun; try (by vm_compute in Hrun).
  assert (Hnd : NoDup (displayKey <$> attempted
                         (sampleOptions [sampleProvider "aws" "" ["ec2"]]))).
  { replace (displayKey <$> attempted _) with ["aws"] by (by vm_compute).
    apply NoDup_singleton. }
  assert (Herr : FetchResponse.HasErrors resp = true).
  { vm_compute in Hrun. injection Hrun as <- _ _. by vm_compute. }
  exists resp, ds, saved. split; [reflexivity|]. split; [exact Herr|].
  exact (proj1 (X22_response_errors_match_saved_records _ _ _ _ _ _ _ _ Hrun eq_refl Hnd)
           Herr).
Defined.

(** ** The configuration parser *)

Section ProviderBlocks.

Implicit Types (provider : config.Provider) (blocks : list config.Provider).
Implicit Types (providers : list (option config.Provider)).
Implicit Types (existing : gmap string bool) (diags : diag.Diagnostics).

(** A slice of pointers holds a nil entry, or is a list of objects. *)
Lemma entries_cases {A : Type} (l : list (option A)) :
  (∃ xs, l = Some <$> xs) ∨ None ∈ l.
Proof.
  induction l as [|[a|] l IH].
  - left. by exists [].
  - destruct IH as [[xs ->]|Hnil].
    + left. by exists (a :: xs).
    + right. by apply list_elem_of_further.
  - right. apply list_elem_of_here.
Qed.

Lemma no_nil_entry {A : Type} (xs : list A) : None ∉ (Some <$> xs).
Proof. intros Hin. by apply list_elem_of_fmap in Hin as (x & Hx & _). Qed.

Lemma validateProvidersBlockLoop_step provider providers existing diags :
  validateProvidersBlockLoop (Some provider :: providers) existing diags
  = match existing !! providerKey provider with
    | Some _ =>
        validateProvidersBlockLoop providers existing
          (diags ++ (if bool_decide (config.Alias provider ≠ "")
                     then duplicateAlias provider else aliasRequired provider))
    | None =>
        validateProvidersBlockLoop providers (<[providerKey provider := true]> existing) diags
    end.
Proof. simpl. unfold providerKey, diag.Add. by case_bool_decide. Qed.

Lemma validateProvidersBlockLoop_nil_entry providers existing diags :
  None ∈ providers → validateProvidersBlockLoop providers existing diags = Panicked.
Proof.
  revert existing diags. induction providers as [|[provider|] providers IH];
    intros existing diags Hin; [by apply elem_of_nil in Hin | | done].
  apply elem_of_cons in Hin as [Hin|Hin]; [done|].
  rewrite validateProvidersBlockLoop_step.
  destruct (existing !! providerKey provider); by apply IH.
Qed.

Lemma blockDiag_user provider :
  Forall diag.isUserError
    (if bool_decide (config.Alias provider ≠ "")
     then duplicateAlias provider else aliasRequired provider).
Proof. case_bool_decide; by repeat constructor. Qed.

(** The loop of [validateProvidersBlock] on a slice without nil entries. *)
Lemma validateProvidersBlockLoop_blocks blocks existing diags :
  ∃ more,
    validateProvidersBlockLoop (Some <$> blocks) existing diags = Returned (diags ++ more)
    ∧ Forall diag.isUserError more
    ∧ (more = [] ↔ NoDup (providerKey <$> blocks)
                   ∧ Forall (λ provider, existing !! providerKey provider = None) blocks)
    ∧ (length more
       + size ((list_to_set (providerKey <$> blocks) : gset string) ∖ dom existing)
       = length blocks)%nat.
Proof.
  revert existing diags. induction blocks as [|provider blocks IH]; intros existing diags.
  - exists []. simpl. rewrite app_nil_r. split; [done|]. split; [constructor|]. split.
    + split; [intros _; split; constructor | done].
    + replace ((∅ : gset string) ∖ dom existing) with (∅ : gset string) by set_solver.
      by rewrite size_empty.
  - rewrite fmap_cons, validateProvidersBlockLoop_step, fmap_cons.
    destruct (existing !! providerKey provider) eqn:Hlk.
    + destruct (IH existing
                  (diags ++ (if bool_decide (config.Alias provider ≠ "")
                             then duplicateAlias provider else aliasRequired provider)))
        as (more & Hrun & Huser & _ & Hcount).
      exists ((if bool_decide (config.Alias provider ≠ "")
               then duplicateAlias provider else aliasRequired provider) ++ more).
      split; [by rewrite Hrun, app_assoc|].
      split; [apply Forall_app; split; [apply blockDiag_user | done]|].
      split.
      * split; [|by rewrite Forall_cons, Hlk; intros [_ [? _]]].
        intros Hnil. apply app_eq_nil in Hnil as [Hnil _]. by case_bool_decide.
      * assert (Hin : providerKey provider ∈ dom existing) by (by apply elem_of_dom).
        replace (list_to_set (providerKey provider :: (providerKey <$> blocks))
                 ∖ dom existing)
          with ((list_to_set (providerKey <$> blocks) : gset string) ∖ dom existing)
          by set_solver.
        assert (Hone : length (if bool_decide (config.Alias provider ≠ "")
                               then duplicateAlias provider else aliasRequired provider)
                       = 1%nat) by (by case_bool_decide).
        rewrite length_app, Hone. simpl. lia.
    + destruct (IH (<[providerKey provider := true]> existing) diags)
        as (more & Hrun & Huser & Hnil & Hcount).
      exists more. split; [exact Hrun|]. split; [exact Huser|]. split.
      * rewrite Hnil, NoDup_cons, Forall_cons. split.
        -- intros [Hnd Hall]. split; [split; [|done] | split; [done|]].
           ++ rewrite list_elem_of_fmap. intros (q & Hq & Hin).
              rewrite Forall_forall in Hall. specialize (Hall q Hin).
              by rewrite <- Hq, lookup_insert_eq in Hall.
           ++ eapply Forall_impl; [exact Hall|]. intros q Hq. simpl in Hq.
              destruct (decide (providerKey provider = providerKey q)) as [Heq|Hne].
              ** by rewrite <- Heq, lookup_insert_eq in Hq.
              ** by rewrite lookup_insert_ne in Hq.
        -- intros [[Hnotin Hnd] [_ Hall]]. split; [done|].
           rewrite Forall_forall in Hall. apply Forall_forall. intros q Hin.
           rewrite lookup_insert_ne; [by apply Hall|].
           intros Heq. apply Hnotin. rewrite Heq. by apply list_elem_of_fmap_2.
      * assert (Hnotin : providerKey provider ∉ dom existing) by (by apply not_elem_of_dom).
        rewrite dom_insert_L in Hcount.
        replace (list_to_set (providerKey provider :: (providerKey <$> blocks))
                 ∖ dom existing)
          with ({[providerKey provider]}
                ∪ (list_to_set (providerKey <$> blocks) : gset string)
                  ∖ ({[providerKey provider]} ∪ dom existing)).
        -- rewrite size_union by set_solver. rewrite size_singleton. simpl. lia.
        -- apply set_eq. intros x. rewrite list_to_set_cons.
           destruct (decide (x = providerKey provider)) as [->|Hne]; set_solver.
Qed.

(** [validateProvidersBlock] on a configuration whose provider blocks are
    all there. *)
Lemma validateProvidersBlock_blocks (c : Config.t) blocks :
  Config.Providers c = Some <$> blocks →
  ∃ bdiags,
    validateProvidersBlock c = Returned bdiags
    ∧ Forall diag.isUserError bdiags
    ∧ (bdiags = [] ↔ NoDup (providerKey <$> blocks))
    ∧ (length bdiags + size (list_to_set (providerKey <$> blocks) : gset string)
       = length blocks)%nat.
Proof.
  intros Hblocks. unfold validateProvidersBlock. rewrite Hblocks.
  destruct (validateProvidersBlockLoop_blocks blocks ∅ [])
    as (more & Hrun & Huser & Hnil & Hcount).
  exists more. split; [exact Hrun|]. split; [exact Huser|]. split.
  - rewrite Hnil. split; [by intros [? _]|]. intros Hnd. split; [done|].
    apply Forall_forall. intros provider _. apply lookup_empty.
  - rewrite dom_empty_L, difference_empty_L in Hcount. exact Hcount.
Qed.


End ProviderBlocks.

Section ConfigProcessing.

Context `{CE : ConfigEnvironment}.

Implicit Types (cp : RequiredProvider.t) (required : list RequiredProvider.t).
Implicit Types (connection : Connection.t) (diags : diag.Diagnostics) (c : Config.t).
Implicit Types (blocks : list config.Provider).

Lemma validateCloudQueryProvidersLoop_nil_entry (entries : list (option RequiredProvider.t))
    diags :
  None ∈ entries → validateCloudQueryProvidersLoop entries diags = Panicked.
Proof.
  revert diags. induction entries as [|[cp|] entries IH]; intros diags Hin;
    [by apply elem_of_nil in Hin | | done].
  apply elem_of_cons in Hin as [Hin|Hin]; [done|]. simpl.
  destruct (isVersionLatest _); [by apply IH|].
  destruct (ParseVersion _); by apply IH.
Qed.

(** The loop of [validateCloudQueryProviders] on a slice without nil
    entries. *)
Lemma validateCloudQueryProvidersLoop_entries required diags :
  ∃ more,
    validateCloudQueryProvidersLoop (Some <$> required) diags = Returned (diags ++ more)
    ∧ Forall diag.isUserError more
    ∧ (more = [] ↔ Forall acceptable required).
Proof.
  revert diags. induction required as [|cp required IH]; intros diags.
  - exists []. simpl. by rewrite app_nil_r.
  - rewrite fmap_cons. cbn [validateCloudQueryProvidersLoop]. unfold isVersionLatest at 1.
    case_bool_decide as Hlatest.
    + destruct (IH diags) as (more & Hrun & Huser & Hnil).
      exists more. split; [exact Hrun|]. split; [exact Huser|].
      rewrite Forall_cons, Hnil.
      split; [intros ?; split; [by left | done] | by intros [_ ?]].
    + destruct (ParseVersion _) as [err|ver] eqn:Hparse.
      * destruct (IH (diag.Add diags (invalidVersion cp))) as (more & Hrun & Huser & _).
        exists (invalidVersion cp ++ more).
        split; [rewrite Hrun; unfold diag.Add; by rewrite app_assoc|].
        split; [apply Forall_app; split; [by repeat constructor | done]|].
        rewrite Forall_cons. split; [done|]. intros [[Hl|[ver Hver]] _]; [done|].
        congruence.
      * destruct (IH diags) as (more & Hrun & Huser & Hnil).
        exists more. split; [exact Hrun|]. split; [exact Huser|].
        rewrite Forall_cons, Hnil.
        split; [intros ?; split; [right; by eexists | done] | by intros [_ ?]].
Qed.


Lemma normalizeVersions_accepted required :
  Forall acceptable required →
  ∃ required',
    normalizeVersions (Some <$> required) = Returned (Some <$> required')
    ∧ Forall2 versionNormalized required required'.
Proof.
  induction 1 as [|cp required Hcp _ (required' & Hrun & Hrel)].
  - exists []. split; [done | constructor].
  - rewrite fmap_cons. simpl. unfold isVersionLatest. rewrite Hrun.
    case_bool_decide as Hlatest.
    + exists (cp :: required'). split; [done|]. constructor; [|done]. split; [done|].
      by left.
    + destruct Hcp as [Hl|[ver Hver]]; [done|]. rewrite Hver.
      exists (RequiredProvider.mk (RequiredProvider.Name cp) (FormatVersion ver)
              :: required').
      split; [done|]. constructor; [|done]. simpl. split; [done|].
      right. split; [done|]. by exists ver.
Qed.




Lemma defaultAliases_blocks blocks :
  defaultAliases (Some <$> blocks) = Returned (Some <$> (defaultAlias <$> blocks)).
Proof.
  induction blocks as [|provider blocks IH]; [done|].
  rewrite !fmap_cons. simpl. by rewrite IH.
Qed.

Lemma connectionError_user (details : string) : diag.isUserError (connectionError details).
Proof. done. Qed.

(** What [validateConnection] does to a connection. *)
Lemma validateConnection_cases connection :
  ∃ connection' diags,
    validateConnection (Some connection) = Returned (connection', diags)
    ∧ Forall diag.isUserError diags
    ∧ (length diags ≤ 2)%nat
    ∧ Connection.DSNFile connection' = Connection.DSNFile connection
    ∧ Connection.Host connection' = Connection.Host connection
    ∧ Connection.Database connection' = Connection.Database connection
    ∧ Connection.Attributes connection' = Connection.Attributes connection
    ∧ (GetString "dsn" ≠ "" → Connection.DSN connection ≠ "" →
       connection' = connection ∧ diags = [])
    ∧ (diags = [] →
       (Connection.DSN connection' ≠ ""
        ∨ Connection.Host connection' ≠ "" ∧ Connection.Database connection' ≠ "")
       ∧ (GetString "dsn" = "" →
          (Connection.DSN connection' ≠ "" → IsAnyConnParamsSet connection' = false)
          ∧ (Connection.DSNFile connection ≠ "" →
             Connection.DSN connection = ""
             ∧ ∃ dsnBytes, ReadFile (Connection.DSNFile connection) = inr dsnBytes
                           ∧ Connection.DSN connection' = TrimSpace dsnBytes)
          ∧ (Connection.DSNFile connection = "" → connection' = connection))).
Proof.
  unfold validateConnection.
  repeat (first
    [ case_bool_decide
    | match goal with
      | |- context [ReadFile ?f] => destruct (ReadFile f) eqn:?
      | |- context [if IsAnyConnParamsSet ?x then _ else _] =>
          destruct (IsAnyConnParamsSet x) eqn:?
      end ]; simpl);
    repeat match goal with
           | H : ¬ (_ ≠ _) |- _ => apply dec_stable in H
           end;
    eexists _, _; (split; [reflexivity|]); simpl; split_and!;
    try done; try lia; try (by repeat constructor); try naive_solver.
Qed.

Lemma HasErrors_user_nil diags :
  Forall diag.isUserError diags → diag.HasErrors diags = false → diags = [].
Proof.
  intros Hall Hno. destruct diags as [|d diags]; [done|].
  by rewrite (HasErrors_user (d :: diags)) in Hno.
Qed.

(** What the first two steps of [ProcessConfig] leave. *)
Lemma overrideFromCLIFlags_defaults c :
  ∃ c1,
    overrideFromCLIFlags (assignDefaults c) = Returned c1
    ∧ CloudQuery.Connection (Config.CloudQuery c1) = Some (connectionToValidate c)
    ∧ CloudQuery.Providers (Config.CloudQuery c1) = CloudQuery.Providers (Config.CloudQuery c)
    ∧ Config.Providers c1 = Config.Providers c
    ∧ CloudQuery.PluginDirectory (Config.CloudQuery c1)
      = (if bool_decide (GetString "data-dir" ≠ "")
         then JoinPath (GetString "data-dir") "providers"
         else CloudQuery.PluginDirectory (Config.CloudQuery c))
    ∧ CloudQuery.PolicyDirectory (Config.CloudQuery c1)
      = (if bool_decide (GetString "data-dir" ≠ "")
         then JoinPath (GetString "data-dir") "policies"
         else CloudQuery.PolicyDirectory (Config.CloudQuery c)).
Proof.
  unfold overrideFromCLIFlags, assignDefaults, connectionToValidate.
  destruct c as [[plug pol [connection|] entries] providers]; simpl;
    case_bool_decide; simpl; by eexists.
Qed.

(** A nil entry in either slice makes [ProcessConfig] dereference it. *)
Lemma ProcessConfig_nil_entry c :
  None ∈ CloudQuery.Providers (Config.CloudQuery c) ∨ None ∈ Config.Providers c →
  ProcessConfig c = Panicked.
Proof.
  intros Hnil.
  destruct (overrideFromCLIFlags_defaults c) as (c1 & Hover & Hc1 & Hreq & Hprov & _).
  unfold ProcessConfig. rewrite Hover. unfold validate. rewrite Hreq, Hc1.
  unfold validateCloudQueryProviders.
  destruct (entries_cases (CloudQuery.Providers (Config.CloudQuery c)))
    as [[required Hrequired]|Hbad];
    [|by rewrite validateCloudQueryProvidersLoop_nil_entry].
  destruct Hnil as [Hnil|Hnil]; [rewrite Hrequired in Hnil; by apply no_nil_entry in Hnil|].
  destruct (validateCloudQueryProvidersLoop _ _); [|done].
  destruct (validateConnection_cases (connectionToValidate c))
    as (connection' & cdiags & -> & _).
  unfold validateProvidersBlock. simpl. rewrite Hprov.
  by rewrite validateProvidersBlockLoop_nil_entry.
Qed.

(** The run of [ProcessConfig] on a configuration without nil entries: it
    validates [connectionToValidate c] and normalizes when the three checks
    report nothing. *)
Lemma ProcessConfig_anatomy c required blocks :
  CloudQuery.Providers (Config.CloudQuery c) = Some <$> required →
  Config.Providers c = Some <$> blocks →
  ∃ connection' vdiags cdiags bdiags,
    validateConnection (Some (connectionToValidate c)) = Returned (connection', cdiags)
    ∧ validateCloudQueryProviders (CloudQuery.Providers (Config.CloudQuery c))
      = Returned vdiags
    ∧ validateProvidersBlock c = Returned bdiags
    ∧ (vdiags = [] ↔ Forall acceptable required)
    ∧ (bdiags = [] ↔ NoDup (providerKey <$> blocks))
    ∧ let diags := vdiags ++ cdiags ++ bdiags in
      let pluginDirectory :=
        if bool_decide (GetString "data-dir" ≠ "")
        then JoinPath (GetString "data-dir") "providers"
        else CloudQuery.PluginDirectory (Config.CloudQuery c) in
      let policyDirectory :=
        if bool_decide (GetString "data-dir" ≠ "")
        then JoinPath (GetString "data-dir") "policies"
        else CloudQuery.PolicyDirectory (Config.CloudQuery c) in
      Forall diag.isUserError diags
      ∧ (diags ≠ [] →
         ProcessConfig c
         = Returned (Config.mk
                       (CloudQuery.mk pluginDirectory policyDirectory (Some connection')
                          (CloudQuery.Providers (Config.CloudQuery c)))
                       (Config.Providers c),
                     diags))
      ∧ (diags = [] →
         ∃ required',
           Forall2 versionNormalized required required'
           ∧ ProcessConfig c
             = Returned (Config.mk
                           (CloudQuery.mk pluginDirectory policyDirectory
                              (Some (if bool_decide (Connection.DSN connection' = "")
                                     then BuildFromConnParams connection' else connection'))
                              (Some <$> required'))
                           (Some <$> (defaultAlias <$> blocks)),
                         [])).
Proof.
  intros Hrequired Hblocks.
  destruct (validateConnection_cases (connectionToValidate c))
    as (connection' & cdiags & Hconn & Huser & _).
  destruct (validateCloudQueryProvidersLoop_entries required [])
    as (vdiags & Hversions & Hvuser & Hvnil).
  destruct (validateProvidersBlock_blocks c blocks Hblocks)
    as (bdiags & Hblock & Hbuser & Hbnil & _).
  exists connection', vdiags, cdiags, bdiags.
  split; [exact Hconn|].
  split; [unfold validateCloudQueryProviders; by rewrite Hrequired|].
  split; [exact Hblock|]. split; [exact Hvnil|]. split; [exact Hbnil|].
  cbv zeta.
  assert (Hall : Forall diag.isUserError (vdiags ++ cdiags ++ bdiags))
    by (by repeat (apply Forall_app; split)).
  split; [exact Hall|].
  destruct (overrideFromCLIFlags_defaults c)
    as (c1 & Hover & Hc1 & Hreq & Hprov & Hplug & Hpol).
  assert (Hvalid : validate c1
    = Returned (Config.mk
                  (CloudQuery.mk (CloudQuery.PluginDirectory (Config.CloudQuery c1))
                     (CloudQuery.PolicyDirectory (Config.CloudQuery c1)) (Some connection')
                     (CloudQuery.Providers (Config.CloudQuery c)))
                  (Config.Providers c),
                vdiags ++ cdiags ++ bdiags)).
  { unfold validate, validateCloudQueryProviders.
    rewrite Hc1, Hconn, Hreq, Hprov, Hrequired, Hversions.
    unfold validateProvidersBlock in *. simpl. rewrite Hblock.
    unfold diag.Add. simpl. by rewrite <- app_assoc. }
  unfold ProcessConfig. rewrite Hover, Hvalid, Hplug, Hpol. split.
  - intros Hne. by rewrite (HasErrors_user _ Hne Hall).
  - intros Hnil. rewrite Hnil. simpl.
    apply app_eq_nil in Hnil as [Hv _]. apply Hvnil in Hv.
    destruct (normalizeVersions_accepted _ Hv) as (required' & Hnorm & Hrel).
    exists required'. split; [exact Hrel|].
    unfold normalize. simpl. by rewrite Hrequired, Hnorm, Hblocks, defaultAliases_blocks.
Qed.

(** X24. A connection that [validateConnection] accepts without a
    diagnostic has a DSN, or at least a host and a database. Without the
    flag [--dsn] its DSN has one source only: a DSN comes with no explicit
    attributes, and a DSN file comes with no literal DSN and sets the DSN
    to the trimmed contents of the file. *)
Theorem X24_accepted_connection_is_usable connection connection' :
  validateConnection (Some connection) = Returned (connection', []) →
  (Connection.DSN connection' ≠ ""
   ∨ Connection.Host connection' ≠ "" ∧ Connection.Database connection' ≠ "")
  ∧ (GetString "dsn" = "" →
     (Connection.DSN connection' ≠ "" → IsAnyConnParamsSet connection' = false)
     ∧ (Connection.DSNFile connection ≠ "" →
        Connection.DSN connection = ""
        ∧ ∃ dsnBytes, ReadFile (Connection.DSNFile connection) = inr dsnBytes
                      ∧ Connection.DSN connection' = TrimSpace dsnBytes)
     ∧ (Connection.DSNFile connection = "" → connection' = connection)).
Proof.
  intros Hrun.
  destruct (validateConnection_cases connection)
    as (connection0 & diags & Hconn & _ & _ & _ & _ & _ & _ & _ & Hok).
  rewrite Hrun in Hconn. injection Hconn as <- <-. by apply Hok.
Qed.

(** X25. [validateConnection] returns for every connection, with at most
    two diagnostics, all of them user-classified errors; it changes nothing
    of the connection but its DSN; and when the flag [--dsn] is given and
    the connection has a DSN it reports nothing and changes nothing,
    whatever else the connection block holds. *)
Theorem X25_connection_diagnostics connection :
  ∃ connection' diags,
    validateConnection (Some connection) = Returned (connection', diags)
    ∧ Forall diag.isUserError diags
    ∧ (length diags ≤ 2)%nat
    ∧ Connection.DSNFile connection' = Connection.DSNFile connection
    ∧ Connection.Host connection' = Connection.Host connection
    ∧ Connection.Database connection' = Connection.Database connection
    ∧ Connection.Attributes connection' = Connection.Attributes connection
    ∧ (GetString "dsn" ≠ "" → Connection.DSN connection ≠ "" →
       connection' = connection ∧ diags = []).
Proof.
  destruct (validateConnection_cases connection)
    as (connection' & diags & Hconn & Huser & Hlen & Hfile & Hhost & Hdb & Hattr & Hflag & _).
  by exists connection', diags.
Qed.



(** X28. In a configuration that [ProcessConfig] accepts without a
    diagnostic, neither slice holds a nil entry, every provider block
    carries as its alias the key it was validated under (its alias, or its
    name when it had none), these aliases are pairwise distinct, the names
    are unchanged, and every required provider has the version [latest] or
    the formatted version [v...] of the version it had. *)
Theorem X28_accepted_configuration_is_normalized c c' :
  ProcessConfig c = Returned (c', []) →
  ∃ blocks blocks' required required',
    Config.Providers c = Some <$> blocks
    ∧ Config.Providers c' = Some <$> blocks'
    ∧ CloudQuery.Providers (Config.CloudQuery c) = Some <$> required
    ∧ CloudQuery.Providers (Config.CloudQuery c') = Some <$> required'
    ∧ config.Alias <$> blocks' = providerKey <$> blocks
    ∧ NoDup (config.Alias <$> blocks')
    ∧ config.Name <$> blocks' = config.Name <$> blocks
    ∧ Forall2 versionNormalized required required'.
Proof.
  intros Hrun.
  destruct (entries_cases (CloudQuery.Providers (Config.CloudQuery c)))
    as [[required Hrequired]|Hnil];
    [|rewrite ProcessConfig_nil_entry in Hrun; [done | by left]].
  destruct (entries_cases (Config.Providers c)) as [[blocks Hblocks]|Hnil];
    [|rewrite ProcessConfig_nil_entry in Hrun; [done | by right]].
  destruct (ProcessConfig_anatomy c required blocks Hrequired Hblocks)
    as (connection' & vdiags & cdiags & bdiags & _ & _ & _ & _ & Hbnil & Hall & Hbad & Hgood).
  cbv zeta in *.
  destruct (decide (vdiags ++ cdiags ++ bdiags = [])) as [Hnil|Hne].
  - destruct (Hgood Hnil) as (required' & Hrel & Hok).
    rewrite Hok in Hrun. injection Hrun as <-. simpl.
    apply app_eq_nil in Hnil as [_ Hnil]. apply app_eq_nil in Hnil as [_ Hb].
    apply Hbnil in Hb.
    assert (Halias : config.Alias <$> (defaultAlias <$> blocks) = providerKey <$> blocks).
    { rewrite <- list_fmap_compose. apply list_fmap_ext. intros i provider _. simpl.
      clear. unfold defaultAlias, providerKey. by repeat case_bool_decide. }
    exists blocks, (defaultAlias <$> blocks), required, required'.
    split; [done|]. split; [done|]. split; [done|]. split; [done|].
    split; [exact Halias|]. split; [by rewrite Halias|]. split; [|exact Hrel].
    rewrite <- list_fmap_compose. apply list_fmap_ext. intros i provider _. simpl.
    clear. unfold defaultAlias. by case_bool_decide.
  - rewrite (Hbad Hne) in Hrun. by injection Hrun as _ Hdiags.
Qed.

(** X29. With the flag [--dsn], [ProcessConfig] gives the connection the
    DSN of the flag and reports nothing about the connection, whatever the
    connection block holds: its diagnostics are those of the required
    providers followed by those of the provider blocks. *)
Theorem X29_dsn_flag_overrides_connection c c' diags :
  GetString "dsn" ≠ "" →
  ProcessConfig c = Returned (c', diags) →
  (∃ connection, CloudQuery.Connection (Config.CloudQuery c') = Some connection
                 ∧ Connection.DSN connection = GetString "dsn")
  ∧ ∃ vdiags bdiags,
      validateCloudQueryProviders (CloudQuery.Providers (Config.CloudQuery c))
      = Returned vdiags
      ∧ validateProvidersBlock c = Returned bdiags
      ∧ diags = vdiags ++ bdiags.
Proof.
  intros Hflag Hrun.
  destruct (entries_cases (CloudQuery.Providers (Config.CloudQuery c)))
    as [[required Hrequired]|Hnil];
    [|rewrite ProcessConfig_nil_entry in Hrun; [done | by left]].
  destruct (entries_cases (Config.Providers c)) as [[blocks Hblocks]|Hnil];
    [|rewrite ProcessConfig_nil_entry in Hrun; [done | by right]].
  destruct (ProcessConfig_anatomy c required blocks Hrequired Hblocks)
    as (connection' & vdiags & cdiags & bdiags & Hconn & Hv & Hb & _ & _ & Hall & Hbad
        & Hgood).
  cbv zeta in *.
  assert (Hdsn : Connection.DSN (connectionToValidate c) = GetString "dsn").
  { unfold connectionToValidate. by rewrite bool_decide_eq_true_2. }
  destruct (validateConnection_cases (connectionToValidate c))
    as (connection0 & cdiags0 & Hconn0 & _ & _ & _ & _ & _ & _ & Hquiet & _).
  rewrite Hconn in Hconn0. injection Hconn0 as <- <-.
  destruct Hquiet as [-> ->]; [done | by rewrite Hdsn |].
  simpl in *.
  destruct (decide (vdiags ++ bdiags = [])) as [Hnil|Hne].
  - destruct (Hgood Hnil) as (required' & _ & Hok).
    rewrite Hok in Hrun. injection Hrun as <- <-. simpl. split.
    + rewrite bool_decide_eq_false_2 by (by rewrite Hdsn). by eexists.
    + by exists vdiags, bdiags.
  - rewrite (Hbad Hne) in Hrun. injection Hrun as <- <-. simpl. split.
    + by eexists.
    + by exists vdiags, bdiags.
Qed.

End ConfigProcessing.

(** Witness of X24: the DSN comes from the file [dsn.txt]. *)
Lemma X24_accepted_connection_is_usable_witness :
  validateConnection (CE:=sampleEnvironment) (Some (Connection.mk "" "dsn.txt" "" "" []))
  = Returned (Connection.mk "postgres://localhost/cq" "dsn.txt" "" "" [], [])
  ∧ (Connection.DSN (Connection.mk "postgres://localhost/cq" "dsn.txt" "" "" []) ≠ ""
     ∨ Connection.Host (Connection.mk "postgres://localhost/cq" "dsn.txt" "" "" []) ≠ ""
       ∧ Connection.Database (Connection.mk "postgres://localhost/cq" "dsn.txt" "" "" []) ≠ "").
Proof.
  assert (Hrun : validateConnection (CE:=sampleEnvironment)
                   (Some (Connection.mk "" "dsn.txt" "" "" []))
                 = Returned (Connection.mk "postgres://localhost/cq" "dsn.txt" "" "" [], []))
    by (by vm_compute).
  split; [exact Hrun|].
  exact (proj1 (X24_accepted_connection_is_usable (CE:=sampleEnvironment) _ _ Hrun)).
Defined.

(** Witness of X28: the sample configuration is accepted; its blocks get
    the aliases [aws] and [eu], its required version [0.10] becomes
    [v0.10.0]. *)
Lemma X28_accepted_configuration_is_normalized_witness :
  ∃ c' blocks' required',
    ProcessConfig (CE:=sampleEnvironment) sampleConfig = Returned (c', [])
    ∧ Config.Providers c' = Some <$> blocks'
    ∧ config.Alias <$> blocks' = ["aws"; "eu"]
    ∧ NoDup (config.Alias <$> blocks')
    ∧ CloudQuery.Providers (Config.CloudQuery c') = Some <$> required'
    ∧ RequiredProvider.Version <$> required' = ["v0.10.0"].
Proof.
  destruct (ProcessConfig (CE:=sampleEnvironment) sampleConfig) as [[c' diags]|] eqn:Hrun;
    [|by vm_compute in Hrun].
  assert (diags = []) as -> by (vm_compute in Hrun; by injection Hrun as _ <-).
  destruct (X28_accepted_configuration_is_normalized (CE:=sampleEnvironment) _ _ Hrun)
    as (blocks & blocks' & required & required' & Hb & Hb' & _ & Hr' & Halias & Hnd & _ & _).
  exists c', blocks', required'. split; [reflexivity|]. split; [exact Hb'|].
  assert (Hblocks : blocks = [sampleBlock "aws" ""; sampleBlock "aws" "eu"]).
  { symmetry. by apply (inj (fmap Some)). }
  split; [by rewrite Halias, Hblocks|]. split; [exact Hnd|]. split; [exact Hr'|].
  vm_compute in Hrun. injection Hrun as <-. simpl in Hr'.
  destruct required' as [|r [|r' required']]; cbn in Hr'; simplify_eq. done.
Defined.

(** Witness of X29: a connection block with a DSN and a host, which is
    refused without the flag, is accepted with it. *)
Lemma X29_dsn_flag_overrides_connection_witness :
  ∃ c' diags,
    ProcessConfig (CE:=flaggedEnvironment)
      (Config.mk
         (CloudQuery.mk "" "" (Some (Connection.mk "postgres://config/db" "" "localhost" "" []))
            [])
         [Some (sampleBlock "aws" "")])
    = Returned (c', diags)
    ∧ GetString (ConfigEnvironment:=flaggedEnvironment) "dsn" ≠ ""
    ∧ diags = []
    ∧ ∃ connection, CloudQuery.Connection (Config.CloudQuery c') = Some connection
                    ∧ Connection.DSN connection = "postgres://flag/db".
Proof.
  destruct (ProcessConfig (CE:=flaggedEnvironment)
      (Config.mk
         (CloudQuery.mk "" "" (Some (Connection.mk "postgres://config/db" "" "localhost" "" []))
            [])
         [Some (sampleBlock "aws" "")])) as [[c' diags]|] eqn:Hrun; [|by vm_compute in Hrun].
  assert (Hflag : GetString (ConfigEnvironment:=flaggedEnvironment) "dsn" ≠ "") by done.
  exists c', diags. split; [reflexivity|]. split; [exact Hflag|].
  destruct (X29_dsn_flag_overrides_connection (CE:=flaggedEnvironment) _ _ _ Hflag Hrun)
    as (Hconn & vdiags & bdiags & Hv & Hb & ->).
  split; [|exact Hconn].
  vm_compute in Hv. injection Hv as <-. vm_compute in Hb. by injection Hb as <-.
Defined.

(** ** The provider argument of [cloudquery init] *)

Section ProviderArgument.

Context `{CE : ConfigEnvironment} `{RG : Registry}.

Lemma Split_length (s : string) (sep : ascii) :
  length (Split s sep) = S (countByte s sep).
Proof.
  induction s as [|c s IH]; [done|].
  simpl. destruct (decide (c = sep)); simpl; [by rewrite IH|].
  destruct (Split s sep) as [|piece pieces]; [done|]. exact IH.
Qed.

Lemma Split_without (s : string) (sep : ascii) :
  countByte s sep = 0%nat → Split s sep = [s].
Proof.
  induction s as [|c s IH]; [done|].
  simpl. destruct (decide (c = sep)); [done|]. intros Hcount. by rewrite IH.
Qed.

Lemma Split_first (s t : string) (sep : ascii) :
  countByte s sep = 0%nat → Split (s +:+ String sep t) sep = s :: Split t sep.
Proof.
  induction s as [|c s IH].
  - intros _. rewrite append_Empty. simpl. by rewrite decide_True.
  - intros Hcount. simpl in Hcount. destruct (decide (c = sep)); [done|].
    rewrite append_String. simpl. rewrite decide_False by done. by rewrite IH.
Qed.

(** X30. [ParseProviderCLIArg] returns for every argument, without
    indexing out of range. With two or more [@] it fails with empty
    results. Without an [@] the argument is the provider name and is read
    as the same argument followed by [@latest]. When there is no error the
    argument has at most one [@], and the version is [latest] or the
    formatted version [v...] of a version that parses; when there is an
    error the results are empty unless the version is [latest]. *)
Theorem X30_provider_argument (arg : string) :
  ∃ org name version err,
    ParseProviderCLIArg arg = Returned (org, name, version, err)
    ∧ ((2 ≤ countByte arg "@")%nat →
       (org, name, version) = ("", "", "")
       ∧ err = Some ("invalid provider name@version " +:+ fmt.q arg))
    ∧ (countByte arg "@" = 0%nat →
       (org, name, err) = ParseProviderName arg
       ∧ version = "latest"
       ∧ ParseProviderCLIArg (arg +:+ "@latest") = ParseProviderCLIArg arg)
    ∧ (err = None →
       (countByte arg "@" ≤ 1)%nat
       ∧ (version = "latest"
          ∨ ∃ p ver, ParseVersion p = inr ver ∧ version = "v" +:+ VersionString ver))
    ∧ (err ≠ None → version ≠ "latest" → (org, name, version) = ("", "", "")).
Proof.
  pose proof (Split_length arg "@") as Hlen.
  destruct (countByte arg "@") as [|[|n]] eqn:Hcount.
  - (* no separator *)
    pose proof (Split_without arg "@" Hcount) as Hsplit.
    assert (Hlatest : Split (arg +:+ "@latest") "@" = [arg; "latest"])
      by (by rewrite (Split_first arg "latest" "@" Hcount)).
    unfold ParseProviderCLIArg. rewrite Hsplit, Hlatest. simpl.
    destruct (ParseProviderName arg) as [[org name] err].
    exists org, name, "latest", err.
    split; [done|]. split; [lia|]. split; [done|]. split; [|done].
    intros _. split; [lia | by left].
  - (* one separator *)
    unfold ParseProviderCLIArg.
    destruct (Split arg "@") as [|p0 [|p1 [|p2 rest]]]; try done. simpl.
    case_bool_decide as Hp1; simpl.
    + destruct (ParseProviderName p0) as [[org name] err].
      exists org, name, "latest", err.
      split; [done|]. split; [lia|]. split; [done|]. split; [|done].
      intros _. split; [lia | by left].
    + destruct (ParseProviderName p0) as [[org name] [e|]]; simpl.
      * exists "", "", "", (Some e). split; [done|]. split; [lia|]. by repeat split.
      * destruct (ParseVersion p1) as [e|ver] eqn:Hparse.
        -- eexists "", "", "", _. split; [reflexivity|]. split; [lia|]. by repeat split.
        -- exists org, name, (FormatVersion ver), None.
           split; [done|]. split; [lia|]. split; [done|]. split; [|done].
           intros _. split; [lia|]. right. by exists p1, ver.
  - (* two separators or more *)
    unfold ParseProviderCLIArg.
    rewrite bool_decide_eq_true_2 by lia.
    eexists "", "", "", _. split; [reflexivity|]. by repeat split.
Qed.

End ProviderArgument.

(** Witness of X30: [aws] is read as [aws@latest], and [aws@0.10] gives
    the version [v0.10.0]. *)
Lemma X30_provider_argument_witness :
  ParseProviderCLIArg (CE:=sampleEnvironment) (RG:=sampleRegistry) "aws@latest"
  = ParseProviderCLIArg (CE:=sampleEnvironment) (RG:=sampleRegistry) "aws"
  ∧ ParseProviderCLIArg (CE:=sampleEnvironment) (RG:=sampleRegistry) "aws@0.10"
    = Returned ("cloudquery", "aws", "v0.10.0", None).
Proof.
  split; [|by vm_compute].
  destruct (X30_provider_argument (CE:=sampleEnvironment) (RG:=sampleRegistry) "aws")
    as (org & name & version & err & _ & _ & Hplain & _).
  by destruct (Hplain eq_refl) as (_ & _ & Hsame).
Defined.
